(** * Relay server of obsidian-live-share: control channel, CRDT channel,
      persistence and upgrade gateway.

    The development embeds the server's handlers as pure functions over
    explicit state.  WebSocket objects are compared by identity in the
    source; here a socket is a number.  Every [ws.send] and [ws.close] a
    handler performs is returned as a list of effects, in program order. *)

From Stdlib Require Import ZArith List Bool Lia Ascii.
From stdpp Require Import gmap strings list.
Import ListNotations.

Local Open Scope string_scope.

(** ** Sockets *)

Definition WebSocket := nat.

Inductive ReadyState := CONNECTING | OPEN | CLOSING | CLOSED.

Definition isOpen (s : ReadyState) : bool :=
  match s with OPEN => true | _ => false end.

(** JavaScript truthiness of an optional string field: [undefined] and the
    empty string are falsy. *)
Definition truthy (o : option string) : bool :=
  match o with
  | Some s => negb (String.eqb s "")
  | None => false
  end.

(** [(x as string) || ""] *)
Definition orEmpty (o : option string) : string :=
  match o with Some s => s | None => "" end.

(** [a === b] where [a] is a string held by the server and [b] a message
    field that may be absent. *)
Definition strictEq (a : string) (b : option string) : bool :=
  match b with Some s => String.eqb a s | None => false end.

(** The room metadata the handlers read ([Room] in persistence.ts). *)
Record Room := mkRoom {
  room_id : string;
  room_token : string;
  hostUserId : option string;
  requireApproval : option bool;
  defaultPermission : option string
}.

(** The outcome of a call that may throw. *)
Inductive Result (A : Type) :=
| Ok (a : A)
| Throws.
Arguments Ok {A} a.
Arguments Throws {A}.

(** ** Control channel (control-handler.ts) *)

Module Control.

Definition ALLOWED_TYPES : list string :=
  [ "file-op"; "presence-update"; "follow-update"; "session-end";
    "join-request"; "join-response"; "focus-request"; "summon"; "kick" ].

Definition allowed (t : string) : bool :=
  existsb (String.eqb t) ALLOWED_TYPES.

Record ControlClient := mkClient {
  userId : string;
  displayName : string;
  isHost : bool;
  approved : bool;
  permission : string
}.

Record ControlRoom := mkControlRoom {
  clients : list (WebSocket * ControlClient);
  pendingApprovals : gmap string WebSocket
}.

(** A parsed control message.  Fields are modelled at the types the handler
    casts them to; [None] is an absent field. *)
Record Msg := mkMsg {
  type : string;
  m_userId : option string;
  m_displayName : option string;
  m_avatarUrl : option string;
  m_approved : option bool;
  m_permission : option string;
  m_targetUserId : option string
}.

(** An inbound frame: the raw text and what [JSON.parse] makes of it.
    [json = None] stands for a parse error or a parsed value whose [type] is
    not a string; both are dropped by the handler before anything else.
    (The text [null] parses to a value without properties; reading its
    [type] throws, and that frame is not covered here.) *)
Record Frame := mkFrame {
  data : string;
  json : option Msg
}.

Inductive Payload :=
| Raw (d : string)
| JoinRequest (uid dname avatar : string)
| JoinResponse (ok : bool) (perm : string)
| Kicked
| PresenceLeave (uid : string).

Inductive Effect :=
| Send (ws : WebSocket) (p : Payload)
| Close (ws : WebSocket).

(** *** The [Map<WebSocket, ControlClient>] in insertion order *)

Fixpoint mapGet {A} (ws : WebSocket) (m : list (WebSocket * A)) : option A :=
  match m with
  | [] => None
  | (k, v) :: rest => if Nat.eqb k ws then Some v else mapGet ws rest
  end.

Fixpoint mapSet {A} (ws : WebSocket) (v : A) (m : list (WebSocket * A))
  : list (WebSocket * A) :=
  match m with
  | [] => [(ws, v)]
  | (k, w) :: rest =>
      if Nat.eqb k ws then (k, v) :: rest else (k, w) :: mapSet ws v rest
  end.

(** [Map.delete]; the keys of a [Map] are unique, so at most one entry goes *)
Fixpoint mapDelete {A} (ws : WebSocket) (m : list (WebSocket * A))
  : list (WebSocket * A) :=
  match m with
  | [] => []
  | (k, w) :: rest =>
      if Nat.eqb k ws then mapDelete ws rest else (k, w) :: mapDelete ws rest
  end.

Definition emptyRoom : ControlRoom :=
  {| clients := []; pendingApprovals := ∅ |}.

Definition getOrCreateRoom (rooms : gmap string ControlRoom) (roomId : string)
  : gmap string ControlRoom * ControlRoom :=
  match rooms !! roomId with
  | Some room => (rooms, room)
  | None => (<[roomId := emptyRoom]> rooms, emptyRoom)
  end.

Section Handlers.

(** The state of every socket at the time the handler runs. *)
Variable readyState : WebSocket -> ReadyState.

(** [getRoom(roomId)], captured when the connection was made. *)
Variable serverRoom : option Room.

Definition broadcast (room : ControlRoom) (p : Payload)
    (exclude : option WebSocket) : list Effect :=
  map (fun e => Send (fst e) p)
    (List.filter
       (fun e => negb (bool_decide (Some (fst e) = exclude))
                 && approved (snd e)
                 && isOpen (readyState (fst e)))
       (clients room)).

Definition sendTo (ws : WebSocket) (p : Payload) : list Effect :=
  if isOpen (readyState ws) then [Send ws p] else [].

Definition findHost (room : ControlRoom) : option (WebSocket * ControlClient) :=
  List.find (fun e => isHost (snd e)) (clients room).

Definition serverHostUserId : option string :=
  match serverRoom with Some r => hostUserId r | None => None end.

Definition serverRequireApproval : bool :=
  match serverRoom with
  | Some r => match requireApproval r with Some b => b | None => false end
  | None => false
  end.

(** [serverRoom?.defaultPermission || "read-write"] *)
Definition initialPermission : string :=
  match serverRoom with
  | Some r => if truthy (defaultPermission r)
              then orEmpty (defaultPermission r) else "read-write"
  | None => "read-write"
  end.

Definition newClient : ControlClient :=
  {| userId := ""; displayName := ""; isHost := false;
     approved := true; permission := initialPermission |}.

Definition onConnection (room : ControlRoom) (ws : WebSocket) : ControlRoom :=
  {| clients := mapSet ws newClient (clients room);
     pendingApprovals := pendingApprovals room |}.

Definition setClient (room : ControlRoom) (ws : WebSocket) (c : ControlClient)
  : ControlRoom :=
  {| clients := mapSet ws c (clients room);
     pendingApprovals := pendingApprovals room |}.

Definition handleJoinRequest (room : ControlRoom) (ws : WebSocket)
    (client : ControlClient) (msg : Msg) : ControlRoom * list Effect :=
  let uid := if truthy (m_userId msg) then orEmpty (m_userId msg) else "" in
  let dn := if truthy (m_displayName msg) then orEmpty (m_displayName msg) else "" in
  if serverRequireApproval then
    let c := {| userId := uid; displayName := dn; isHost := isHost client;
                approved := false; permission := permission client |} in
    let room1 := {| clients := mapSet ws c (clients room);
                    pendingApprovals := <[uid := ws]> (pendingApprovals room) |} in
    (room1,
     match findHost room1 with
     | Some host =>
         sendTo (fst host)
           (JoinRequest uid dn
              (if truthy (m_avatarUrl msg) then orEmpty (m_avatarUrl msg) else ""))
     | None => []
     end)
  else
    let c := {| userId := uid; displayName := dn; isHost := isHost client;
                approved := true; permission := permission client |} in
    (setClient room ws c, sendTo ws (JoinResponse true (permission client))).

Definition handleJoinResponse (room : ControlRoom) (msg : Msg)
  : ControlRoom * list Effect :=
  match m_userId msg with
  | None => (room, [])
  | Some targetUserId =>
      match pendingApprovals room !! targetUserId with
      | None => (room, [])
      | Some targetWs =>
          let pend := delete targetUserId (pendingApprovals room) in
          match mapGet targetWs (clients room) with
          | None => ({| clients := clients room; pendingApprovals := pend |}, [])
          | Some targetClient =>
              let ok := match m_approved msg with Some b => b | None => false end in
              let perm := if truthy (m_permission msg)
                          then orEmpty (m_permission msg)
                          else permission targetClient in
              let c := {| userId := userId targetClient;
                          displayName := displayName targetClient;
                          isHost := isHost targetClient;
                          approved := ok; permission := perm |} in
              ({| clients := mapSet targetWs c (clients room);
                  pendingApprovals := pend |},
               sendTo targetWs (JoinResponse ok perm))
          end
      end
  end.

Definition handleKick (room : ControlRoom) (msg : Msg) : list Effect :=
  flat_map
    (fun e => if strictEq (userId (snd e)) (m_userId msg)
              then (sendTo (fst e) Kicked ++ [Close (fst e)])%list
              else [])
    (clients room).

Definition routeSummon (room : ControlRoom) (f : Frame) (msg : Msg)
  : list Effect :=
  map (fun e => Send (fst e) (Raw (data f)))
    (List.filter
       (fun e => strictEq (userId (snd e)) (m_targetUserId msg)
                 && isOpen (readyState (fst e)))
       (clients room)).

Definition trackPresence (room : ControlRoom) (client : ControlClient)
    (msg : Msg) : ControlClient :=
  let c1 :=
    if truthy (m_userId msg) then
      {| userId := orEmpty (m_userId msg);
         displayName := displayName client;
         isHost :=
           if String.eqb (userId client) "" then
             if truthy serverHostUserId
             then strictEq (orEmpty (m_userId msg)) serverHostUserId
             else match findHost room with Some _ => false | None => true end
           else isHost client;
         approved := approved client;
         permission := permission client |}
    else client in
  if truthy (m_displayName msg) then
    {| userId := userId c1; displayName := orEmpty (m_displayName msg);
       isHost := isHost c1; approved := approved c1;
       permission := permission c1 |}
  else c1.

(** The 'message' handler of socket [ws].  [client] is the record the
    connection put into the map; a socket receives frames only between its
    connection and its 'close' event, while the record is there. *)
Definition onMessage (room : ControlRoom) (ws : WebSocket) (f : Frame)
  : ControlRoom * list Effect :=
  match mapGet ws (clients room) with
  | None => (room, [])
  | Some client =>
      match json f with
      | None => (room, [])
      | Some msg =>
          if negb (allowed (type msg)) then (room, [])
          else if String.eqb (type msg) "join-request" then
            handleJoinRequest room ws client msg
          else if String.eqb (type msg) "join-response" && isHost client then
            handleJoinResponse room msg
          else if String.eqb (type msg) "kick" && isHost client then
            (room, handleKick room msg)
          else if String.eqb (type msg) "file-op"
                  && String.eqb (permission client) "read-only" then
            (room, [])
          else if negb (approved client) then (room, [])
          else if String.eqb (type msg) "summon"
                  && negb (bool_decide (m_targetUserId msg = Some "__all__")) then
            (room, routeSummon room f msg)
          else if String.eqb (type msg) "presence-update" then
            let room1 := setClient room ws (trackPresence room client msg) in
            (room1, broadcast room1 (Raw (data f)) (Some ws))
          else
            (room, broadcast room (Raw (data f)) (Some ws))
      end
  end.

Definition onClose (room : ControlRoom) (ws : WebSocket)
  : ControlRoom * list Effect :=
  match mapGet ws (clients room) with
  | Some closingClient =>
      let pend := delete (userId closingClient) (pendingApprovals room) in
      let room1 := {| clients := clients room; pendingApprovals := pend |} in
      ({| clients := mapDelete ws (clients room); pendingApprovals := pend |},
       if negb (String.eqb (userId closingClient) "")
       then broadcast room1 (PresenceLeave (userId closingClient)) (Some ws)
       else [])
  | None => (room, [])
  end.

End Handlers.

(** *** Runs of one control room

    A room lives in the server's map from the first connection to the last
    'close'; the handlers below act on the room itself. *)

Inductive Event :=
| Connection (ws : WebSocket)
| Message (ws : WebSocket) (f : Frame)
| Closed (ws : WebSocket).

Definition step (serverRoom : option Room) (room : ControlRoom)
    (e : (WebSocket -> ReadyState) * Event) : ControlRoom * list Effect :=
  match snd e with
  | Connection ws => (onConnection serverRoom room ws, [])
  | Message ws f => onMessage (fst e) serverRoom room ws f
  | Closed ws => onClose (fst e) room ws
  end.

Fixpoint run (serverRoom : option Room) (room : ControlRoom)
    (es : list ((WebSocket -> ReadyState) * Event)) : ControlRoom :=
  match es with
  | [] => room
  | e :: rest => run serverRoom (fst (step serverRoom room e)) rest
  end.

End Control.

(** ** The CRDT library (yjs, y-protocols, lib0)

    The server treats replicas and awareness objects as opaque values of the
    library.  Their operations are an interface; the two facts about them
    that the proofs below rely on are stated as laws of that interface.
    What the library does on its own clock (the sweep of outdated awareness
    states) is not part of the interface. *)

Definition bytes := list Z.

Record Change := mkChange {
  added : list Z;
  updated : list Z;
  removed : list Z
}.

Class YLib := {
  Doc : Type;
  Awareness : Type;
  (** [new Y.Doc()] and [new awarenessProtocol.Awareness(doc)] *)
  newDoc : Doc;
  newAwareness : Doc -> Awareness;
  (** [Y.applyUpdate(doc, update)]; [None] when it throws *)
  applyUpdate : Doc -> bytes -> option Doc;
  (** [Y.encodeStateAsUpdate(doc)] *)
  encodeStateAsUpdate : Doc -> bytes;
  (** [syncProtocol.readSyncMessage(decoder, encoder, doc, origin)] on the
      rest of the frame: the replica afterwards, what was written to the
      reply encoder, and the update the replica emitted, if any.  When the
      call throws, the reply is empty (nothing is sent) and the replica is
      as the throw leaves it. *)
  readSyncMessage : bytes -> Doc -> Doc * bytes * option bytes;
  writeSyncStep1 : Doc -> bytes;
  writeUpdate : bytes -> bytes;
  (** the keys of [awareness.getStates()] *)
  getStates : Awareness -> list Z;
  (** [readVarUint8Array] then [applyAwarenessUpdate]: the awareness object
      afterwards and the lists of the 'update' event, if one is emitted.
      When decoding throws no event is emitted and the awareness object is
      as the throw leaves it. *)
  applyAwarenessUpdate : Awareness -> bytes -> Awareness * option Change;
  (** [removeAwarenessStates(awareness, ids, null)]: the awareness object
      afterwards and the ids actually removed (an 'update' event is emitted
      when there are any). *)
  removeAwarenessStates : Awareness -> list Z -> Awareness * list Z;
  encodeAwarenessUpdate : Awareness -> list Z -> bytes
}.

(** y-protocols: removing ids leaves exactly the other ids. *)
Class AwarenessLaws (Y : YLib) := {
  removeAwarenessStates_states :
    forall (a : Awareness) (ids : list Z) (i : Z),
      In i (getStates (fst (removeAwarenessStates a ids)))
      <-> In i (getStates a) /\ ~ In i ids
}.

(** yjs: a full-state update applied to an empty replica rebuilds a replica
    with that encoded state. *)
Class ReplicaLaws (Y : YLib) := {
  applyUpdate_encodeStateAsUpdate :
    forall d : Doc,
      exists d', applyUpdate newDoc (encodeStateAsUpdate d) = Some d'
                 /\ encodeStateAsUpdate d' = encodeStateAsUpdate d
}.

(** ** Persistence (persistence.ts, LevelDB) *)

Module Persistence.

Section Level.
Context {Y : YLib}.

Definition docKey (docName : string) : string := "doc:" ++ docName.
Definition roomKey (id : string) : string := "room:" ++ id.

(** [db.get] raises LEVEL_NOT_FOUND on a missing key, which [loadDoc]
    swallows; an exception of [Y.applyUpdate] is rethrown.  The store is a
    finite map: a read that fails for another reason is an event of the
    server model ([LoadFail]), not of this function. *)
Definition loadDoc (db : gmap string bytes) (docName : string) (doc : Doc)
  : Result Doc :=
  match db !! docKey docName with
  | Some stored =>
      match applyUpdate doc stored with
      | Some doc' => Ok doc'
      | None => Throws
      end
  | None => Ok doc
  end.

Definition persistDoc (db : gmap string bytes) (docName : string) (doc : Doc)
  : gmap string bytes :=
  <[docKey docName := encodeStateAsUpdate doc]> db.

End Level.

End Persistence.

(** ** CRDT channel (ws-handler.ts) *)

Module Yjs.

Import Persistence.

Definition messageSync : Z := 0.
Definition messageAwareness : Z := 1.
Definition messageFileOp : Z := 2.

Definition MAX_SAFE_INTEGER : Z := 9007199254740991.

(** [decoding.readVarUint]: seven bits per byte, least significant group
    first, the high bit marks continuation.  [None] when it throws
    (unexpected end of array, integer out of range). *)
Fixpoint readVarUintFrom (num mult : Z) (arr : bytes) : option (Z * bytes) :=
  match arr with
  | [] => None
  | r :: rest =>
      let num' := (num + Z.land r 127 * mult)%Z in
      if (r <? 128)%Z then Some (num', rest)
      else if (MAX_SAFE_INTEGER <? num')%Z then None
      else readVarUintFrom num' (mult * 128)%Z rest
  end.

Definition readVarUint (arr : bytes) : option (Z * bytes) :=
  readVarUintFrom 0 1 arr.

Inductive Payload :=
| SyncStep1 (sv : bytes)
| SyncReply (reply : bytes)
| SyncUpdate (u : bytes)
| AwarenessMsg (u : bytes)
| Raw (data : bytes).

Inductive Effect :=
| Send (ws : WebSocket) (p : Payload).

(** [Set] in insertion order *)
Definition setAdd {A} (eqb : A -> A -> bool) (x : A) (s : list A) : list A :=
  if existsb (eqb x) s then s else s ++ [x].

Definition setDelete {A} (eqb : A -> A -> bool) (x : A) (s : list A) : list A :=
  List.filter (fun y => negb (eqb x y)) s.

Section Room.
Context {Y : YLib}.

Record RoomState := mkRoomState {
  doc : Doc;
  awareness : Awareness;
  clients : list WebSocket;
  clientAwarenessIds : gmap WebSocket (list Z);
  cleanupTimer : option nat;
  persistTimer : option nat;
  (** set by [doc.destroy()], which also drops the replica's and the
      awareness object's observers *)
  destroyed : bool
}.

Definition setDoc (st : RoomState) (d : Doc) : RoomState :=
  mkRoomState d (awareness st) (clients st) (clientAwarenessIds st)
    (cleanupTimer st) (persistTimer st) (destroyed st).

Definition setAwareness (st : RoomState) (a : Awareness) : RoomState :=
  mkRoomState (doc st) a (clients st) (clientAwarenessIds st)
    (cleanupTimer st) (persistTimer st) (destroyed st).

Definition setClients (st : RoomState) (c : list WebSocket) : RoomState :=
  mkRoomState (doc st) (awareness st) c (clientAwarenessIds st)
    (cleanupTimer st) (persistTimer st) (destroyed st).

Definition setClientAwarenessIds (st : RoomState)
    (m : gmap WebSocket (list Z)) : RoomState :=
  mkRoomState (doc st) (awareness st) (clients st) m
    (cleanupTimer st) (persistTimer st) (destroyed st).

Definition setCleanupTimer (st : RoomState) (t : option nat) : RoomState :=
  mkRoomState (doc st) (awareness st) (clients st) (clientAwarenessIds st)
    t (persistTimer st) (destroyed st).

Definition setPersistTimer (st : RoomState) (t : option nat) : RoomState :=
  mkRoomState (doc st) (awareness st) (clients st) (clientAwarenessIds st)
    (cleanupTimer st) t (destroyed st).

Definition setDestroyed (st : RoomState) : RoomState :=
  mkRoomState (doc st) (awareness st) (clients st) (clientAwarenessIds st)
    (cleanupTimer st) (persistTimer st) true.

Variable readyState : WebSocket -> ReadyState.

(** [state.clients.forEach(client => { if (client !== exclude &&
    client.readyState === OPEN) client.send(msg) })] *)
Definition fanout (cs : list WebSocket) (exclude : option WebSocket)
    (p : Payload) : list Effect :=
  map (fun c => Send c p)
    (List.filter
       (fun c => negb (bool_decide (Some c = exclude))
                 && isOpen (readyState c))
       cs).

(** The sends of the replica's 'update' handler. *)
Definition onDocUpdate (st : RoomState) (update : bytes)
    (origin : option WebSocket) : list Effect :=
  if destroyed st then []
  else fanout (clients st) origin (SyncUpdate (writeUpdate update)).

(** The awareness object's 'update' handler. *)
Definition onAwarenessUpdate (st : RoomState) (ch : Change)
    (origin : option WebSocket) : RoomState * list Effect :=
  if destroyed st then (st, [])
  else
    let st1 :=
      match origin with
      | Some o =>
          let ids := match clientAwarenessIds st !! o with
                     | Some ids => ids
                     | None => []
                     end in
          setClientAwarenessIds st
            (<[o := fold_left (fun s i => setAdd Z.eqb i s)
                      (added ch ++ updated ch) ids]> (clientAwarenessIds st))
      | None => st
      end in
    (st1,
     fanout (clients st1) None
       (AwarenessMsg
          (encodeAwarenessUpdate (awareness st1)
             (added ch ++ updated ch ++ removed ch)))).

(** [handleMessage] under the [try] of its caller, which only logs what is
    thrown.  The boolean tells whether the replica's 'update' handler ran,
    so that the persist timer has to be re-armed. *)
Definition handleMessage (ws : WebSocket) (st : RoomState) (data : bytes)
  : RoomState * list Effect * bool :=
  match readVarUint data with
  | None => (st, [], false)
  | Some (msgType, body) =>
      if (msgType =? messageSync)%Z then
        let r := readSyncMessage body (doc st) in
        let st1 := setDoc st (fst (fst r)) in
        (st1,
         (match snd r with
          | Some u => onDocUpdate st1 u (Some ws)
          | None => []
          end
          ++ match snd (fst r) with
             | [] => []
             | _ :: _ => [Send ws (SyncReply (snd (fst r)))]
             end)%list,
         match snd r with
         | Some _ => negb (destroyed st)
         | None => false
         end)
      else if (msgType =? messageAwareness)%Z then
        let r := applyAwarenessUpdate (awareness st) body in
        let st1 := setAwareness st (fst r) in
        match snd r with
        | Some ch =>
            (fst (onAwarenessUpdate st1 ch (Some ws)),
             snd (onAwarenessUpdate st1 ch (Some ws)), false)
        | None => (st1, [], false)
        end
      else if (msgType =? messageFileOp)%Z then
        (st, fanout (clients st) (Some ws) (Raw data), false)
      else (st, [], false)
  end.

(** The part of the 'close' handler that touches only the room's state. *)
Definition closeSocket (st : RoomState) (ws : WebSocket)
  : RoomState * list Effect :=
  let st1 := setClients st (setDelete Nat.eqb ws (clients st)) in
  let r :=
    match clientAwarenessIds st1 !! ws with
    | Some (i :: ids) =>
        let st2 := setAwareness st1
                     (fst (removeAwarenessStates (awareness st1) (i :: ids))) in
        match snd (removeAwarenessStates (awareness st1) (i :: ids)) with
        | [] => (st2, [])
        | gone => onAwarenessUpdate st2 (mkChange [] [] gone) None
        end
    | _ => (st1, [])
    end in
  (setClientAwarenessIds (fst r) (delete ws (clientAwarenessIds (fst r))),
   snd r).

(** What the connection handler does once it holds the room state. *)
Definition attach (st : RoomState) (ws : WebSocket) : RoomState * list Effect :=
  let st1 := setClients st (setAdd Nat.eqb ws (clients st)) in
  (st1,
   Send ws (SyncStep1 (writeSyncStep1 (doc st1)))
   :: match getStates (awareness st1) with
      | [] => []
      | ks => [Send ws (AwarenessMsg (encodeAwarenessUpdate (awareness st1) ks))]
      end).

End Room.

(** *** Runs of one room state *)

Inductive RoomEvent :=
| Attach (ws : WebSocket)
| Frame (ws : WebSocket) (data : bytes)
| Detach (ws : WebSocket).

Section RoomRuns.
Context {Y : YLib}.

Definition roomStep (st : RoomState) (e : (WebSocket -> ReadyState) * RoomEvent)
  : RoomState :=
  match snd e with
  | Attach ws => fst (attach st ws)
  | Frame ws data => fst (fst (handleMessage (fst e) ws st data))
  | Detach ws => fst (closeSocket (fst e) st ws)
  end.

Fixpoint roomRun (st : RoomState)
    (es : list ((WebSocket -> ReadyState) * RoomEvent)) : RoomState :=
  match es with
  | [] => st
  | e :: rest => roomRun (roomStep st e) rest
  end.

(** The ids in the added and updated lists of the awareness 'update' event
    that a frame of socket [S] raises in state [st]. *)
Definition announcedBy (S : WebSocket) (st : RoomState) (e : RoomEvent) : list Z :=
  match e with
  | Frame ws data =>
      if Nat.eqb ws S then
        match readVarUint data with
        | Some (msgType, body) =>
            if (msgType =? messageAwareness)%Z then
              match snd (applyAwarenessUpdate (awareness st) body) with
              | Some ch => added ch ++ updated ch
              | None => []
              end
            else []
        | None => []
        end
      else []
  | _ => []
  end.

Fixpoint announcedIn (S : WebSocket) (st : RoomState)
    (es : list ((WebSocket -> ReadyState) * RoomEvent)) : list Z :=
  match es with
  | [] => []
  | e :: rest => announcedBy S st (snd e) ++ announcedIn S (roomStep st e) rest
  end.

Definition notDetach (S : WebSocket) (e : RoomEvent) : bool :=
  match e with
  | Detach ws => negb (Nat.eqb ws S)
  | _ => true
  end.

(** the ids recorded for socket [S] in the per-socket index *)
Definition recordedIds (st : RoomState) (S : WebSocket) : list Z :=
  match clientAwarenessIds st !! S with
  | Some ids => ids
  | None => []
  end.

End RoomRuns.

(** *** The server: rooms by name, creations in flight, timers, store writes

    [RoomState] objects are shared by reference between the room map and the
    closures of the connection handlers, so they live in a heap and are
    named by their address.  An [await] ends a step: what runs after it is a
    step of its own, started by the event that settles the promise. *)

Section Server.
Context {Y : YLib}.

Record Creation := mkCreation {
  c_roomId : string;
  c_doc : Doc;
  c_awareness : Awareness
}.

Inductive TimerAction :=
| CleanupTimer (roomId : string) (sid : nat)
| PersistTimer (roomId : string) (sid : nat).

Record Timer := mkTimer {
  deadline : N;
  action : TimerAction
}.

(** A [db.put] in flight; [cleanup] is the rest of [cleanupRoom] waiting
    for it. *)
Inductive IoOp :=
| PutDoc (key : string) (value : bytes) (cleanup : option (string * nat)).

Record World := mkWorld {
  now : N;
  db : gmap string bytes;
  heap : gmap nat RoomState;
  roomStates : gmap string nat;
  pendingRooms : gmap string nat;
  creating : gmap nat Creation;
  waiting : list (WebSocket * string * nat);
  conn : gmap WebSocket (string * nat);
  timers : gmap nat Timer;
  io : gmap nat IoOp;
  next : nat;
  (** history: the room names for which [new Y.Doc()] was run *)
  constructed : list string;
  (** history: the room state each connection handler got from
      [getOrCreateRoom] *)
  attached : list (WebSocket * string * nat)
}.

Definition initial : World :=
  mkWorld 0%N ∅ ∅ ∅ ∅ ∅ [] ∅ ∅ ∅ 0 [] [].

Definition setNow (w : World) (x : N) : World :=
  mkWorld x (db w) (heap w) (roomStates w) (pendingRooms w)
    (creating w) (waiting w) (conn w) (timers w)
    (io w) (next w) (constructed w) (attached w).

Definition setDb (w : World) (x : gmap string bytes) : World :=
  mkWorld (now w) x (heap w) (roomStates w) (pendingRooms w)
    (creating w) (waiting w) (conn w) (timers w)
    (io w) (next w) (constructed w) (attached w).

Definition setHeap (w : World) (x : gmap nat RoomState) : World :=
  mkWorld (now w) (db w) x (roomStates w) (pendingRooms w)
    (creating w) (waiting w) (conn w) (timers w)
    (io w) (next w) (constructed w) (attached w).

Definition setRoomStates (w : World) (x : gmap string nat) : World :=
  mkWorld (now w) (db w) (heap w) x (pendingRooms w)
    (creating w) (waiting w) (conn w) (timers w)
    (io w) (next w) (constructed w) (attached w).

Definition setPendingRooms (w : World) (x : gmap string nat) : World :=
  mkWorld (now w) (db w) (heap w) (roomStates w) x
    (creating w) (waiting w) (conn w) (timers w)
    (io w) (next w) (constructed w) (attached w).

Definition setCreating (w : World) (x : gmap nat Creation) : World :=
  mkWorld (now w) (db w) (heap w) (roomStates w) (pendingRooms w)
    x (waiting w) (conn w) (timers w)
    (io w) (next w) (constructed w) (attached w).

Definition setWaiting (w : World) (x : list (WebSocket * string * nat)) : World :=
  mkWorld (now w) (db w) (heap w) (roomStates w) (pendingRooms w)
    (creating w) x (conn w) (timers w)
    (io w) (next w) (constructed w) (attached w).

Definition setConn (w : World) (x : gmap WebSocket (string * nat)) : World :=
  mkWorld (now w) (db w) (heap w) (roomStates w) (pendingRooms w)
    (creating w) (waiting w) x (timers w)
    (io w) (next w) (constructed w) (attached w).

Definition setTimers (w : World) (x : gmap nat Timer) : World :=
  mkWorld (now w) (db w) (heap w) (roomStates w) (pendingRooms w)
    (creating w) (waiting w) (conn w) x
    (io w) (next w) (constructed w) (attached w).

Definition setIo (w : World) (x : gmap nat IoOp) : World :=
  mkWorld (now w) (db w) (heap w) (roomStates w) (pendingRooms w)
    (creating w) (waiting w) (conn w) (timers w)
    x (next w) (constructed w) (attached w).

Definition setNext (w : World) (x : nat) : World :=
  mkWorld (now w) (db w) (heap w) (roomStates w) (pendingRooms w)
    (creating w) (waiting w) (conn w) (timers w)
    (io w) x (constructed w) (attached w).

Definition setConstructed (w : World) (x : list string) : World :=
  mkWorld (now w) (db w) (heap w) (roomStates w) (pendingRooms w)
    (creating w) (waiting w) (conn w) (timers w)
    (io w) (next w) x (attached w).

Definition setAttached (w : World) (x : list (WebSocket * string * nat)) : World :=
  mkWorld (now w) (db w) (heap w) (roomStates w) (pendingRooms w)
    (creating w) (waiting w) (conn w) (timers w)
    (io w) (next w) (constructed w) x.

(** [clearTimeout(t)] when [t] is set *)
Definition clearTimeout (w : World) (t : option nat) : World :=
  match t with
  | Some tid => setTimers w (delete tid (timers w))
  | None => w
  end.

(** [setTimeout(action, ms)]: the world with the timer armed, and its id *)
Definition setTimeout (w : World) (a : TimerAction) (ms : N) : World * nat :=
  (setNext (setTimers w (<[next w := mkTimer (now w + ms)%N a]> (timers w)))
     (S (next w)),
   next w).

(** [createRoom] up to its [await p.loadDoc(roomId, doc)] *)
Definition createRoom (w : World) (roomId : string) : World * nat :=
  let d := newDoc in
  (setNext
     (setConstructed
        (setCreating w (<[next w := mkCreation roomId d (newAwareness d)]> (creating w)))
        (constructed w ++ [roomId]))
     (S (next w)),
   next w).

(** [getOrCreateRoom]: the room state if there is one ([inl]), else the
    promise of the creation in flight ([inr]), started here if need be. *)
Definition getOrCreateRoom (w : World) (roomId : string) : World * (nat + nat) :=
  match roomStates w !! roomId with
  | Some sid =>
      match heap w !! sid with
      | Some existing =>
          match cleanupTimer existing with
          | Some t =>
              (setHeap (clearTimeout w (Some t))
                 (<[sid := setCleanupTimer existing None]> (heap w)),
               inl sid)
          | None => (w, inl sid)
          end
      | None => (w, inl sid)
      end
  | None =>
      match pendingRooms w !! roomId with
      | Some pending => (w, inr pending)
      | None =>
          let r := createRoom w roomId in
          (setPendingRooms (fst r) (<[roomId := snd r]> (pendingRooms (fst r))),
           inr (snd r))
      end
  end.

Section Steps.
Variable readyState : WebSocket -> ReadyState.

(** The connection handler after [await getOrCreateRoom(roomId)]. *)
Definition attachWs (w : World) (ws : WebSocket) (roomId : string) (sid : nat)
  : World * list Effect :=
  match heap w !! sid with
  | Some st =>
      (setAttached
         (setConn (setHeap w (<[sid := fst (attach st ws)]> (heap w)))
            (<[ws := (roomId, sid)]> (conn w)))
         (attached w ++ [(ws, roomId, sid)]),
       snd (attach st ws))
  | None => (w, [])
  end.

Definition onConnection (w : World) (ws : WebSocket) (roomId : string)
  : World * list Effect :=
  let r := getOrCreateRoom w roomId in
  match snd r with
  | inl sid => attachWs (fst r) ws roomId sid
  | inr pid => (setWaiting (fst r) (waiting (fst r) ++ [(ws, roomId, pid)]), [])
  end.

(** The connection handlers suspended on promise [pid] resume in order. *)
Fixpoint resume (w : World) (sid pid : nat)
    (ws : list (WebSocket * string * nat)) : World * list Effect :=
  match ws with
  | [] => (w, [])
  | (s, roomId, p) :: rest =>
      if Nat.eqb p pid then
        let r := attachWs w s roomId sid in
        let r' := resume (fst r) sid pid rest in
        (fst r', (snd r ++ snd r')%list)
      else resume w sid pid rest
  end.

Definition notWaitingOn (pid : nat) (e : WebSocket * string * nat) : bool :=
  negb (Nat.eqb (snd e) pid).

(** [createRoom] is rejected: the [catch] of [getOrCreateRoom] runs and the
    handlers awaiting the promise never resume. *)
Definition rejectCreation (w : World) (pid : nat) : World :=
  match creating w !! pid with
  | Some c =>
      setWaiting
        (setCreating
           (setPendingRooms w (delete (c_roomId c) (pendingRooms w)))
           (delete pid (creating w)))
        (List.filter (notWaitingOn pid) (waiting w))
  | None => w
  end.

(** [createRoom] after its [await]: the store answered. *)
Definition onLoadDone (w : World) (pid : nat) : World * list Effect :=
  match creating w !! pid with
  | Some c =>
      match loadDoc (db w) (c_roomId c) (c_doc c) with
      | Ok d =>
          let st := mkRoomState d (c_awareness c) [] ∅ None None false in
          let sid := next w in
          let w1 :=
            setNext
              (setCreating
                 (setPendingRooms
                    (setRoomStates
                       (setHeap w (<[sid := st]> (heap w)))
                       (<[c_roomId c := sid]> (roomStates w)))
                    (delete (c_roomId c) (pendingRooms w)))
                 (delete pid (creating w)))
              (S sid) in
          let r := resume w1 sid pid (waiting w1) in
          (setWaiting (fst r) (List.filter (notWaitingOn pid) (waiting (fst r))),
           snd r)
      | Throws => (rejectCreation w pid, [])
      end
  | None => (w, [])
  end.

Definition onMessage (w : World) (ws : WebSocket) (data : bytes)
  : World * list Effect :=
  match conn w !! ws with
  | Some (roomId, sid) =>
      match heap w !! sid with
      | Some st =>
          match handleMessage readyState ws st data with
          | (st1, eff, true) =>
              let r := setTimeout (clearTimeout w (persistTimer st1))
                         (PersistTimer roomId sid) 5000%N in
              (setHeap (fst r)
                 (<[sid := setPersistTimer st1 (Some (snd r))]> (heap (fst r))),
               eff)
          | (st1, eff, false) =>
              (setHeap w (<[sid := st1]> (heap w)), eff)
          end
      | None => (w, [])
      end
  | None => (w, [])
  end.

Definition onClose (w : World) (ws : WebSocket) : World * list Effect :=
  match conn w !! ws with
  | Some (roomId, sid) =>
      match heap w !! sid with
      | Some st =>
          let r := closeSocket readyState st ws in
          let w1 := setConn w (delete ws (conn w)) in
          match clients (fst r) with
          | [] =>
              let t := setTimeout w1 (CleanupTimer roomId sid) 30000%N in
              (setHeap (fst t)
                 (<[sid := setCleanupTimer (fst r) (Some (snd t))]> (heap (fst t))),
               snd r)
          | _ :: _ => (setHeap w1 (<[sid := fst r]> (heap w1)), snd r)
          end
      | None => (w, [])
      end
  | None => (w, [])
  end.

(** [p.persistDoc(roomId, doc)] up to its [await db.put]: the snapshot is
    taken now, the write lands later. *)
Definition startPersist (w : World) (roomId : string) (d : Doc)
    (k : option (string * nat)) : World :=
  setNext
    (setIo w (<[next w := PutDoc (docKey roomId) (encodeStateAsUpdate d) k]> (io w)))
    (S (next w)).

(** [cleanupRoom] up to its [await] *)
Definition cleanupRoom (w : World) (roomId : string) (sid : nat) (st : RoomState)
  : World :=
  startPersist (clearTimeout w (persistTimer st)) roomId (doc st)
    (Some (roomId, sid)).

(** [cleanupRoom] after its [await].  The sends are those of the awareness
    'update' handler for the removal; what the library emits while the
    replica is being destroyed is not modelled. *)
Definition finishCleanup (w : World) (roomId : string) (sid : nat)
  : World * list Effect :=
  match heap w !! sid with
  | Some st =>
      let rm := removeAwarenessStates (awareness st) (getStates (awareness st)) in
      let st1 := setAwareness st (fst rm) in
      let r := match snd rm with
               | [] => (st1, [])
               | gone => onAwarenessUpdate readyState st1 (mkChange [] [] gone) None
               end in
      (setRoomStates
         (setHeap w (<[sid := setDestroyed (fst r)]> (heap w)))
         (delete roomId (roomStates w)),
       snd r)
  | None => (w, [])
  end.

Definition onTimer (w : World) (tid : nat) : World * list Effect :=
  match timers w !! tid with
  | Some t =>
      if N.leb (deadline t) (now w) then
        let w1 := setTimers w (delete tid (timers w)) in
        match action t with
        | CleanupTimer roomId sid =>
            match heap w1 !! sid with
            | Some st =>
                match clients st with
                | [] => (cleanupRoom w1 roomId sid st, [])
                | _ :: _ => (w1, [])
                end
            | None => (w1, [])
            end
        | PersistTimer roomId sid =>
            match heap w1 !! sid with
            | Some st => (startPersist w1 roomId (doc st) None, [])
            | None => (w1, [])
            end
        end
      else (w, [])
  | None => (w, [])
  end.

Definition onPutDone (w : World) (op : nat) : World * list Effect :=
  match io w !! op with
  | Some (PutDoc key value k) =>
      let w1 := setIo (setDb w (<[key := value]> (db w))) (delete op (io w)) in
      match k with
      | Some (roomId, sid) => finishCleanup w1 roomId sid
      | None => (w1, [])
      end
  | None => (w, [])
  end.

End Steps.

Inductive Event :=
| Upgrade (ws : WebSocket) (roomId : string)
| LoadDone (pid : nat)
| LoadFail (pid : nat)
| Message (ws : WebSocket) (data : bytes)
| Closed (ws : WebSocket)
| Tick (dt : N)
| Fire (tid : nat)
| PutDone (op : nat).

Definition step (w : World) (e : (WebSocket -> ReadyState) * Event)
  : World * list Effect :=
  match snd e with
  | Upgrade ws roomId => onConnection w ws roomId
  | LoadDone pid => onLoadDone w pid
  | LoadFail pid => (rejectCreation w pid, [])
  | Message ws data => onMessage (fst e) w ws data
  | Closed ws => onClose (fst e) w ws
  | Tick dt => (setNow w (now w + dt)%N, [])
  | Fire tid => onTimer w tid
  | PutDone op => onPutDone (fst e) w op
  end.

Fixpoint run (w : World) (es : list ((WebSocket -> ReadyState) * Event)) : World :=
  match es with
  | [] => w
  | e :: rest => run (fst (step w e)) rest
  end.

End Server.

End Yjs.

(** ** Upgrade gateway (index.ts)

    A JavaScript string is represented by its UTF-8 encoding, which is what
    [Buffer.from] makes of it; [jsLength] recovers its [length] in UTF-16
    code units.  Strings with unpaired surrogates are outside the model. *)

Module Gateway.

Definition utf16Units (b : nat) : nat :=
  if Nat.ltb b 128 then 1
  else if Nat.ltb b 192 then 0
  else if Nat.ltb b 240 then 1
  else 2.

Fixpoint jsLength (s : string) : nat :=
  match s with
  | EmptyString => 0
  | String c rest => utf16Units (Ascii.nat_of_ascii c) + jsLength rest
  end.

(** [crypto.timingSafeEqual]: throws when the byte lengths differ. *)
Definition timingSafeEqual (a b : string) : Result bool :=
  if Nat.eqb (String.length a) (String.length b)
  then Ok (String.eqb a b)
  else Throws.

Definition safeTokenCompare (a b : string) : Result bool :=
  if negb (Nat.eqb (jsLength a) (jsLength b)) then Ok false
  else timingSafeEqual a b.

(** A line terminator of the regular-expression dot: LF, CR, U+2028 or
    U+2029. *)
Fixpoint hasLineTerminator (s : string) : bool :=
  match s with
  | EmptyString => false
  | String c rest =>
      let n := Ascii.nat_of_ascii c in
      if Nat.eqb n 10 || Nat.eqb n 13 then true
      else if Nat.eqb n 226 then
        match rest with
        | String c1 (String c2 _) =>
            (Nat.eqb (Ascii.nat_of_ascii c1) 128
             && (Nat.eqb (Ascii.nat_of_ascii c2) 168
                 || Nat.eqb (Ascii.nat_of_ascii c2) 169))
            || hasLineTerminator rest
        | _ => hasLineTerminator rest
        end
      else hasLineTerminator rest
  end.

Fixpoint stripPrefix (prefix s : string) : option string :=
  match prefix with
  | EmptyString => Some s
  | String p prefix' =>
      match s with
      | String c s' => if Ascii.eqb p c then stripPrefix prefix' s' else None
      | EmptyString => None
      end
  end.

(** [s.match(/^<prefix>(.+)$/)]: group 1 of the match, if any *)
Definition matchAfter (prefix s : string) : option string :=
  match stripPrefix prefix s with
  | Some rest =>
      if String.eqb rest "" || hasLineTerminator rest then None else Some rest
  | None => None
  end.

(** [s.split(":")[0]] *)
Fixpoint beforeColon (s : string) : string :=
  match s with
  | EmptyString => EmptyString
  | String c rest =>
      if Ascii.eqb c ":"%char then EmptyString else String c (beforeColon rest)
  end.

Record URL := mkURL {
  pathname : string;
  searchParams : list (string * string)
}.

(** [url.searchParams.get(name)] *)
Fixpoint searchParamsGet (ps : list (string * string)) (name : string)
  : option string :=
  match ps with
  | [] => None
  | (k, v) :: rest => if String.eqb k name then Some v else searchParamsGet rest name
  end.

Inductive Outcome :=
| YjsConnection (fullRoomName : string)
| ControlConnection (roomId : string)
| Destroyed
| Thrown.

Section Upgrade.

(** [getRoom] of rooms.ts, the identity verifier and the deployment flag *)
Variable getRoom : string -> option Room.
Variable REQUIRE_GITHUB_AUTH : bool.
Variable verifyJWT : string -> bool.

(** [if (!token || !safeTokenCompare(token, room.token)) destroy]:
    [Ok true] lets the request through, [Ok false] destroys the socket. *)
Definition tokenCheck (url : URL) (room : Room) : Result bool :=
  match searchParamsGet (searchParams url) "token" with
  | None => Ok false
  | Some token =>
      if String.eqb token "" then Ok false
      else safeTokenCompare token (room_token room)
  end.

(** [if (REQUIRE_GITHUB_AUTH) { if (!jwtToken || !verifyJWT(jwtToken))
    destroy }] *)
Definition jwtCheck (url : URL) : bool :=
  if REQUIRE_GITHUB_AUTH then
    match searchParamsGet (searchParams url) "jwt" with
    | None => false
    | Some jwtToken => negb (String.eqb jwtToken "") && verifyJWT jwtToken
    end
  else true.

Definition upgrade (url : URL) : Outcome :=
  match matchAfter "/ws/" (pathname url) with
  | Some fullRoomName =>
      match getRoom (beforeColon fullRoomName) with
      | None => Destroyed
      | Some room =>
          match tokenCheck url room with
          | Throws => Thrown
          | Ok false => Destroyed
          | Ok true =>
              if jwtCheck url then YjsConnection fullRoomName else Destroyed
          end
      end
  | None =>
      match matchAfter "/control/" (pathname url) with
      | Some roomId =>
          match getRoom roomId with
          | None => Destroyed
          | Some room =>
              match tokenCheck url room with
              | Throws => Thrown
              | Ok false => Destroyed
              | Ok true =>
                  if jwtCheck url then ControlConnection roomId else Destroyed
              end
          end
      | None => Destroyed
      end
  end.

End Upgrade.

End Gateway.

(** ** A small instance of the library interface

    A grow-only set of integers as the replica and a list of present ids as
    the awareness object.  It serves to run the handlers on concrete
    inputs. *)

Module Toy.

Definition TDoc : Type := gset Z.
Definition TAwareness : Type := list Z.

Definition t_applyUpdate (d : TDoc) (u : bytes) : option TDoc :=
  Some (d ∪ list_to_set u).

Definition t_encodeStateAsUpdate (d : TDoc) : bytes := elements d.

(** first byte 0: a state-vector request, answered with the full state;
    first byte 2: an update *)
Definition t_readSyncMessage (body : bytes) (d : TDoc)
  : TDoc * bytes * option bytes :=
  match body with
  | [] => (d, [], None)
  | t :: rest =>
      if (t =? 0)%Z then (d, elements d, None)
      else if (t =? 2)%Z then
        (d ∪ list_to_set rest, [],
         if bool_decide (d ∪ list_to_set rest = d) then None else Some rest)
      else (d, [], None)
  end.

Definition inb (i : Z) (l : list Z) : bool := existsb (Z.eqb i) l.

(** every id of the body announces a state for that id *)
Definition t_applyAwarenessUpdate (a : TAwareness) (body : bytes)
  : TAwareness * option Change :=
  match body with
  | [] => (a, None)
  | _ :: _ =>
      let fresh := List.filter (fun i => negb (inb i a)) (remove_dups body) in
      let known := List.filter (fun i => inb i a) (remove_dups body) in
      ((a ++ fresh)%list, Some (mkChange fresh known []))
  end.

Definition t_removeAwarenessStates (a : TAwareness) (ids : list Z)
  : TAwareness * list Z :=
  (List.filter (fun i => negb (inb i ids)) a,
   List.filter (fun i => inb i ids) a).

#[export] Instance lib : YLib := {|
  Doc := TDoc;
  Awareness := TAwareness;
  newDoc := ∅;
  newAwareness := fun _ => [];
  applyUpdate := t_applyUpdate;
  encodeStateAsUpdate := t_encodeStateAsUpdate;
  readSyncMessage := t_readSyncMessage;
  writeSyncStep1 := elements;
  writeUpdate := fun u => u;
  getStates := fun a => a;
  applyAwarenessUpdate := t_applyAwarenessUpdate;
  removeAwarenessStates := t_removeAwarenessStates;
  encodeAwarenessUpdate := fun _ ids => ids
|}.

End Toy.

(** ** Concrete control rooms and frames *)

Module ControlExamples.
Import Control.

Definition dq : string := String (Ascii.ascii_of_nat 34) EmptyString.

Definition field (k v : string) : string :=
  dq ++ k ++ dq ++ ":" ++ dq ++ v ++ dq.

Definition optField (k : string) (v : option string) : string :=
  match v with
  | Some s => "," ++ field k s
  | None => EmptyString
  end.

(** the JSON text of a message with string fields *)
Definition stringify (m : Msg) : string :=
  "{" ++ field "type" (type m)
      ++ optField "userId" (m_userId m)
      ++ optField "displayName" (m_displayName m)
      ++ optField "targetUserId" (m_targetUserId m)
      ++ "}".

Definition frameOf (m : Msg) : Frame :=
  {| data := stringify m; json := Some m |}.

Definition allOpen : WebSocket -> ReadyState := fun _ => OPEN.

Definition hostC : ControlClient := mkClient "host-1" "Host" true true "read-write".
Definition guestC : ControlClient := mkClient "guest-1" "Guest" false true "read-write".
Definition pendingC : ControlClient := mkClient "guest-2" "Late" false false "read-write".

(** socket 1 is the host, socket 2 an approved guest *)
Definition demoRoom : ControlRoom :=
  mkControlRoom [(1, hostC); (2, guestC)] ∅.

(** socket 3 has asked to join and waits for the host's decision *)
Definition waitingRoom : ControlRoom :=
  mkControlRoom [(1, hostC); (3, pendingC)] {[ "guest-2" := 3 ]}.

Definition kickMsg : Msg :=
  mkMsg "kick" (Some "host-1") None None None None None.

Definition presenceMsg (uid : string) : Msg :=
  mkMsg "presence-update" (Some uid) None None None None None.

Definition joinRequestMsg (uid : option string) : Msg :=
  mkMsg "join-request" uid None None None None None.

Definition approvalRoom : Room :=
  mkRoom "room-1" "0123456789abcdefghijklmn" None (Some true) None.

Definition pinnedRoom : Room :=
  mkRoom "room-2" "0123456789abcdefghijklmn" (Some "host-1") None None.

(** the host of [pinnedRoom] identifies, sends a join-request without a
    user-id, and identifies again under another name *)
Definition demotionTrace : list ((WebSocket -> ReadyState) * Event) :=
  [ (allOpen, Connection 1);
    (allOpen, Message 1 (frameOf (presenceMsg "host-1")));
    (allOpen, Message 1 (frameOf (joinRequestMsg None)));
    (allOpen, Message 1 (frameOf (presenceMsg "someone-else"))) ].

(** What the presence-update branch assigns to [isHost] when it decides. *)
Definition hostPolicy (sr : option Room) (room : ControlRoom) (msg : Msg) : bool :=
  if truthy (serverHostUserId sr)
  then strictEq (orEmpty (m_userId msg)) (serverHostUserId sr)
  else match findHost room with Some _ => false | None => true end.

Definition identifies (msg : Msg) : bool :=
  String.eqb (type msg) "presence-update" && truthy (m_userId msg).


(** An event that cannot reset the identity of socket [w]: not a
    (re)connection of [w], and not a join-request of [w] without a
    user-id. *)
Definition keepsIdentity (w : WebSocket) (e : Event) : bool :=
  match e with
  | Connection ws => negb (Nat.eqb ws w)
  | Message ws f =>
      if Nat.eqb ws w then
        match json f with
        | Some msg =>
            negb (String.eqb (type msg) "join-request") || truthy (m_userId msg)
        | None => true
        end
      else true
  | Closed _ => true
  end.


(** the host renames itself, a guest tries to kick, the host sends a
    join-request that carries a user-id *)
Definition frozenTrace : list ((WebSocket -> ReadyState) * Event) :=
  [ (allOpen, Message 1 (frameOf (presenceMsg "renamed")));
    (allOpen, Message 2 (frameOf kickMsg));
    (allOpen, Message 1 (frameOf (joinRequestMsg (Some "again")))) ].


Definition readOnlyC : ControlClient :=
  mkClient "guest-1" "Guest" false true "read-only".

(** socket 1 is the host, socket 2 a guest with read-only permission *)
Definition readOnlyRoom : ControlRoom :=
  mkControlRoom [(1, hostC); (2, readOnlyC)] ∅.

Definition fileOpMsg : Msg :=
  mkMsg "file-op" None None None None None None.

End ControlExamples.


(** ** Vocabulary for runs of the CRDT channel *)

Module YjsSpec.
Import Yjs.




(** The document [name] has a room state or a creation in flight. *)
Definition known {Y : YLib} (w : World) (name : string) : Prop :=
  is_Some (roomStates w !! name) \/ is_Some (pendingRooms w !! name).


Section Invariant.
Context {Y : YLib}.


(** the callers suspended on promise [pid], as they resume with room state
    [sid] *)
Definition resumed (sid pid : nat) (l : list (WebSocket * string * nat))
  : list (WebSocket * string * nat) :=
  map (fun e => (fst (fst e), snd (fst e), sid))
    (List.filter (fun e => Nat.eqb (snd e) pid) l).

End Invariant.

End YjsSpec.

(** ** Concrete runs of the CRDT channel *)

Module YjsExamples.
Import Yjs.

Definition allOpen : WebSocket -> ReadyState := fun _ => OPEN.

(** a live, empty document with sockets 11 and 12 attached *)
Definition twoClients {Y : YLib} : RoomState :=
  mkRoomState newDoc (newAwareness newDoc) [11; 12] ∅ None None false.

(** a type-2 frame: the varuint 2 followed by an opaque body *)
Definition fileOpFrame : bytes := [2; 5; 100; 101; 108; 101; 116]%Z.

(** an awareness frame; the small library instance reads its body as an
    announcement of the ids 7 and 9 *)
Definition awarenessFrame : bytes := [1; 7; 9]%Z.

Definition awarenessRun : list ((WebSocket -> ReadyState) * RoomEvent) :=
  [ (allOpen, Frame 11 awarenessFrame);
    (allOpen, Frame 12 [1; 9; 4]%Z);
    (allOpen, Frame 11 fileOpFrame) ].


(** socket 1 opens and leaves a document, the idle timer fires 30 s later
    and starts the final store write, socket 2 arrives while the write is in
    flight, the write completes *)
Definition raceRun : list ((WebSocket -> ReadyState) * Event) :=
  [ (allOpen, Upgrade 1 "room:notes");
    (allOpen, LoadDone 0);
    (allOpen, Closed 1);
    (allOpen, Tick 30000%N);
    (allOpen, Fire 2);
    (allOpen, Upgrade 2 "room:notes");
    (allOpen, PutDone 3) ].

End YjsExamples.

(** ** Concrete upgrade requests *)

Module GatewayExamples.
Import Gateway.

(** The request carries the room's token and, when identity auth is on, a
    jwt the verifier accepts. *)
Definition authorized (REQUIRE_GITHUB_AUTH : bool) (verifyJWT : string -> bool)
    (url : URL) (room : Room) : Prop :=
  searchParamsGet (searchParams url) "token" = Some (room_token room)
  /\ (REQUIRE_GITHUB_AUTH = true ->
      exists jwt, searchParamsGet (searchParams url) "jwt" = Some jwt
                  /\ verifyJWT jwt = true).

Definition roomToken : string := "0123456789abcdefghijklmn".

Definition room1 : Room := mkRoom "room-1" roomToken None None None.

(** a registry holding [room1] only *)
Definition registry (id : string) : option Room :=
  if String.eqb id "room-1" then Some room1 else None.

(** U+00E9 in UTF-8 *)
Definition eAcute : string :=
  String (Ascii.ascii_of_nat 195) (String (Ascii.ascii_of_nat 169) EmptyString).

(** 24 UTF-16 code units like [roomToken], but 25 bytes *)
Definition oddToken : string := "0123456789abcdefghijklm" ++ eAcute.

Definition goodRequest : URL :=
  mkURL "/ws/room-1:notes.md" [("token", roomToken)].

Definition oddRequest : URL :=
  mkURL "/ws/room-1:notes.md" [("token", oddToken)].

Definition oddControlRequest : URL :=
  mkURL "/control/room-1" [("token", oddToken)].

Definition noJwt : string -> bool := fun _ => false.

End GatewayExamples.

From stdpp Require Import sorting countable.

Local Open Scope string_scope.

(** ** Vocabulary for the gateway *)

Module GatewaySpec.
Import Gateway.

(** every byte is below 128 *)
Fixpoint isAscii (s : string) : bool :=
  match s with
  | EmptyString => true
  | String c rest => Nat.ltb (Ascii.nat_of_ascii c) 128 && isAscii rest
  end.

Fixpoint hasColon (s : string) : bool :=
  match s with
  | EmptyString => false
  | String c rest => Ascii.eqb c ":"%char || hasColon rest
  end.

(** The request names room [room]: on the CRDT route by the part of the
    document name before the first colon, on the control route by the whole
    captured group. *)
Definition routed (getRoom : string -> option Room) (url : URL) (room : Room)
  : Prop :=
  (exists full, matchAfter "/ws/" (pathname url) = Some full
                /\ getRoom (beforeColon full) = Some room)
  \/ (matchAfter "/ws/" (pathname url) = None
      /\ exists roomId, matchAfter "/control/" (pathname url) = Some roomId
                        /\ getRoom roomId = Some room).

(** The base of [new URL(req.url || "", `http://${req.headers.host}`)]: an
    absent host header is interpolated as the text undefined. *)
Definition requestBase (host : option string) : string :=
  "http://" ++ match host with Some h => h | None => "undefined" end.

Section Handler.

(** [new URL(input, base)] of the platform; [None] when it throws
    (TypeError: Invalid URL) *)
Variable newURL : string -> string -> option URL.
Variable getRoom : string -> option Room.
Variable REQUIRE_GITHUB_AUTH : bool.
Variable verifyJWT : string -> bool.

(** The 'upgrade' handler from its first statement on: [reqUrl] is
    [req.url], [host] is [req.headers.host]. *)
Definition onUpgrade (reqUrl host : option string) : Outcome :=
  match newURL (orEmpty reqUrl) (requestBase host) with
  | None => Thrown
  | Some url => upgrade getRoom REQUIRE_GITHUB_AUTH verifyJWT url
  end.

End Handler.

End GatewaySpec.

(** ** Vocabulary for the control channel *)

Module ControlSpec.
Import Control ControlExamples.

(** the entries of the client map whose host flag is set *)
Definition hosts (room : ControlRoom) : list (WebSocket * ControlClient) :=
  List.filter (fun e => isHost (snd e)) (clients room).

Definition hostCount (m : list (WebSocket * ControlClient)) : nat :=
  length (List.filter (fun e => isHost (snd e)) m).

(** what a join-request stores as user-id and display name *)
Definition requestedId (msg : Msg) : string :=
  if truthy (m_userId msg) then orEmpty (m_userId msg) else "".

Definition requestedName (msg : Msg) : string :=
  if truthy (m_displayName msg) then orEmpty (m_displayName msg) else "".

Definition requestedAvatar (msg : Msg) : string :=
  if truthy (m_avatarUrl msg) then orEmpty (m_avatarUrl msg) else "".

(** what a join-response of the host decides *)
Definition decision (msg : Msg) : bool :=
  match m_approved msg with Some b => b | None => false end.

Definition grantedPermission (msg : Msg) (old : string) : string :=
  if truthy (m_permission msg) then orEmpty (m_permission msg) else old.

Definition joinResponseMsg (uid : string) (ok : bool) (perm : option string) : Msg :=
  mkMsg "join-response" (Some uid) None None (Some ok) perm None.

Definition summonMsg (target : option string) : Msg :=
  mkMsg "summon" None None None None None target.

Definition kickOf (uid : string) : Msg :=
  mkMsg "kick" (Some uid) None None None None None.

(** socket 1 is the host; sockets 2 and 3 both carry the user-id guest-1,
    socket 3 is not approved; socket 4 has not identified *)
Definition crowdedRoom : ControlRoom :=
  mkControlRoom
    [ (1, hostC); (2, guestC);
      (3, mkClient "guest-1" "Twin" false false "read-write");
      (4, mkClient "" "" false true "read-write") ] ∅.

(** three sockets connect and identify, the first leaves, a fourth
    identifies *)
Definition fallbackTrace : list ((WebSocket -> ReadyState) * Event) :=
  [ (allOpen, Connection 1);
    (allOpen, Connection 2);
    (allOpen, Message 2 (frameOf (presenceMsg "b")));
    (allOpen, Message 1 (frameOf (presenceMsg "a")));
    (allOpen, Connection 3);
    (allOpen, Message 3 (frameOf (presenceMsg "c")));
    (allOpen, Closed 2);
    (allOpen, Connection 4);
    (allOpen, Message 4 (frameOf (presenceMsg "d"))) ].


End ControlSpec.

(** ** Vocabulary for the timers of the CRDT channel *)

Module YjsTimers.
Import Yjs.

Section Wf.
Context {Y : YLib}.

(** A pending timer is the one its room state records: an idle timer
    belongs to a state without attached sockets and is that state's
    [cleanupTimer]; a persist timer is its state's [persistTimer]. *)
Definition timerOk (h : gmap nat RoomState) (tid : nat) (t : Timer) : Prop :=
  match action t with
  | CleanupTimer _ sid =>
      exists st, h !! sid = Some st /\ clients st = [] /\ cleanupTimer st = Some tid
  | PersistTimer _ sid =>
      exists st, h !! sid = Some st /\ persistTimer st = Some tid
  end.

(** the room state a timer works on *)
Definition timerState (t : Timer) : nat :=
  match action t with
  | CleanupTimer _ sid => sid
  | PersistTimer _ sid => sid
  end.

Definition isCleanup (t : Timer) : bool :=
  match action t with CleanupTimer _ _ => true | PersistTimer _ _ => false end.

Record Wf (w : World) : Prop := mkWf {
  wf_heap : forall sid, is_Some (heap w !! sid) -> sid < next w;
  wf_conn : forall ws name sid,
      conn w !! ws = Some (name, sid) ->
      exists st, heap w !! sid = Some st /\ In ws (clients st);
  wf_timer : forall tid t, timers w !! tid = Some t -> timerOk (heap w) tid t
}.

(** no idle timer for room state [sid] is pending *)
Definition noCleanup (w : World) (sid : nat) : Prop :=
  forall tid t, timers w !! tid = Some t ->
                isCleanup t = true -> timerState t <> sid.

(** Every reference to a room state carries the name the state was built
    for ([o] gives that name), and the room map points to live states. *)
Record Owned (o : nat -> string) (w : World) : Prop := mkOwned {
  own_states : forall n sid,
      roomStates w !! n = Some sid ->
      o sid = n /\ exists st, heap w !! sid = Some st /\ destroyed st = false;
  own_io : forall op k v n sid,
      io w !! op = Some (PutDoc k v (Some (n, sid))) ->
      o sid = n /\ is_Some (heap w !! sid);
  own_timer : forall tid t n sid,
      timers w !! tid = Some t -> action t = CleanupTimer n sid -> o sid = n;
  own_conn : forall ws n sid, conn w !! ws = Some (n, sid) -> o sid = n
}.

(** Every promise a name or a caller waits on is a creation in flight for
    that name. *)
Record Promised (w : World) : Prop := mkPromised {
  pr_pending : forall n pid,
      pendingRooms w !! n = Some pid ->
      exists c, creating w !! pid = Some c /\ c_roomId c = n;
  pr_waiting : forall ws n pid,
      In (ws, n, pid) (waiting w) ->
      exists c, creating w !! pid = Some c /\ c_roomId c = n;
  pr_creating : forall pid, is_Some (creating w !! pid) -> pid < next w
}.

End Wf.

(** two sockets share a document; the second leaves, the first sends an
    update and leaves; a third arrives before the idle timer fires *)
Definition busyRun : list ((WebSocket -> ReadyState) * Event) :=
  [ (YjsExamples.allOpen, Upgrade 1 "room:notes");
    (YjsExamples.allOpen, Upgrade 2 "room:notes");
    (YjsExamples.allOpen, LoadDone 0);
    (YjsExamples.allOpen, Closed 2);
    (YjsExamples.allOpen, Message 1 [0; 2; 42]%Z);
    (YjsExamples.allOpen, Tick 1000%N);
    (YjsExamples.allOpen, Message 1 [0; 2; 43]%Z);
    (YjsExamples.allOpen, Closed 1);
    (YjsExamples.allOpen, Tick 10000%N);
    (YjsExamples.allOpen, Upgrade 3 "room:notes") ].

(** two sockets wait for a document whose load then completes *)
Definition joinRun : list ((WebSocket -> ReadyState) * Event) :=
  [ (YjsExamples.allOpen, Upgrade 1 "room:notes");
    (YjsExamples.allOpen, Upgrade 2 "room:notes");
    (YjsExamples.allOpen, LoadDone 0) ].

(** a socket opens a document, sends an update and leaves; 30 s pass *)
Definition idleRun : list ((WebSocket -> ReadyState) * Event) :=
  [ (YjsExamples.allOpen, Upgrade 1 "room:notes");
    (YjsExamples.allOpen, LoadDone 0);
    (YjsExamples.allOpen, Message 1 [0; 2; 42]%Z);
    (YjsExamples.allOpen, Closed 1);
    (YjsExamples.allOpen, Tick 30000%N) ].

(** The sockets whose connection handlers are suspended on the creation
    [pid].  When the creation is rejected, [getOrCreateRoom] rethrows and
    the rejection comes out of the [await getOrCreateRoom(roomId)] of each
    of them; the handlers have no [catch]. *)
Definition awaiting {Y : YLib} (w : World) (pid : nat) : list WebSocket :=
  map (fun e => fst (fst e))
    (List.filter (fun e => Nat.eqb (snd e) pid) (waiting w)).

(** Every creation in flight has a connection handler suspended on it. *)
Definition Awaited {Y : YLib} (w : World) : Prop :=
  forall pid, is_Some (creating w !! pid) ->
              exists ws n, In (ws, n, pid) (waiting w).

Definition hasState {Y : YLib} (w : World) (sid : nat) : bool :=
  match heap w !! sid with Some _ => true | None => false end.

(** the room state at an address of the heap *)
Definition stateAt {Y : YLib} (w : World) (sid : nat) : RoomState :=
  match heap w !! sid with
  | Some st => st
  | None => mkRoomState newDoc (newAwareness newDoc) [] ∅ None None false
  end.

End YjsTimers.

(** ** Runs that leave sockets on a destroyed room state *)

Module YjsAfterDestroy.
Import Yjs.

(** as [YjsExamples.raceRun], with two sockets arriving while the final
    store write of the cleanup is in flight *)
Definition mutedRun : list ((WebSocket -> ReadyState) * Event) :=
  [ (YjsExamples.allOpen, Upgrade 1 "room:notes");
    (YjsExamples.allOpen, LoadDone 0);
    (YjsExamples.allOpen, Closed 1);
    (YjsExamples.allOpen, Tick 30000%N);
    (YjsExamples.allOpen, Fire 2);
    (YjsExamples.allOpen, Upgrade 2 "room:notes");
    (YjsExamples.allOpen, Upgrade 4 "room:notes");
    (YjsExamples.allOpen, PutDone 3) ].

(** a sync frame; the small library instance reads its body as an update
    that adds 42 to the replica *)
Definition updateFrame : bytes := [0; 2; 42]%Z.

(** after [YjsExamples.raceRun], socket 2 announces awareness ids and
    disconnects *)
Definition staleRun : list ((WebSocket -> ReadyState) * Event) :=
  (YjsExamples.raceRun
     ++ [ (YjsExamples.allOpen, Message 2 YjsExamples.awarenessFrame);
          (YjsExamples.allOpen, Closed 2) ])%list.

End YjsAfterDestroy.

(** ** The room registry (rooms.ts) and its records in the store
       (persistence.ts)

    A stored room is the metadata the socket handlers read together with
    the two fields only the REST interface shows.  The [participants] field
    of the interface is never written by the server and is left out. *)

Module Registry.

Record StoredRoom := mkStoredRoom {
  meta : Room;
  room_name : string;
  room_createdAt : Z
}.

(** [JSON.stringify(room)] as the bytes of a [Buffer], and [JSON.parse] of
    such bytes; [None] when [JSON.parse] throws.  Stored values that parse
    to something else than a room object are not covered. *)
Class JsonLib := {
  stringify : StoredRoom -> bytes;
  parse : bytes -> option StoredRoom
}.

(** JSON: a room, written and read back, is the same room. *)
Class JsonLaws (J : JsonLib) := {
  parse_stringify : forall r : StoredRoom, parse (stringify r) = Some r
}.

End Registry.

Module PersistenceRooms.
Import Persistence Registry.

(** [s.startsWith(p)] *)
Definition startsWith (p s : string) : bool :=
  match Gateway.stripPrefix p s with
  | Some _ => true
  | None => false
  end.

Definition isRoomEntry (e : string * bytes) : Prop :=
  startsWith "room:" (fst e) = true.

(** LevelDB iterates in the bytewise order of the keys. *)
Definition keyLe (a b : string * bytes) : Prop :=
  String.leb (fst a) (fst b) = true.

#[export] Instance keyLe_dec (a b : string * bytes) : Decision (keyLe a b) :=
  decide (String.leb (fst a) (fst b) = true).

(** [db.iterator({ keyEncoding: "utf8" })] *)
Definition iterator (db : gmap string bytes) : list (string * bytes) :=
  merge_sort keyLe (map_to_list db).

Section Level.
Context {J : JsonLib}.

(** The loop of [loadRooms] from some entry on, [rooms] being the array
    built so far.  [JSON.parse] throwing leaves the loop through the
    [catch], and the array is returned as it is. *)
Fixpoint collect (it : list (string * bytes)) (rooms : list StoredRoom)
  : list StoredRoom :=
  match it with
  | [] => rooms
  | (key, value) :: rest =>
      if startsWith "room:" key then
        match parse value with
        | Some room => collect rest (rooms ++ [room])
        | None => rooms
        end
      else collect rest rooms
  end.

Definition loadRooms (db : gmap string bytes) : list StoredRoom :=
  collect (iterator db) [].

Definition saveRoom (db : gmap string bytes) (room : StoredRoom)
  : gmap string bytes :=
  <[roomKey (room_id (meta room)) := stringify room]> db.

(** [db.del]; a missing key is not an error *)
Definition deleteRoom (db : gmap string bytes) (id : string)
  : gmap string bytes :=
  delete (roomKey id) db.

End Level.

End PersistenceRooms.

Module Rooms.
Import Gateway Persistence Registry PersistenceRooms.

(** [/[\x00-\x1f\x7f]/.test(s)]; in UTF-8 these code points are the bytes
    of the same value *)
Definition isControlChar (c : ascii) : bool :=
  Nat.ltb (Ascii.nat_of_ascii c) 32 || Nat.eqb (Ascii.nat_of_ascii c) 127.

Fixpoint CONTROL_CHARS (s : string) : bool :=
  match s with
  | EmptyString => false
  | String c rest => isControlChar c || CONTROL_CHARS rest
  end.

(** The module state: the [rooms] map and the store behind [_persistence].
    A store write a handler starts is taken to land before the next request
    is served. *)
Record State := mkState {
  rooms : gmap string StoredRoom;
  store : gmap string bytes
}.

(** the loop of [initRooms] *)
Definition initRooms (stored : list StoredRoom) (rooms : gmap string StoredRoom)
  : gmap string StoredRoom :=
  fold_left (fun m room => <[room_id (meta room) := room]> m) stored rooms.

Definition getRoom (rooms : gmap string StoredRoom) (id : string) : option Room :=
  match rooms !! id with
  | Some room => Some (meta room)
  | None => None
  end.

(** The fields of a request body the handlers read; [None] stands for a
    field that is absent or, for [name] and [hostUserId], not a string. *)
Record CreateBody := mkCreateBody {
  b_name : option string;
  b_hostUserId : option string
}.

Inductive Response :=
| Created (id token name : string)
| BadRequest (error : string)
| Unauthorized
| Forbidden
| NotFound
| Joined (id name wsUrl : string)
| RoomInfo (name : string) (createdAt : Z)
| Deleted
| ServerError.

Section Router.
Context {J : JsonLib}.

(** [safeTokenCompare] of util.js *)
Variable safeTokenCompare : string -> string -> Result bool.

(** the process start: [initRooms(persistence)] on the empty map *)
Definition boot (db : gmap string bytes) : State :=
  mkState (initRooms (loadRooms db) ∅) db.

(** POST /; [id], [token] and [now] are what [nanoid(12)], [nanoid(24)] and
    [Date.now()] return *)
Definition postRoom (s : State) (body : CreateBody) (id token : string) (now : Z)
  : State * Response :=
  match b_name body with
  | None => (s, BadRequest "name is required")
  | Some name =>
      if String.eqb name "" then (s, BadRequest "name is required")
      else if Nat.ltb 100 (jsLength name) || CONTROL_CHARS name
      then (s, BadRequest "invalid name")
      else if truthy (b_hostUserId body)
              && (Nat.ltb 128 (jsLength (orEmpty (b_hostUserId body)))
                  || CONTROL_CHARS (orEmpty (b_hostUserId body)))
      then (s, BadRequest "invalid hostUserId")
      else
        let room := mkStoredRoom (mkRoom id token (b_hostUserId body) None None)
                      name now in
        (mkState (<[id := room]> (rooms s)) (saveRoom (store s) room),
         Created id token name)
  end.

(** POST /:id/join; [token] is the body's field, a string when present *)
Definition postJoin (s : State) (id : string) (token : option string)
  : State * Response :=
  match rooms s !! id with
  | None => (s, NotFound)
  | Some room =>
      if negb (truthy token) then (s, Forbidden)
      else match safeTokenCompare (orEmpty token) (room_token (meta room)) with
           | Ok true =>
               (s, Joined (room_id (meta room)) (room_name room)
                     ("/ws/" ++ room_id (meta room)))
           | Ok false => (s, Forbidden)
           | Throws => (s, ServerError)
           end
  end.

(** GET /:id *)
Definition getInfo (s : State) (id : string) : State * Response :=
  match rooms s !! id with
  | None => (s, NotFound)
  | Some room => (s, RoomInfo (room_name room) (room_createdAt room))
  end.

(** DELETE /:id; [auth] is the Authorization header *)
Definition deleteRoomById (s : State) (id : string) (auth : option string)
  : State * Response :=
  match auth with
  | None => (s, Unauthorized)
  | Some header =>
      match stripPrefix "Bearer " header with
      | None => (s, Unauthorized)
      | Some token =>
          match rooms s !! id with
          | None => (s, NotFound)
          | Some room =>
              match safeTokenCompare token (room_token (meta room)) with
              | Ok true =>
                  (mkState (delete id (rooms s)) (deleteRoom (store s) id), Deleted)
              | Ok false => (s, Forbidden)
              | Throws => (s, ServerError)
              end
          end
      end
  end.

Inductive Request :=
| PostRoom (body : CreateBody) (id token : string) (now : Z)
| PostJoin (id : string) (token : option string)
| GetRoom (id : string)
| DeleteRoom (id : string) (auth : option string).

Definition handle (s : State) (r : Request) : State * Response :=
  match r with
  | PostRoom body id token now => postRoom s body id token now
  | PostJoin id token => postJoin s id token
  | GetRoom id => getInfo s id
  | DeleteRoom id auth => deleteRoomById s id auth
  end.

Fixpoint run (s : State) (rs : list Request) : State :=
  match rs with
  | [] => s
  | r :: rest => run (fst (handle s r)) rest
  end.

End Router.

End Rooms.

(** ** Vocabulary and examples for the registry *)

Module RoomsSpec.
Import Gateway Persistence Registry PersistenceRooms Rooms.

(** What POST / accepts. *)
Definition validName (body : CreateBody) : Prop :=
  exists name, b_name body = Some name /\ name <> EmptyString
               /\ jsLength name <= 100 /\ CONTROL_CHARS name = false.

Definition validHost (body : CreateBody) : Prop :=
  match b_hostUserId body with
  | Some h => h = EmptyString
              \/ (jsLength h <= 128 /\ CONTROL_CHARS h = false)
  | None => True
  end.

(** no key of the store is a room key *)
Definition noRoomKeys (db : gmap string bytes) : Prop :=
  forall k v, db !! k = Some v -> startsWith "room:" k = false.

Section Consistent.
Context {J : JsonLib}.

(** The store holds, under the room keys, the rooms of the map and nothing
    else. *)
Record Consistent (s : State) : Prop := mkConsistent {
  in_store : forall id room,
      rooms s !! id = Some room ->
      room_id (meta room) = id
      /\ store s !! roomKey id = Some (stringify room);
  in_map : forall k v,
      store s !! k = Some v -> startsWith "room:" k = true ->
      exists id room, k = roomKey id /\ rooms s !! id = Some room
                      /\ v = stringify room
}.

End Consistent.

(** A stand-in for JSON: a room is written as the one number that encodes
    the tuple of its fields. *)
Definition toTuple (r : StoredRoom)
  : string * string * option string * option bool * option string * string * Z :=
  (room_id (meta r), room_token (meta r), hostUserId (meta r),
   requireApproval (meta r), defaultPermission (meta r),
   room_name r, room_createdAt r).

Definition ofTuple
    (t : string * string * option string * option bool * option string * string * Z)
  : StoredRoom :=
  match t with
  | (id, token, host, req, perm, name, at_) =>
      mkStoredRoom (mkRoom id token host req perm) name at_
  end.

Definition toyParse (b : bytes) : option StoredRoom :=
  match b with
  | [Z.pos p] => option_map ofTuple (decode p)
  | _ => None
  end.

#[export] Instance toyJson : JsonLib := {|
  stringify := fun r => [Z.pos (encode (toTuple r))];
  parse := toyParse
|}.

Definition notesBody : CreateBody := mkCreateBody (Some "Notes") (Some "host-1").

Definition bearer (token : string) : option string := Some ("Bearer " ++ token).

(** two rooms are created, the first is deleted by its owner, a stranger
    fails to delete the second *)
Definition restRun : list Request :=
  [ PostRoom notesBody "V1StGXR8_Z5j" "0123456789abcdefghijklmn" 1700000000000%Z;
    PostRoom (mkCreateBody (Some "Plans") None) "aB3dE6gH9jK2"
      "ZYXWVUTSRQPONMLKJIHGFEDC" 1700000000500%Z;
    PostJoin "V1StGXR8_Z5j" (Some "0123456789abcdefghijklmn");
    DeleteRoom "V1StGXR8_Z5j" (bearer "0123456789abcdefghijklmn");
    DeleteRoom "aB3dE6gH9jK2" (bearer "guess") ].

Definition roomA : StoredRoom :=
  mkStoredRoom (mkRoom "a" "0123456789abcdefghijklmn" None None None) "A" 1%Z.

Definition roomC : StoredRoom :=
  mkStoredRoom (mkRoom "c" "ZYXWVUTSRQPONMLKJIHGFEDC" None None None) "C" 3%Z.

(** a store with a document, two rooms and, between them in key order, a
    room entry that does not parse *)
Definition corruptStore : gmap string bytes :=
  <["doc:a:x.md" := [1; 2]%Z]>
    (<["room:c" := stringify roomC]>
       (<["room:b" := [0%Z]]>
          (<["room:a" := stringify roomA]> ∅))).

End RoomsSpec.
(** ** Properties of the control channel *)

Module ControlProofs.
Import Control ControlExamples.

Lemma mapGet_mapSet {A} (ws w : WebSocket) (v : A) m :
  mapGet w (mapSet ws v m) = if Nat.eqb ws w then Some v else mapGet w m.
Proof.
  induction m as [|[k x] m IH]; simpl.
  - destruct (Nat.eqb ws w); reflexivity.
  - destruct (Nat.eqb k ws) eqn:Ek; simpl.
    + apply Nat.eqb_eq in Ek; subst k.
      destruct (Nat.eqb ws w); reflexivity.
    + destruct (Nat.eqb k w) eqn:Ekw.
      * apply Nat.eqb_eq in Ekw; subst k.
        rewrite Nat.eqb_sym, Ek. reflexivity.
      * exact IH.
Qed.

Lemma mapGet_mapDelete {A} (ws w : WebSocket) (m : list (WebSocket * A)) :
  mapGet w (mapDelete ws m) = if Nat.eqb ws w then None else mapGet w m.
Proof.
  induction m as [|[k x] m IH]; simpl.
  - destruct (Nat.eqb ws w); reflexivity.
  - destruct (Nat.eqb k ws) eqn:Ek; simpl.
    + apply Nat.eqb_eq in Ek; subst k. rewrite IH.
      destruct (Nat.eqb ws w); reflexivity.
    + rewrite IH. destruct (Nat.eqb ws w) eqn:E; [|reflexivity].
      apply Nat.eqb_eq in E; subst w. rewrite Ek. reflexivity.
Qed.

Lemma broadcast_only_sends rs room p ex e :
  In e (broadcast rs room p ex) -> exists w, e = Send w p.
Proof.
  unfold broadcast. rewrite in_map_iff. intros [x [<- _]]. eauto.
Qed.

(** Who receives a broadcast. *)
Lemma broadcast_recipients rs room p ex w q :
  In (Send w q) (broadcast rs room p ex)
  <-> q = p /\ Some w <> ex /\ rs w = OPEN
      /\ exists c, In (w, c) (clients room) /\ approved c = true.
Proof.
  unfold broadcast. rewrite in_map_iff. split.
  - intros [[k c] [Heq Hin]]. simpl in Heq. inversion Heq; subst.
    apply filter_In in Hin. destruct Hin as [Hin Hb]. simpl in Hb.
    apply andb_true_iff in Hb. destruct Hb as [Hb Ho].
    apply andb_true_iff in Hb. destruct Hb as [Hx Ha].
    apply negb_true_iff, bool_decide_eq_false in Hx.
    repeat split; auto.
    + destruct (rs w); simpl in Ho; congruence.
    + eauto.
  - intros (-> & Hx & Ho & c & Hin & Ha).
    exists (w, c). split; [reflexivity|].
    apply filter_In. split; [exact Hin|]. simpl.
    rewrite Ha, Ho. simpl.
    rewrite bool_decide_eq_false_2 by exact Hx. reflexivity.
Qed.

(** *** Host-only commands *)

(** C1 (as amended).  A 'kick' or 'join-response' from a socket that is not
    host leaves the room unchanged, closes no socket and makes the server
    build no message of its own; the frame takes the generic relay path: it
    is sent verbatim to the other approved OPEN sockets when the sender is
    approved, and nothing is sent when the sender is not approved. *)
Theorem C1_non_host_commands rs sr room ws f msg client :
  mapGet ws (clients room) = Some client ->
  isHost client = false ->
  json f = Some msg ->
  type msg = "kick" \/ type msg = "join-response" ->
  onMessage rs sr room ws f
  = (room,
     if approved client then broadcast rs room (Raw (data f)) (Some ws) else []).
Proof.
  intros Hget Hhost Hjson Ht. unfold onMessage.
  rewrite Hget, Hjson.
  destruct Ht as [Ht|Ht]; rewrite Ht, Hhost; simpl;
    destruct (approved client); reflexivity.
Qed.

Lemma C1_non_host_commands_witness :
  onMessage allOpen None demoRoom 2 (frameOf kickMsg)
  = (demoRoom, broadcast allOpen demoRoom (Raw (data (frameOf kickMsg))) (Some 2)).
Proof.
  apply (C1_non_host_commands allOpen None demoRoom 2 (frameOf kickMsg) kickMsg guestC);
    [reflexivity | reflexivity | reflexivity | left; reflexivity].
Defined.

(** The claim as written fails: the guest on socket 2 is not host, its
    'kick' frame reaches the host's socket 1. *)
Lemma C1_counterexample :
  mapGet 2 (clients demoRoom) = Some guestC
  /\ isHost guestC = false
  /\ type kickMsg = "kick"
  /\ snd (onMessage allOpen None demoRoom 2 (frameOf kickMsg))
     = [Send 1 (Raw (stringify kickMsg))]
  /\ snd (onMessage allOpen None demoRoom 2 (frameOf kickMsg)) <> [].
Proof.
  repeat split; try reflexivity. discriminate.
Qed.

(** *** Approval *)

Lemma sendTo_only rs w p e : In e (sendTo rs w p) -> e = Send w p.
Proof.
  unfold sendTo. destruct (isOpen (rs w)); simpl; intuition.
Qed.

Lemma handleKick_only rs room msg e :
  In e (handleKick rs room msg) -> (exists w, e = Send w Kicked) \/ (exists w, e = Close w).
Proof.
  unfold handleKick. rewrite in_flat_map. intros [[w c] [_ Hin]]. simpl in Hin.
  destruct (strictEq (userId c) (m_userId msg)); [|contradiction].
  apply in_app_or in Hin. destruct Hin as [Hin|Hin].
  - left. exists w. eapply sendTo_only; eauto.
  - right. exists w. simpl in Hin. intuition.
Qed.

Lemma handleJoinRequest_no_relay rs sr room ws client msg w d :
  ~ In (Send w (Raw d)) (snd (handleJoinRequest rs sr room ws client msg)).
Proof.
  unfold handleJoinRequest. destruct (serverRequireApproval sr); simpl.
  - destruct (findHost _) as [h|]; [|tauto].
    intros H. apply sendTo_only in H. discriminate.
  - intros H. apply sendTo_only in H. discriminate.
Qed.

Lemma handleJoinResponse_no_relay rs room msg w d :
  ~ In (Send w (Raw d)) (snd (handleJoinResponse rs room msg)).
Proof.
  unfold handleJoinResponse.
  destruct (m_userId msg) as [t|]; [|simpl; tauto].
  destruct (pendingApprovals room !! t) as [tw|]; [|simpl; tauto].
  destruct (mapGet tw (clients room)) as [tc|]; [|simpl; tauto].
  simpl. intros H. apply sendTo_only in H. discriminate.
Qed.





(** A 'file-op' from a sender whose permission is read-only is dropped:
    nothing changes and nothing is sent. *)
Lemma file_op_read_only_dropped rs sr room ws f msg client :
  mapGet ws (clients room) = Some client ->
  json f = Some msg ->
  type msg = "file-op" ->
  permission client = "read-only" ->
  onMessage rs sr room ws f = (room, []).
Proof.
  intros Hget Hjson Ht Hp. unfold onMessage.
  rewrite Hget, Hjson, Ht, Hp. reflexivity.
Qed.

(** *** Host determination *)

Lemma truthy_orEmpty o : truthy o = true -> orEmpty o <> EmptyString.
Proof.
  destruct o as [s|]; simpl; [|discriminate].
  intros H E. subst s. discriminate.
Qed.

Lemma trackPresence_isHost sr room client msg :
  isHost (trackPresence sr room client msg)
  = if truthy (m_userId msg) && String.eqb (userId client) EmptyString
    then hostPolicy sr room msg else isHost client.
Proof.
  unfold trackPresence, hostPolicy.
  destruct (truthy (m_userId msg)); simpl;
    destruct (truthy (m_displayName msg)); simpl; try reflexivity;
    destruct (String.eqb (userId client) EmptyString); reflexivity.
Qed.

Lemma trackPresence_userId sr room client msg :
  userId (trackPresence sr room client msg)
  = if truthy (m_userId msg) then orEmpty (m_userId msg) else userId client.
Proof.
  unfold trackPresence.
  destruct (truthy (m_userId msg)); simpl;
    destruct (truthy (m_displayName msg)); reflexivity.
Qed.

(** The record of socket [w] after a frame of socket [ws]: either nothing
    about identity changed, or [ws = w] sent a join-request (user-id
    rewritten, host flag kept) or a presence-update (handled by
    [trackPresence]). *)
Lemma onMessage_record rs sr room ws f w c c' :
  mapGet w (clients room) = Some c ->
  mapGet w (clients (fst (onMessage rs sr room ws f))) = Some c' ->
  (isHost c' = isHost c /\ userId c' = userId c)
  \/ (ws = w /\ exists msg, json f = Some msg /\ type msg = "join-request"
       /\ isHost c' = isHost c
       /\ userId c' = if truthy (m_userId msg) then orEmpty (m_userId msg)
                      else EmptyString)
  \/ (ws = w /\ exists msg, json f = Some msg /\ type msg = "presence-update"
       /\ c' = trackPresence sr room c msg).
Proof.
  intros Hc. unfold onMessage.
  destruct (mapGet ws (clients room)) as [client|] eqn:Hget;
    [|simpl; intros H; left; rewrite Hc in H; inversion H; auto].
  destruct (json f) as [msg|];
    [|simpl; intros H; left; rewrite Hc in H; inversion H; auto].
  destruct (negb (allowed (type msg)));
    [simpl; intros H; left; rewrite Hc in H; inversion H; auto|].
  destruct (String.eqb (type msg) "join-request") eqn:Ejr.
  { apply String.eqb_eq in Ejr.
    unfold handleJoinRequest.
    destruct (serverRequireApproval sr); simpl; rewrite mapGet_mapSet;
      (destruct (Nat.eqb ws w) eqn:E;
       [ apply Nat.eqb_eq in E; subst w; intros H; inversion H; subst c'; simpl;
         rewrite Hget in Hc; inversion Hc; subst client;
         right; left; split; [reflexivity|]; exists msg; auto
       | intros H; left; rewrite Hc in H; inversion H; auto ]). }
  destruct (String.eqb (type msg) "join-response" && isHost client).
  { unfold handleJoinResponse.
    destruct (m_userId msg) as [t|];
      [|simpl; intros H; left; rewrite Hc in H; inversion H; auto].
    destruct (pendingApprovals room !! t) as [tw|];
      [|simpl; intros H; left; rewrite Hc in H; inversion H; auto].
    destruct (mapGet tw (clients room)) as [tc|] eqn:Htc;
      [|simpl; intros H; left; rewrite Hc in H; inversion H; auto].
    simpl. rewrite mapGet_mapSet.
    destruct (Nat.eqb tw w) eqn:E.
    - apply Nat.eqb_eq in E; subst tw. rewrite Hc in Htc; inversion Htc; subst tc.
      intros H; inversion H; subst c'. left. auto.
    - intros H; left; rewrite Hc in H; inversion H; auto. }
  destruct (String.eqb (type msg) "kick" && isHost client);
    [simpl; intros H; left; rewrite Hc in H; inversion H; auto|].
  destruct (String.eqb (type msg) "file-op"
            && String.eqb (permission client) "read-only");
    [simpl; intros H; left; rewrite Hc in H; inversion H; auto|].
  destruct (negb (approved client));
    [simpl; intros H; left; rewrite Hc in H; inversion H; auto|].
  destruct (String.eqb (type msg) "summon"
            && negb (bool_decide (m_targetUserId msg = Some "__all__")));
    [simpl; intros H; left; rewrite Hc in H; inversion H; auto|].
  destruct (String.eqb (type msg) "presence-update") eqn:Epu;
    [|simpl; intros H; left; rewrite Hc in H; inversion H; auto].
  apply String.eqb_eq in Epu. simpl. rewrite mapGet_mapSet.
  destruct (Nat.eqb ws w) eqn:E.
  - apply Nat.eqb_eq in E; subst w. rewrite Hget in Hc; inversion Hc; subst client.
    intros H; inversion H; subst c'.
    right; right. split; [reflexivity|]. exists msg. auto.
  - intros H; left; rewrite Hc in H; inversion H; auto.
Qed.

Lemma onMessage_absent rs sr room ws f w :
  mapGet w (clients room) = None ->
  mapGet w (clients (fst (onMessage rs sr room ws f))) = None.
Proof.
  intros Hw. unfold onMessage.
  destruct (mapGet ws (clients room)) as [client|] eqn:Hget; [|exact Hw].
  assert (Hne : Nat.eqb ws w = false).
  { destruct (Nat.eqb ws w) eqn:E; [|reflexivity].
    apply Nat.eqb_eq in E; subst w. congruence. }
  destruct (json f) as [msg|]; [|exact Hw].
  destruct (negb (allowed (type msg))); [exact Hw|].
  destruct (String.eqb (type msg) "join-request").
  { unfold handleJoinRequest.
    destruct (serverRequireApproval sr); simpl; rewrite mapGet_mapSet, Hne; exact Hw. }
  destruct (String.eqb (type msg) "join-response" && isHost client).
  { unfold handleJoinResponse.
    destruct (m_userId msg) as [t|]; [|exact Hw].
    destruct (pendingApprovals room !! t) as [tw|]; [|exact Hw].
    destruct (mapGet tw (clients room)) as [tc|] eqn:Htc; [|exact Hw].
    simpl. rewrite mapGet_mapSet.
    destruct (Nat.eqb tw w) eqn:E; [|exact Hw].
    apply Nat.eqb_eq in E; subst tw. congruence. }
  destruct (String.eqb (type msg) "kick" && isHost client); [exact Hw|].
  destruct (String.eqb (type msg) "file-op"
            && String.eqb (permission client) "read-only"); [exact Hw|].
  destruct (negb (approved client)); [exact Hw|].
  destruct (String.eqb (type msg) "summon"
            && negb (bool_decide (m_targetUserId msg = Some "__all__")));
    [exact Hw|].
  destruct (String.eqb (type msg) "presence-update"); [|exact Hw].
  simpl. rewrite mapGet_mapSet, Hne. exact Hw.
Qed.

Lemma onClose_clients rs room ws :
  clients (fst (onClose rs room ws)) = mapDelete ws (clients room).
Proof.
  unfold onClose. destruct (mapGet ws (clients room)) eqn:E; simpl; [reflexivity|].
  clear rs. induction (clients room) as [|[k x] m IH]; simpl in *; [reflexivity|].
  destruct (Nat.eqb k ws); [discriminate|]. f_equal. auto.
Qed.

(** One step of the room, seen from socket [w]. *)
Lemma step_record sr room rs e w c c' :
  e <> Connection w ->
  mapGet w (clients room) = Some c ->
  mapGet w (clients (fst (step sr room (rs, e)))) = Some c' ->
  (isHost c' = isHost c /\ userId c' = userId c)
  \/ (exists f msg, e = Message w f /\ json f = Some msg
       /\ type msg = "join-request" /\ isHost c' = isHost c
       /\ userId c' = if truthy (m_userId msg) then orEmpty (m_userId msg)
                      else EmptyString)
  \/ (exists f msg, e = Message w f /\ json f = Some msg
       /\ type msg = "presence-update" /\ c' = trackPresence sr room c msg).
Proof.
  intros Hne Hc. destruct e as [ws|ws f|ws]; unfold step; simpl.
  - rewrite mapGet_mapSet. destruct (Nat.eqb ws w) eqn:E.
    + apply Nat.eqb_eq in E; subst ws. contradiction.
    + intros H. left. rewrite Hc in H. inversion H; auto.
  - intros H. destruct (onMessage_record rs sr room ws f w c c' Hc H)
      as [?|[[-> (msg & ?)]|[-> (msg & ?)]]]; [left; assumption| |].
    + right; left. exists f, msg. intuition.
    + right; right. exists f, msg. intuition.
  - rewrite onClose_clients, mapGet_mapDelete.
    destruct (Nat.eqb ws w); [discriminate|].
    intros H. left. rewrite Hc in H. inversion H; auto.
Qed.

Lemma step_absent sr room rs e w :
  e <> Connection w ->
  mapGet w (clients room) = None ->
  mapGet w (clients (fst (step sr room (rs, e)))) = None.
Proof.
  intros Hne Hw. destruct e as [ws|ws f|ws]; unfold step; simpl.
  - rewrite mapGet_mapSet. destruct (Nat.eqb ws w) eqn:E; [|exact Hw].
    apply Nat.eqb_eq in E; subst ws. contradiction.
  - apply onMessage_absent. exact Hw.
  - rewrite onClose_clients, mapGet_mapDelete.
    destruct (Nat.eqb ws w); [reflexivity|exact Hw].
Qed.

Lemma keepsIdentity_not_connection w e :
  keepsIdentity w e = true -> e <> Connection w.
Proof.
  intros H ->. simpl in H. rewrite Nat.eqb_refl in H. discriminate.
Qed.

Lemma run_absent sr es : forall room w,
  forallb (fun e => keepsIdentity w (snd e)) es = true ->
  mapGet w (clients room) = None ->
  mapGet w (clients (run sr room es)) = None.
Proof.
  induction es as [|[rs e] es IH]; intros room w Hall Hw; simpl in *; [exact Hw|].
  apply andb_true_iff in Hall. destruct Hall as [He Hall].
  apply IH; [exact Hall|].
  apply step_absent; [apply keepsIdentity_not_connection; exact He|exact Hw].
Qed.

(** Once a socket has a user-id its host flag is frozen, as long as it sends
    no join-request without a user-id. *)
Lemma run_frozen sr es : forall room w c c',
  mapGet w (clients room) = Some c ->
  userId c <> EmptyString ->
  forallb (fun e => keepsIdentity w (snd e)) es = true ->
  mapGet w (clients (run sr room es)) = Some c' ->
  isHost c' = isHost c /\ userId c' <> EmptyString.
Proof.
  induction es as [|[rs e] es IH]; intros room w c c' Hc Hid Hall Hend; simpl in *.
  - rewrite Hc in Hend. inversion Hend; subst. auto.
  - apply andb_true_iff in Hall. destruct Hall as [He Hall].
    pose proof (keepsIdentity_not_connection _ _ He) as Hne.
    destruct (mapGet w (clients (fst (step sr room (rs, e))))) as [c1|] eqn:H1.
    + assert (Hk : isHost c1 = isHost c /\ userId c1 <> EmptyString).
      { destruct (step_record sr room rs e w c c1 Hne Hc H1)
          as [[Hh Hu]|[(f & msg & -> & Hj & Ht & Hh & Hu)|(f & msg & -> & Hj & Ht & ->)]].
        - rewrite Hu. auto.
        - split; [exact Hh|]. rewrite Hu.
          simpl in He. rewrite Nat.eqb_refl, Hj, Ht in He. simpl in He.
          rewrite He. apply truthy_orEmpty. exact He.
        - rewrite trackPresence_isHost, trackPresence_userId.
          assert (Hf : String.eqb (userId c) EmptyString = false).
          { destruct (String.eqb (userId c) EmptyString) eqn:E; [|reflexivity].
            apply String.eqb_eq in E. contradiction. }
          rewrite Hf, andb_false_r. split; [reflexivity|].
          destruct (truthy (m_userId msg)) eqn:Et; [|exact Hid].
          apply truthy_orEmpty. exact Et. }
      destruct Hk as [Hh Hu].
      destruct (IH _ w c1 c' H1 Hu Hall Hend) as [Hh' Hu'].
      split; [congruence|exact Hu'].
    + rewrite (run_absent sr es _ w Hall H1) in Hend. discriminate.
Qed.

(** An approved socket without a recorded user-id that sends a
    presence-update carrying one gets its host flag from the policy. *)
Lemma identifying_presence_decides rs sr room w c f msg :
  mapGet w (clients room) = Some c ->
  json f = Some msg ->
  identifies msg = true ->
  approved c = true ->
  userId c = EmptyString ->
  exists c',
    mapGet w (clients (fst (onMessage rs sr room w f))) = Some c'
    /\ isHost c' = hostPolicy sr room msg
    /\ userId c' = orEmpty (m_userId msg)
    /\ userId c' <> EmptyString.
Proof.
  intros Hget Hjson Hid Happ Hu.
  unfold identifies in Hid. apply andb_true_iff in Hid. destruct Hid as [Ht Hm].
  apply String.eqb_eq in Ht.
  exists (trackPresence sr room c msg). split.
  - unfold onMessage. rewrite Hget, Hjson, Ht, Happ. simpl.
    rewrite mapGet_mapSet, Nat.eqb_refl. reflexivity.
  - rewrite trackPresence_isHost, trackPresence_userId, Hm, Hu. simpl.
    split; [reflexivity|]. split; [reflexivity|].
    apply truthy_orEmpty. exact Hm.
Qed.

(** The presence-update of a socket that is not approved is dropped before
    the decision. *)
Lemma unapproved_presence_dropped rs sr room w c f msg :
  mapGet w (clients room) = Some c ->
  json f = Some msg ->
  type msg = "presence-update" ->
  approved c = false ->
  onMessage rs sr room w f = (room, []).
Proof.
  intros Hget Hjson Ht Happ. unfold onMessage.
  rewrite Hget, Hjson, Ht, Happ. simpl.
  destruct (String.eqb (permission c) "read-only"); reflexivity.
Qed.

(** A join-request without a user-id writes the empty user-id back and
    keeps the host flag. *)
Lemma anonymous_join_request_forgets rs sr room w c f msg :
  mapGet w (clients room) = Some c ->
  json f = Some msg ->
  type msg = "join-request" ->
  truthy (m_userId msg) = false ->
  exists c',
    mapGet w (clients (fst (onMessage rs sr room w f))) = Some c'
    /\ userId c' = EmptyString
    /\ isHost c' = isHost c.
Proof.
  intros Hget Hjson Ht Hm. unfold onMessage. rewrite Hget, Hjson, Ht. simpl.
  unfold handleJoinRequest. rewrite Hm.
  destruct (serverRequireApproval sr); simpl;
    rewrite mapGet_mapSet, Nat.eqb_refl; eexists; (split; [reflexivity|]);
    split; reflexivity.
Qed.

(** C4: the code departs from the claim.  The host flag is decided when an
    approved socket whose recorded user-id is empty sends a presence-update
    carrying a user-id: the flag becomes "the announced user-id equals the
    room's hostUserId" when the room records one, and "no client of the room
    is host" otherwise (the presence-update of a socket that is not approved
    is dropped).  No other step changes the flag, and it is frozen
    for as long as the user-id stays recorded.  But a join-request without
    a user-id writes the empty user-id back and so opens the guard of the
    decision again: the next presence-update decides a second time.  In
    [demotionTrace] the host of a room with a pinned hostUserId is host
    after identifying, is still host, with an empty user-id, after such a
    join-request, and is no longer host after its next presence-update:
    the flag was set twice and went from true to false. *)
Theorem C4_host_demoted_after_join_request :
  (forall rs sr room w c f msg,
      mapGet w (clients room) = Some c ->
      json f = Some msg ->
      identifies msg = true ->
      approved c = true ->
      userId c = EmptyString ->
      exists c',
        mapGet w (clients (fst (onMessage rs sr room w f))) = Some c'
        /\ isHost c' = hostPolicy sr room msg
        /\ userId c' = orEmpty (m_userId msg)
        /\ userId c' <> EmptyString)
  /\ (forall rs sr room w c f msg,
        mapGet w (clients room) = Some c ->
        json f = Some msg ->
        type msg = "presence-update" ->
        approved c = false ->
        onMessage rs sr room w f = (room, []))
  /\ (forall sr room w c rs e c',
        mapGet w (clients room) = Some c ->
        e <> Connection w ->
        mapGet w (clients (fst (step sr room (rs, e)))) = Some c' ->
        isHost c' <> isHost c ->
        exists f msg,
          e = Message w f /\ json f = Some msg /\ identifies msg = true
          /\ userId c = EmptyString
          /\ userId c' = orEmpty (m_userId msg) /\ userId c' <> EmptyString
          /\ isHost c' = hostPolicy sr room msg)
  /\ (forall sr room w c es c',
        mapGet w (clients room) = Some c ->
        userId c <> EmptyString ->
        forallb (fun e => keepsIdentity w (snd e)) es = true ->
        mapGet w (clients (run sr room es)) = Some c' ->
        isHost c' = isHost c /\ userId c' <> EmptyString)
  /\ (forall rs sr room w c f msg,
        mapGet w (clients room) = Some c ->
        json f = Some msg ->
        type msg = "join-request" ->
        truthy (m_userId msg) = false ->
        exists c',
          mapGet w (clients (fst (onMessage rs sr room w f))) = Some c'
          /\ userId c' = EmptyString
          /\ isHost c' = isHost c)
  /\ hostUserId pinnedRoom = Some "host-1"
  /\ mapGet 1 (clients (run (Some pinnedRoom) emptyRoom (firstn 2 demotionTrace)))
     = Some (mkClient "host-1" EmptyString true true "read-write")
  /\ mapGet 1 (clients (run (Some pinnedRoom) emptyRoom (firstn 3 demotionTrace)))
     = Some (mkClient EmptyString EmptyString true true "read-write")
  /\ mapGet 1 (clients (run (Some pinnedRoom) emptyRoom demotionTrace))
     = Some (mkClient "someone-else" EmptyString false true "read-write").
Proof.
  split; [exact identifying_presence_decides|].
  split; [exact unapproved_presence_dropped|].
  split.
  { intros sr room w c rs e c' Hc Hne H1 Hdiff.
    destruct (step_record sr room rs e w c c' Hne Hc H1)
      as [[Hh _]|[(f & msg & _ & _ & _ & Hh & _)|(f & msg & -> & Hj & Ht & ->)]];
      [contradiction|contradiction|].
    rewrite trackPresence_isHost in Hdiff.
    destruct (truthy (m_userId msg)) eqn:Et; [|simpl in Hdiff; contradiction].
    destruct (String.eqb (userId c) EmptyString) eqn:Eu;
      [|simpl in Hdiff; contradiction].
    apply String.eqb_eq in Eu.
    exists f, msg.
    split; [reflexivity|]. split; [exact Hj|].
    split; [unfold identifies; rewrite Ht, Et; reflexivity|].
    split; [exact Eu|].
    rewrite trackPresence_isHost, trackPresence_userId, Et, Eu. simpl.
    split; [reflexivity|]. split; [apply truthy_orEmpty; exact Et|reflexivity]. }
  split.
  { intros sr room w c es c' Hc Hid Hall Hend. eapply run_frozen; eauto. }
  split; [exact anonymous_join_request_forgets|].
  repeat split.
Qed.

(** The host of [demoRoom] renames itself, a guest tries to kick it, and it
    sends a join-request that carries a user-id: its flag stays. *)
Lemma C4_host_demoted_after_join_request_witness :
  exists c',
    mapGet 1 (clients (run None demoRoom frozenTrace)) = Some c'
    /\ isHost c' = isHost hostC /\ userId c' <> EmptyString.
Proof.
  eexists. split; [reflexivity|].
  refine (proj1 (proj2 (proj2 (proj2 C4_host_demoted_after_join_request)))
            None demoRoom 1 hostC frozenTrace _ eq_refl _ eq_refl eq_refl).
  discriminate.
Defined.

End ControlProofs.

(** ** Properties of the CRDT channel *)

Module YjsProofs.
Import Yjs Toy YjsSpec YjsExamples.

(** *** The small library instance satisfies the laws *)

Lemma inb_In i l : inb i l = true <-> In i l.
Proof.
  unfold inb. rewrite existsb_exists. split.
  - intros [x [Hin Heq]]. apply Z.eqb_eq in Heq. subst. exact Hin.
  - intros Hin. exists i. split; [exact Hin|apply Z.eqb_refl].
Qed.

#[export] Instance toy_awareness_laws : AwarenessLaws Toy.lib.
Proof.
  split. intros a ids i. simpl. unfold t_removeAwarenessStates. simpl.
  rewrite filter_In, negb_true_iff. split.
  - intros [Hin Hb]. split; [exact Hin|]. intros Hc.
    apply inb_In in Hc. congruence.
  - intros [Hin Hn]. split; [exact Hin|].
    destruct (inb i ids) eqn:E; [|reflexivity].
    apply inb_In in E. contradiction.
Qed.

#[export] Instance toy_replica_laws : ReplicaLaws Toy.lib.
Proof.
  split. intros d. simpl. exists d. split; [|reflexivity].
  unfold t_applyUpdate, t_encodeStateAsUpdate. f_equal.
  rewrite list_to_set_elements_L. apply (left_id_L ∅ (∪)).
Qed.

(** *** Fan-out *)

Section Fanout.
Context {Y : YLib}.

Lemma fanout_recipients rs cs ex p w q :
  In (Send w q) (fanout rs cs ex p)
  <-> q = p /\ In w cs /\ Some w <> ex /\ rs w = OPEN.
Proof.
  unfold fanout. rewrite in_map_iff. split.
  - intros [c [Heq Hin]]. inversion Heq; subst.
    apply filter_In in Hin. destruct Hin as [Hin Hb].
    apply andb_true_iff in Hb. destruct Hb as [Hx Ho].
    apply negb_true_iff, bool_decide_eq_false in Hx.
    repeat split; auto. destruct (rs w); simpl in Ho; congruence.
  - intros (-> & Hin & Hx & Ho). exists w. split; [reflexivity|].
    apply filter_In. split; [exact Hin|].
    rewrite Ho, bool_decide_eq_false_2 by exact Hx. reflexivity.
Qed.

Lemma onAwarenessUpdate_keeps rs st ch o :
  awareness (fst (onAwarenessUpdate rs st ch o)) = awareness st
  /\ clients (fst (onAwarenessUpdate rs st ch o)) = clients st
  /\ destroyed (fst (onAwarenessUpdate rs st ch o)) = destroyed st
  /\ doc (fst (onAwarenessUpdate rs st ch o)) = doc st.
Proof.
  unfold onAwarenessUpdate. destruct (destroyed st) eqn:E; simpl; [auto|].
  destruct o; simpl; auto.
Qed.

(** A type-2 frame is relayed to the other OPEN sockets of the document;
    nothing about the sender is consulted. *)
Lemma handleMessage_fileOp rs ws (st : RoomState) data body :
  readVarUint data = Some (messageFileOp, body) ->
  handleMessage rs ws st data
  = (st, fanout rs (clients st) (Some ws) (Raw data), false).
Proof.
  intros H. unfold handleMessage. rewrite H. reflexivity.
Qed.

(** Whatever frame socket [ws] sends on the CRDT channel, the only things
    sent back to [ws] are the sync reply and awareness updates. *)
Lemma handleMessage_no_self_echo rs ws (st : RoomState) data p :
  In (Send ws p) (snd (fst (handleMessage rs ws st data))) ->
  (exists r, p = SyncReply r) \/ (exists u, p = AwarenessMsg u).
Proof.
  unfold handleMessage.
  destruct (readVarUint data) as [[msgType body]|]; [|intros []].
  destruct (msgType =? messageSync)%Z.
  { cbv zeta. cbn [fst snd]. intros Hin.
    apply in_app_or in Hin. destruct Hin as [Hin|Hin].
    - destruct (snd (readSyncMessage body (doc st))) as [u|]; [|destruct Hin].
      unfold onDocUpdate in Hin. simpl in Hin.
      destruct (destroyed st); [destruct Hin|].
      apply fanout_recipients in Hin. destruct Hin as (_ & _ & Hne & _).
      contradiction.
    - destruct (snd (fst (readSyncMessage body (doc st)))); [destruct Hin|].
      destruct Hin as [Hin|[]]. inversion Hin. left. eauto. }
  destruct (msgType =? messageAwareness)%Z.
  { cbv zeta.
    destruct (snd (applyAwarenessUpdate (awareness st) body)) as [ch|];
      cbn [fst snd]; [|intros []].
    unfold onAwarenessUpdate. simpl.
    destruct (destroyed st); [intros []|]. cbn [fst snd]. intros Hin.
    apply fanout_recipients in Hin. destruct Hin as (-> & _). right. eauto. }
  destruct (msgType =? messageFileOp)%Z; cbn [fst snd].
  - intros Hin. apply fanout_recipients in Hin. destruct Hin as (_ & _ & Hne & _).
    contradiction.
  - intros [].
Qed.

End Fanout.

(** C3: the code departs from the claim.  Socket 2 of the control room is
    read-only and its 'file-op' message is dropped there, yet a type-2 frame
    sent on a CRDT socket of the same room reaches the other socket of the
    document, whatever the library: the CRDT handler has no notion of
    permission. *)
Theorem C3_file_op_relayed_on_crdt_socket (Y : YLib) :
  Control.permission ControlExamples.readOnlyC = "read-only"
  /\ Control.onMessage ControlExamples.allOpen None ControlExamples.readOnlyRoom 2
       (ControlExamples.frameOf ControlExamples.fileOpMsg)
     = (ControlExamples.readOnlyRoom, [])
  /\ readVarUint fileOpFrame = Some (messageFileOp, [5; 100; 101; 108; 101; 116]%Z)
  /\ handleMessage allOpen 12 twoClients fileOpFrame
     = (twoClients, [Send 11 (Raw fileOpFrame)], false).
Proof.
  repeat split.
Qed.

(** *** Awareness ids are withdrawn on disconnect *)

Section AwarenessCleanup.
Context {Y : YLib}.

Lemma setAdd_In i x (s : list Z) :
  In x (setAdd Z.eqb i s) <-> In x s \/ x = i.
Proof.
  unfold setAdd. destruct (existsb (Z.eqb i) s) eqn:E.
  - split; [auto|]. intros [H| ->]; [exact H|].
    apply existsb_exists in E. destruct E as [y [Hy Heq]].
    apply Z.eqb_eq in Heq. subst. exact Hy.
  - rewrite in_app_iff. simpl. intuition.
Qed.

Lemma fold_setAdd_In (l : list Z) : forall init x,
  In x (fold_left (fun s i => setAdd Z.eqb i s) l init) <-> In x init \/ In x l.
Proof.
  induction l as [|i l IH]; intros init x; simpl.
  - tauto.
  - rewrite IH, setAdd_In. intuition.
Qed.

Lemma recordedIds_onAwarenessUpdate rs (st : RoomState) ch o S x :
  destroyed st = false ->
  In x (recordedIds (fst (onAwarenessUpdate rs st ch o)) S)
  <-> In x (recordedIds st S)
      \/ (o = Some S /\ In x (added ch ++ updated ch)).
Proof.
  intros Hd. unfold onAwarenessUpdate. rewrite Hd.
  destruct o as [o|]; simpl.
  - unfold recordedIds. simpl.
    destruct (decide (o = S)) as [->|Hne].
    + rewrite lookup_insert_eq, fold_setAdd_In.
      destruct (clientAwarenessIds st !! S); simpl; intuition.
    + rewrite lookup_insert_ne by exact Hne.
      split; [auto|]. intros [H|[H _]]; [exact H|]. congruence.
  - split; [auto|]. intros [H|[H _]]; [exact H|discriminate].
Qed.

Lemma closeSocket_destroyed rs (st : RoomState) ws :
  destroyed (fst (closeSocket rs st ws)) = destroyed st.
Proof.
  unfold closeSocket. simpl.
  destruct (clientAwarenessIds st !! ws) as [[|i ids]|]; simpl; try reflexivity.
  destruct (snd (removeAwarenessStates (awareness st) (i :: ids))); simpl;
    [reflexivity|].
  match goal with
  | |- destroyed (fst (onAwarenessUpdate ?r ?s ?c ?o)) = _ =>
      destruct (onAwarenessUpdate_keeps r s c o) as (_ & _ & H & _); rewrite H
  end.
  reflexivity.
Qed.

Lemma closeSocket_other rs (st : RoomState) ws S :
  ws <> S ->
  recordedIds (fst (closeSocket rs st ws)) S = recordedIds st S.
Proof.
  intros Hne. unfold closeSocket, recordedIds. simpl.
  rewrite lookup_delete_ne by exact Hne.
  destruct (clientAwarenessIds st !! ws) as [[|i ids]|]; simpl; try reflexivity.
  destruct (snd (removeAwarenessStates (awareness st) (i :: ids))); simpl;
    [reflexivity|].
  unfold onAwarenessUpdate. simpl.
  destruct (destroyed st); reflexivity.
Qed.

(** One step keeps the document live and the index of [S] growing by what
    [S] announces. *)
Lemma roomStep_tracks (st : RoomState) e S :
  destroyed st = false ->
  notDetach S (snd e) = true ->
  destroyed (roomStep st e) = false
  /\ forall x,
      In x (recordedIds st S) \/ In x (announcedBy S st (snd e)) ->
      In x (recordedIds (roomStep st e) S).
Proof.
  intros Hd Hn. destruct e as [rs [ws|ws data|ws]]; unfold roomStep;
    cbn [fst snd announcedBy notDetach] in *.
  - split; [exact Hd|]. intros x [H|[]]. exact H.
  - unfold handleMessage.
    destruct (readVarUint data) as [[msgType body]|];
      [|split; [exact Hd|]; intros x [H|H]; [exact H|];
        destruct (Nat.eqb ws S); destruct H].
    destruct (msgType =? messageSync)%Z eqn:E0.
    { apply Z.eqb_eq in E0. subst msgType. simpl.
      split; [exact Hd|]. intros x [H|H]; [exact H|].
      destruct (Nat.eqb ws S); destruct H. }
    destruct (msgType =? messageAwareness)%Z eqn:E1.
    { cbv zeta.
      destruct (snd (applyAwarenessUpdate (awareness st) body)) as [ch|];
        cbn [fst snd].
      - destruct (onAwarenessUpdate_keeps rs
                    (setAwareness st (fst (applyAwarenessUpdate (awareness st) body)))
                    ch (Some ws)) as (_ & _ & Hk & _).
        split; [rewrite Hk; exact Hd|]. intros x Hx.
        apply recordedIds_onAwarenessUpdate; [exact Hd|].
        destruct Hx as [H|H]; [left; exact H|].
        destruct (Nat.eqb ws S) eqn:E; [|destruct H].
        apply Nat.eqb_eq in E. subst ws. right. auto.
      - split; [exact Hd|]. intros x [H|H]; [exact H|].
        destruct (Nat.eqb ws S); destruct H. }
    destruct (msgType =? messageFileOp)%Z; cbn [fst snd];
      (split; [exact Hd|]; intros x [H|H]; [exact H|];
       destruct (Nat.eqb ws S); destruct H).
  - split; [rewrite closeSocket_destroyed; exact Hd|].
    intros x [H|[]]. rewrite closeSocket_other; [exact H|].
    intros ->. rewrite Nat.eqb_refl in Hn. discriminate.
Qed.

Lemma roomRun_tracks S es : forall st : RoomState,
  destroyed st = false ->
  forallb (fun e => notDetach S (snd e)) es = true ->
  forall x,
    In x (recordedIds st S) \/ In x (announcedIn S st es) ->
    In x (recordedIds (roomRun st es) S).
Proof.
  induction es as [|e es IH]; intros st Hd Hall x Hx; simpl in *.
  - destruct Hx as [H|[]]. exact H.
  - apply andb_true_iff in Hall. destruct Hall as [He Hall].
    destruct (roomStep_tracks st e S Hd He) as [Hd' Htr].
    apply IH; [exact Hd'|exact Hall|].
    destruct Hx as [H|H]; [left; apply Htr; left; exact H|].
    apply in_app_or in H. destruct H as [H|H]; [left; apply Htr; right; exact H|].
    right. exact H.
Qed.

Context {L : AwarenessLaws Y}.

Lemma closeSocket_removes rs (st : RoomState) S x :
  In x (recordedIds st S) ->
  ~ In x (getStates (awareness (fst (closeSocket rs st S)))).
Proof.
  unfold closeSocket, recordedIds. simpl.
  destruct (clientAwarenessIds st !! S) as [[|i ids]|]; simpl; try tauto.
  intros Hin.
  assert (Hgone : ~ In x (getStates (fst (removeAwarenessStates (awareness st) (i :: ids))))).
  { rewrite removeAwarenessStates_states. intros [_ Hn]. apply Hn. exact Hin. }
  destruct (snd (removeAwarenessStates (awareness st) (i :: ids))); simpl;
    [exact Hgone|].
  match goal with
  | |- ~ In x (getStates (awareness (fst (onAwarenessUpdate ?r ?s ?c ?o)))) =>
      destruct (onAwarenessUpdate_keeps r s c o) as (H & _); rewrite H
  end.
  exact Hgone.
Qed.

Lemma closeSocket_index rs (st : RoomState) S :
  clientAwarenessIds (fst (closeSocket rs st S)) !! S = None.
Proof.
  unfold closeSocket. simpl. apply lookup_delete_eq.
Qed.

End AwarenessCleanup.

(** *** One creation per document name *)

Section SingleCreation.
Context {Y : YLib}.



Lemma is_Some_insert {A} (m : gmap nat A) i x s :
  is_Some (m !! s) -> is_Some (<[i:=x]> m !! s).
Proof.
  intros H. destruct (decide (i = s)) as [->|Hne].
  - rewrite lookup_insert_eq. eauto.
  - rewrite lookup_insert_ne by exact Hne. exact H.
Qed.




Lemma attachWs_fst w ws name sid st :
  heap w !! sid = Some st ->
  fst (attachWs w ws name sid)
  = setAttached
      (setConn (setHeap w (<[sid := fst (attach st ws)]> (heap w)))
         (<[ws := (name, sid)]> (conn w)))
      (attached w ++ [(ws, name, sid)]).
Proof.
  intros H. unfold attachWs. rewrite H. reflexivity.
Qed.




Lemma resume_spec sid pid l : forall w,
  is_Some (heap w !! sid) ->
  db (fst (resume w sid pid l)) = db w
  /\ io (fst (resume w sid pid l)) = io w
  /\ roomStates (fst (resume w sid pid l)) = roomStates w
  /\ pendingRooms (fst (resume w sid pid l)) = pendingRooms w
  /\ creating (fst (resume w sid pid l)) = creating w
  /\ constructed (fst (resume w sid pid l)) = constructed w
  /\ next (fst (resume w sid pid l)) = next w
  /\ waiting (fst (resume w sid pid l)) = waiting w
  /\ (forall s, is_Some (heap w !! s) -> is_Some (heap (fst (resume w sid pid l)) !! s))
  /\ attached (fst (resume w sid pid l)) = (attached w ++ resumed sid pid l)%list.
Proof.
  induction l as [|[[s name] p] l IH]; intros w Hh; simpl.
  - unfold resumed. simpl. rewrite app_nil_r. repeat split; auto.
  - unfold resumed. simpl. destruct (Nat.eqb p pid); simpl.
    + destruct Hh as [st Hst].
      rewrite (attachWs_fst w s name sid st Hst).
      match goal with
      | |- context [resume ?w1 sid pid l] =>
          destruct (IH w1) as (H1 & H2 & H3 & H4 & H5 & H6 & H7 & H8 & H9 & H10);
          [simpl; apply is_Some_insert; eauto|]
      end.
      rewrite H1, H2, H3, H4, H5, H6, H7, H8, H10. simpl.
      repeat split; auto.
      * intros s0 Hs. apply H9. simpl. apply is_Some_insert. exact Hs.
      * rewrite <- app_assoc. reflexivity.
    + apply (IH w Hh).
Qed.












End SingleCreation.


(** *** Idle destruction *)

Section Cleanup.
Context {Y : YLib}.

(** An arrival finds the room state, disarms its idle timer and reuses it. *)
Lemma getOrCreateRoom_cancels w name sid st t :
  roomStates w !! name = Some sid ->
  heap w !! sid = Some st ->
  cleanupTimer st = Some t ->
  snd (getOrCreateRoom w name) = inl sid
  /\ timers (fst (getOrCreateRoom w name)) !! t = None
  /\ roomStates (fst (getOrCreateRoom w name)) !! name = Some sid
  /\ constructed (fst (getOrCreateRoom w name)) = constructed w.
Proof.
  intros Hr Hh Ht. unfold getOrCreateRoom. rewrite Hr, Hh, Ht. simpl.
  rewrite lookup_delete_eq. auto.
Qed.

(** The idle timer starts a cleanup only when it is due and the client set
    is empty at that moment. *)
Lemma onTimer_guard w tid :
  io (fst (onTimer w tid)) <> io w ->
  exists t, timers w !! tid = Some t /\ (deadline t <= now w)%N
            /\ match action t with
               | CleanupTimer _ sid =>
                   exists st, heap w !! sid = Some st /\ clients st = []
               | PersistTimer _ _ => True
               end.
Proof.
  unfold onTimer. destruct (timers w !! tid) as [t|]; [|intros H; contradiction].
  destruct (N.leb (deadline t) (now w)) eqn:E; [|intros H; contradiction].
  apply N.leb_le in E. intros H. exists t. split; [reflexivity|]. split; [exact E|].
  destruct (action t) as [roomId sid|roomId sid]; [|exact I].
  simpl in H. destruct (heap w !! sid) as [st|]; [|contradiction].
  exists st. split; [reflexivity|].
  destruct (clients st); [reflexivity|contradiction].
Qed.

(** The rest of [cleanupRoom], run when the store write completes, does not
    look at the client set again. *)
Lemma finishCleanup_unconditional rs w name sid st :
  heap w !! sid = Some st ->
  roomStates (fst (finishCleanup rs w name sid)) = delete name (roomStates w)
  /\ pendingRooms (fst (finishCleanup rs w name sid)) = pendingRooms w
  /\ constructed (fst (finishCleanup rs w name sid)) = constructed w
  /\ conn (fst (finishCleanup rs w name sid)) = conn w
  /\ exists st', heap (fst (finishCleanup rs w name sid)) !! sid = Some st'
                 /\ destroyed st' = true /\ clients st' = clients st.
Proof.
  intros Hh. unfold finishCleanup. rewrite Hh. simpl.
  repeat (split; [reflexivity|]).
  rewrite lookup_insert_eq. eexists. split; [reflexivity|]. simpl.
  split; [reflexivity|].
  destruct (snd (removeAwarenessStates (awareness st) (getStates (awareness st))));
    [reflexivity|].
  match goal with
  | |- clients (fst (onAwarenessUpdate ?r ?s ?c ?o)) = _ =>
      destruct (YjsProofs.onAwarenessUpdate_keeps r s c o) as (_ & H & _); rewrite H
  end.
  reflexivity.
Qed.

Lemma run_app (w : World) a b : run w (a ++ b) = run (run w a) b.
Proof.
  revert w. induction a as [|e a IH]; intros w; simpl; [reflexivity|apply IH].
Qed.

(** The store write of a cleanup completes: the room is destroyed and
    dropped, with whatever clients it has by then. *)
Lemma onPutDone_cleanup rs w op key v name sid st :
  io w !! op = Some (PutDoc key v (Some (name, sid))) ->
  heap w !! sid = Some st ->
  roomStates (fst (onPutDone rs w op)) = delete name (roomStates w)
  /\ pendingRooms (fst (onPutDone rs w op)) = pendingRooms w
  /\ constructed (fst (onPutDone rs w op)) = constructed w
  /\ conn (fst (onPutDone rs w op)) = conn w
  /\ exists st', heap (fst (onPutDone rs w op)) !! sid = Some st'
                 /\ destroyed st' = true /\ clients st' = clients st.
Proof.
  intros Hio Hh. unfold onPutDone. rewrite Hio.
  exact (finishCleanup_unconditional rs
           (setIo (setDb w (<[key:=v]> (db w))) (delete op (io w)))
           name sid st Hh).
Qed.

(** A connection to a name without room state or creation in flight builds
    a replica. *)
Lemma onConnection_constructs w ws name :
  roomStates w !! name = None ->
  pendingRooms w !! name = None ->
  constructed (fst (onConnection w ws name)) = (constructed w ++ [name])%list.
Proof.
  intros Hr Hp. unfold onConnection, getOrCreateRoom. rewrite Hr, Hp. reflexivity.
Qed.

(** C8: the code departs from the claim.  Socket 1 leaves the document at
    time 0; the idle timer fires at 30 s with no client attached and starts
    the final store write; socket 2 arrives while the write is in flight,
    finds the room state in the map and is attached to it; when the write
    completes the replica is destroyed and the entry dropped although the
    client set is not empty.  The next connection builds a second replica
    for the same name while socket 2 is still attached to the first. *)
Theorem C8_destroyed_with_client_attached :
  (exists st, heap (run initial (firstn 5 raceRun)) !! 1 = Some st
              /\ clients st = [] /\ destroyed st = false)
  /\ io (run initial (firstn 5 raceRun))
     = {[ 3 := PutDoc "doc:room:notes" (encodeStateAsUpdate newDoc)
                 (Some ("room:notes", 1)) ]}
  /\ (exists st, heap (run initial (firstn 6 raceRun)) !! 1 = Some st
                 /\ clients st = [2] /\ destroyed st = false)
  /\ roomStates (run initial raceRun) !! "room:notes" = None
  /\ (exists st, heap (run initial raceRun) !! 1 = Some st
                 /\ clients st = [2] /\ destroyed st = true)
  /\ conn (run initial raceRun) !! 2 = Some ("room:notes", 1)
  /\ constructed (run initial (raceRun ++ [(allOpen, Upgrade 3 "room:notes")]))
     = ["room:notes"; "room:notes"].
Proof.
  split; [eexists; split; [vm_compute; reflexivity|split; reflexivity]|].
  split; [vm_compute; reflexivity|].
  split; [eexists; split; [vm_compute; reflexivity|split; reflexivity]|].
  assert (Hio : io (run initial (firstn 6 raceRun)) !! 3
                = Some (PutDoc "doc:room:notes" (encodeStateAsUpdate newDoc)
                          (Some ("room:notes", 1))))
    by (vm_compute; reflexivity).
  assert (Hh : heap (run initial (firstn 6 raceRun)) !! 1
               = Some (mkRoomState newDoc (newAwareness newDoc) [2] ∅ None None false))
    by (vm_compute; reflexivity).
  assert (Hp6 : pendingRooms (run initial (firstn 6 raceRun)) !! "room:notes" = None)
    by (vm_compute; reflexivity).
  assert (Hc6 : constructed (run initial (firstn 6 raceRun)) = ["room:notes"])
    by (vm_compute; reflexivity).
  assert (Hn6 : conn (run initial (firstn 6 raceRun)) !! 2 = Some ("room:notes", 1))
    by (vm_compute; reflexivity).
  assert (Hend : run initial raceRun
                 = fst (onPutDone allOpen (run initial (firstn 6 raceRun)) 3)).
  { change raceRun with (firstn 6 raceRun ++ [(allOpen, PutDone 3)])%list.
    rewrite run_app. reflexivity. }
  revert Hio Hh Hp6 Hc6 Hn6 Hend.
  generalize (run initial (firstn 6 raceRun)). intros w6 Hio Hh Hp6 Hc6 Hn6 Hend.
  destruct (onPutDone_cleanup allOpen w6 3 _ _ _ _ _ Hio Hh)
    as (Hrs & Hpr & Hco & Hcn & st' & Hst' & Hd & Hc).
  rewrite <- Hend in Hrs, Hpr, Hco, Hcn, Hst'.
  assert (Hnone : roomStates (run initial raceRun) !! "room:notes" = None).
  { rewrite Hrs. apply lookup_delete_eq. }
  split; [exact Hnone|].
  split; [exists st'; auto|].
  split; [rewrite Hcn; exact Hn6|].
  rewrite run_app.
  generalize dependent (run initial raceRun). intros wE _ Hrs Hpr Hco Hcn Hst' Hnone.
  change (run wE [(allOpen, Upgrade 3 "room:notes")])
    with (fst (onConnection wE 3 "room:notes")).
  rewrite onConnection_constructs; [|exact Hnone|rewrite Hpr; exact Hp6].
  rewrite Hco, Hc6. reflexivity.
Qed.

End Cleanup.

(** *** Sockets left on a destroyed room state *)

Section AfterDestroy.
Context {Y : YLib}.
Import YjsAfterDestroy.

(** The store write of a cleanup completes: the room state is destroyed
    with its client set and its awareness index as they are by then. *)
Lemma onPutDone_destroys rs w op key v name sid st :
  io w !! op = Some (PutDoc key v (Some (name, sid))) ->
  heap w !! sid = Some st ->
  conn (fst (onPutDone rs w op)) = conn w
  /\ exists st', heap (fst (onPutDone rs w op)) !! sid = Some st'
                 /\ destroyed st' = true
                 /\ clients st' = clients st
                 /\ clientAwarenessIds st' = clientAwarenessIds st.
Proof.
  intros Hio Hh. unfold onPutDone. rewrite Hio. unfold finishCleanup.
  cbn [heap setIo setDb]. rewrite Hh. cbn [fst conn setRoomStates setHeap setIo setDb].
  split; [reflexivity|].
  cbn [heap setRoomStates setHeap]. rewrite lookup_insert_eq.
  eexists. split; [reflexivity|]. cbn [destroyed clients clientAwarenessIds setDestroyed].
  split; [reflexivity|].
  destruct (snd (removeAwarenessStates (awareness st) (getStates (awareness st))));
    [split; reflexivity|].
  unfold onAwarenessUpdate. cbn [destroyed setAwareness].
  destruct (destroyed st); split; reflexivity.
Qed.

(** After [raceRun] socket 2 is connected to a destroyed room state that
    records no awareness id. *)
Lemma raceRun_state :
  conn (run initial raceRun) !! 2 = Some ("room:notes", 1)
  /\ exists st, heap (run initial raceRun) !! 1 = Some st
                /\ destroyed st = true
                /\ clients st = [2]
                /\ clientAwarenessIds st = ∅.
Proof.
  assert (Hio : io (run initial (firstn 6 raceRun)) !! 3
                = Some (PutDoc "doc:room:notes" (encodeStateAsUpdate newDoc)
                          (Some ("room:notes", 1))))
    by (vm_compute; reflexivity).
  assert (Hh : heap (run initial (firstn 6 raceRun)) !! 1
               = Some (mkRoomState newDoc (newAwareness newDoc) [2] ∅ None None false))
    by (vm_compute; reflexivity).
  assert (Hn : conn (run initial (firstn 6 raceRun)) !! 2 = Some ("room:notes", 1))
    by (vm_compute; reflexivity).
  assert (Hend : run initial raceRun
                 = fst (onPutDone allOpen (run initial (firstn 6 raceRun)) 3)).
  { change raceRun with (firstn 6 raceRun ++ [(allOpen, PutDone 3)])%list.
    rewrite run_app. reflexivity. }
  rewrite Hend.
  destruct (onPutDone_destroys allOpen _ 3 _ _ _ _ _ Hio Hh) as (Hc & st' & H1 & H2 & H3 & H4).
  split; [rewrite Hc; exact Hn|].
  exists st'. auto.
Qed.

(** After [mutedRun] sockets 2 and 4 are both connected to a destroyed
    room state. *)
Lemma mutedRun_state :
  conn (run initial mutedRun) !! 2 = Some ("room:notes", 1)
  /\ conn (run initial mutedRun) !! 4 = Some ("room:notes", 1)
  /\ exists st, heap (run initial mutedRun) !! 1 = Some st
                /\ destroyed st = true
                /\ clients st = [2; 4].
Proof.
  assert (Hio : io (run initial (firstn 7 mutedRun)) !! 3
                = Some (PutDoc "doc:room:notes" (encodeStateAsUpdate newDoc)
                          (Some ("room:notes", 1))))
    by (vm_compute; reflexivity).
  assert (Hh : heap (run initial (firstn 7 mutedRun)) !! 1
               = Some (mkRoomState newDoc (newAwareness newDoc) [2; 4] ∅ None None false))
    by (vm_compute; reflexivity).
  assert (Hn2 : conn (run initial (firstn 7 mutedRun)) !! 2 = Some ("room:notes", 1))
    by (vm_compute; reflexivity).
  assert (Hn4 : conn (run initial (firstn 7 mutedRun)) !! 4 = Some ("room:notes", 1))
    by (vm_compute; reflexivity).
  assert (Hend : run initial mutedRun
                 = fst (onPutDone allOpen (run initial (firstn 7 mutedRun)) 3)).
  { change mutedRun with (firstn 7 mutedRun ++ [(allOpen, PutDone 3)])%list.
    rewrite run_app. reflexivity. }
  rewrite Hend.
  destruct (onPutDone_destroys allOpen _ 3 _ _ _ _ _ Hio Hh) as (Hc & st' & H1 & H2 & H3 & _).
  split; [rewrite Hc; exact Hn2|]. split; [rewrite Hc; exact Hn4|].
  exists st'. auto.
Qed.

(** What the message handler sends is what [handleMessage] sends. *)
Lemma onMessage_sends rs w ws data name sid st :
  conn w !! ws = Some (name, sid) ->
  heap w !! sid = Some st ->
  snd (onMessage rs w ws data) = snd (fst (handleMessage rs ws st data)).
Proof.
  intros Hc Hh. unfold onMessage. rewrite Hc, Hh.
  destruct (handleMessage rs ws st data) as [[st1 eff] [|]]; reflexivity.
Qed.

(** The room state the message handler leaves is the one [handleMessage]
    leaves, but for the persist timer. *)
Lemma onMessage_state rs w ws data name sid st :
  conn w !! ws = Some (name, sid) ->
  heap w !! sid = Some st ->
  conn (fst (onMessage rs w ws data)) = conn w
  /\ exists st', heap (fst (onMessage rs w ws data)) !! sid = Some st'
       /\ doc st' = doc (fst (fst (handleMessage rs ws st data)))
       /\ awareness st' = awareness (fst (fst (handleMessage rs ws st data)))
       /\ clientAwarenessIds st'
          = clientAwarenessIds (fst (fst (handleMessage rs ws st data))).
Proof.
  intros Hc Hh. unfold onMessage. rewrite Hc, Hh.
  destruct (handleMessage rs ws st data) as [[st1 eff] [|]]; cbn [fst snd].
  - split; [destruct (persistTimer st1); reflexivity|].
    cbn [heap setHeap]. rewrite lookup_insert_eq. eexists.
    split; [reflexivity|]. repeat split.
  - split; [reflexivity|].
    cbn [heap setHeap]. rewrite lookup_insert_eq. eexists.
    split; [reflexivity|]. repeat split.
Qed.

(** A destroyed room state sends the sync reply to the sender and relays
    type-2 frames to the others, and nothing else. *)
Lemma handleMessage_destroyed_sends rs ws (st : RoomState) data w p :
  destroyed st = true ->
  In (Send w p) (snd (fst (handleMessage rs ws st data))) ->
  (w = ws /\ exists r, p = SyncReply r)
  \/ (w <> ws /\ p = Raw data).
Proof.
  intros Hd. unfold handleMessage.
  destruct (readVarUint data) as [[msgType body]|]; [|intros []].
  destruct (msgType =? messageSync)%Z.
  { cbv zeta. cbn [fst snd]. intros Hin.
    apply in_app_or in Hin. destruct Hin as [Hin|Hin].
    - destruct (snd (readSyncMessage body (doc st))); [|destruct Hin].
      unfold onDocUpdate in Hin. cbn [destroyed setDoc] in Hin.
      rewrite Hd in Hin. destruct Hin.
    - destruct (snd (fst (readSyncMessage body (doc st)))); [destruct Hin|].
      destruct Hin as [Hin|[]]. inversion Hin. left. eauto. }
  destruct (msgType =? messageAwareness)%Z.
  { cbv zeta.
    destruct (snd (applyAwarenessUpdate (awareness st) body)) as [ch|];
      cbn [fst snd]; [|intros []].
    unfold onAwarenessUpdate. cbn [destroyed setAwareness]. rewrite Hd.
    intros []. }
  destruct (msgType =? messageFileOp)%Z; cbn [fst snd]; [|intros []].
  intros Hin. apply fanout_recipients in Hin.
  destruct Hin as (-> & _ & Hne & _). right. split; [congruence|reflexivity].
Qed.

(** A sync frame is applied to the replica, destroyed or not. *)
Lemma handleMessage_sync_doc rs ws (st : RoomState) body :
  doc (fst (fst (handleMessage rs ws st (messageSync :: body))))
  = fst (fst (readSyncMessage body (doc st))).
Proof. reflexivity. Qed.

(** C6: the code departs from the claim.  On a room state that has not
    been destroyed the three fan-outs reach exactly whom the claim says: an
    update the replica emits with origin socket S goes to every connected
    OPEN socket except S, a control-channel broadcast on behalf of S to
    every other approved OPEN socket of the room and never to S, an
    awareness update to all connected OPEN sockets, its origin included.
    But destroying the replica drops both observers while sockets can still
    be connected to the room state: after [mutedRun] sockets 2 and 4 are
    connected to the same destroyed state, every sync frame of socket 2 is
    still applied to the replica, and whatever socket 2 sends, no update
    and no awareness message is sent to anyone: socket 4 receives nothing
    but the verbatim relay of type-2 frames. *)
Theorem C6_update_reaches_nobody_after_destroy :
  (forall rs (st : RoomState) update origin w q,
      destroyed st = false ->
      In (Send w q) (onDocUpdate rs st update origin)
      <-> q = SyncUpdate (writeUpdate update)
          /\ In w (clients st) /\ Some w <> origin /\ rs w = OPEN)
  /\ (forall rs room p S w q,
        In (Control.Send w q) (Control.broadcast rs room p (Some S))
        <-> q = p /\ w <> S /\ rs w = OPEN
            /\ exists c, In (w, c) (Control.clients room)
                         /\ Control.approved c = true)
  /\ (forall rs (st : RoomState) ch origin w q,
        destroyed st = false ->
        In (Send w q) (snd (onAwarenessUpdate rs st ch origin))
        <-> q = AwarenessMsg
                  (encodeAwarenessUpdate (awareness st)
                     (added ch ++ updated ch ++ removed ch))
            /\ In w (clients st) /\ rs w = OPEN)
  /\ (forall rs (st : RoomState) update ch origin,
        destroyed st = true ->
        onDocUpdate rs st update origin = []
        /\ onAwarenessUpdate rs st ch origin = (st, []))
  /\ conn (run initial mutedRun) !! 2 = Some ("room:notes", 1)
  /\ conn (run initial mutedRun) !! 4 = Some ("room:notes", 1)
  /\ (exists st,
        heap (run initial mutedRun) !! 1 = Some st
        /\ destroyed st = true
        /\ clients st = [2; 4]
        /\ forall rs body,
             exists st',
               heap (fst (onMessage rs (run initial mutedRun) 2 (messageSync :: body)))
                 !! 1 = Some st'
               /\ doc st' = fst (fst (readSyncMessage body (doc st))))
  /\ (forall rs data w p,
        In (Send w p) (snd (onMessage rs (run initial mutedRun) 2 data)) ->
        (w = 2 /\ exists r, p = SyncReply r) \/ (w <> 2 /\ p = Raw data)).
Proof.
  destruct mutedRun_state as (Hc2 & Hc4 & st & Hst & Hd & Hcl).
  split.
  { intros rs st0 update origin w q Hl. unfold onDocUpdate. rewrite Hl.
    rewrite fanout_recipients. tauto. }
  split.
  { intros rs room p S w q.
    rewrite ControlProofs.broadcast_recipients. split.
    - intros (-> & Hx & Ho & Hc).
      split; [reflexivity|]. split; [congruence|]. split; assumption.
    - intros (-> & Hx & Ho & Hc).
      split; [reflexivity|]. split; [congruence|]. split; assumption. }
  split.
  { intros rs st0 ch origin w q Hl.
    pose proof (onAwarenessUpdate_keeps rs st0 ch origin) as (Ha & Hc & _).
    revert Ha Hc. unfold onAwarenessUpdate. rewrite Hl.
    cbv zeta. simpl fst. simpl snd. intros Ha Hc.
    rewrite fanout_recipients, Ha, Hc. split.
    - intros (-> & Hin & _ & Ho). auto.
    - intros (-> & Hin & Ho). repeat split; auto. }
  split.
  { intros rs st0 update ch origin Hl. unfold onDocUpdate, onAwarenessUpdate.
    rewrite Hl. split; reflexivity. }
  split; [exact Hc2|]. split; [exact Hc4|].
  split.
  { exists st. split; [exact Hst|]. split; [exact Hd|]. split; [exact Hcl|].
    intros rs body.
    destruct (onMessage_state rs _ 2 (messageSync :: body) _ _ _ Hc2 Hst)
      as (_ & st' & Hst' & Hdoc & _).
    exists st'. split; [exact Hst'|]. rewrite Hdoc. apply handleMessage_sync_doc. }
  intros rs data w p Hin.
  rewrite (onMessage_sends rs _ 2 data _ _ _ Hc2 Hst) in Hin.
  eapply handleMessage_destroyed_sends; eauto.
Qed.

Context {L : AwarenessLaws Y}.

(** The awareness object a close leaves: the recorded ids of the socket
    are removed from it, and nothing else is. *)
Lemma closeSocket_awareness rs (st : RoomState) S x :
  In x (getStates (awareness (fst (closeSocket rs st S))))
  <-> In x (getStates (awareness st)) /\ ~ In x (recordedIds st S).
Proof.
  unfold closeSocket, recordedIds. cbn [clientAwarenessIds setClients awareness].
  destruct (clientAwarenessIds st !! S) as [[|i ids]|];
    cbn [fst awareness setClientAwarenessIds setClients];
    [simpl; tauto| |simpl; tauto].
  assert (Hrm : In x (getStates (fst (removeAwarenessStates (awareness st) (i :: ids))))
                <-> In x (getStates (awareness st)) /\ ~ In x (i :: ids))
    by apply removeAwarenessStates_states.
  destruct (snd (removeAwarenessStates (awareness st) (i :: ids)));
    cbn [fst awareness setAwareness]; [exact Hrm|].
  match goal with
  | |- In x (getStates (awareness (fst (onAwarenessUpdate ?r ?s ?c ?o)))) <-> _ =>
      destruct (onAwarenessUpdate_keeps r s c o) as (H & _); rewrite H
  end.
  exact Hrm.
Qed.

(** On a destroyed room state the ids an awareness frame announces are
    applied but not recorded, and the close of the socket leaves them. *)
Lemma destroyed_close_keeps rs (st : RoomState) S body ch x :
  destroyed st = true ->
  snd (applyAwarenessUpdate (awareness st) body) = Some ch ->
  In x (added ch ++ updated ch) ->
  In x (getStates (fst (applyAwarenessUpdate (awareness st) body))) ->
  ~ In x (recordedIds st S) ->
  In x (announcedBy S st (Frame S (messageAwareness :: body)))
  /\ clientAwarenessIds (fst (fst (handleMessage rs S st (messageAwareness :: body))))
     = clientAwarenessIds st
  /\ awareness (fst (fst (handleMessage rs S st (messageAwareness :: body))))
     = fst (applyAwarenessUpdate (awareness st) body)
  /\ In x (getStates
             (awareness
                (fst (closeSocket rs
                        (fst (fst (handleMessage rs S st (messageAwareness :: body))))
                        S)))).
Proof.
  intros Hd Hch Hx Hin Hrec.
  assert (Hr : readVarUint (messageAwareness :: body) = Some (messageAwareness, body))
    by reflexivity.
  assert (E : fst (fst (handleMessage rs S st (messageAwareness :: body)))
              = setAwareness st (fst (applyAwarenessUpdate (awareness st) body))).
  { unfold handleMessage. rewrite Hr.
    change (messageAwareness =? messageSync)%Z with false.
    change (messageAwareness =? messageAwareness)%Z with true.
    cbv iota zeta. rewrite Hch. unfold onAwarenessUpdate.
    cbn [destroyed setAwareness]. rewrite Hd. reflexivity. }
  split.
  { unfold announcedBy. rewrite Nat.eqb_refl, Hr.
    change (messageAwareness =? messageAwareness)%Z with true.
    cbv iota. rewrite Hch. exact Hx. }
  rewrite E. split; [reflexivity|]. split; [reflexivity|].
  apply closeSocket_awareness. split; [exact Hin|exact Hrec].
Qed.

(** The same for the handlers of the server: frame, then close. *)
Lemma frame_then_close rs w ws data name sid st :
  conn w !! ws = Some (name, sid) ->
  heap w !! sid = Some st ->
  conn (run w [(rs, Message ws data); (rs, Closed ws)]) !! ws = None
  /\ exists st',
       heap (run w [(rs, Message ws data); (rs, Closed ws)]) !! sid = Some st'
       /\ forall x,
            In x (getStates (awareness st'))
            <-> In x (getStates (awareness (fst (fst (handleMessage rs ws st data)))))
                /\ ~ In x (recordedIds (fst (fst (handleMessage rs ws st data))) ws).
Proof.
  intros Hc Hh.
  destruct (onMessage_state rs w ws data name sid st Hc Hh)
    as (Hc1 & st1 & Hh1 & _ & Ha1 & Hi1).
  cbn [run step snd fst].
  set (w1 := fst (onMessage rs w ws data)) in *.
  assert (Hw1 : conn w1 !! ws = Some (name, sid)) by (rewrite Hc1; exact Hc).
  unfold onClose. rewrite Hw1, Hh1.
  assert (Hx : forall x,
             In x (getStates (awareness (fst (closeSocket rs st1 ws))))
             <-> In x (getStates (awareness (fst (fst (handleMessage rs ws st data)))))
                 /\ ~ In x (recordedIds (fst (fst (handleMessage rs ws st data))) ws)).
  { intros x. rewrite closeSocket_awareness. unfold recordedIds.
    rewrite Ha1, Hi1. reflexivity. }
  destruct (clients (fst (closeSocket rs st1 ws))); cbn [fst].
  - split; [cbn; apply lookup_delete_eq|].
    cbn [heap setHeap]. rewrite lookup_insert_eq. eexists.
    split; [reflexivity|]. exact Hx.
  - split; [cbn; apply lookup_delete_eq|].
    cbn [heap setHeap]. rewrite lookup_insert_eq. eexists.
    split; [reflexivity|]. exact Hx.
Qed.

(** C9: the code departs from the claim.  While the room state of a
    document has not been destroyed, the close of socket [S] removes every
    awareness id that stood in the added or updated list of an awareness
    update originated by [S] (and every id already recorded for [S]), and
    in every state it removes the entry of [S] from the per-socket index.
    But the ids are found through that index, which the awareness observer
    fills, and destroying the replica drops the observer while sockets can
    still be connected: on a destroyed room state an awareness frame of
    [S] (type byte 1, then the update) is applied, its ids are not
    recorded, and the close of [S] leaves them in the awareness state.
    After [raceRun] socket 2 is connected to such a state: the ids it
    announces then are still there after it has disconnected. *)
Theorem C9_ids_survive_close_after_destroy :
  (forall S (st : RoomState) es rs,
      destroyed st = false ->
      forallb (fun e => notDetach S (snd e)) es = true ->
      forall x,
        In x (recordedIds st S) \/ In x (announcedIn S st es) ->
        ~ In x (getStates (awareness (fst (closeSocket rs (roomRun st es) S)))))
  /\ (forall rs (st : RoomState) S,
        clientAwarenessIds (fst (closeSocket rs st S)) !! S = None)
  /\ (forall rs (st : RoomState) S body ch x,
        destroyed st = true ->
        snd (applyAwarenessUpdate (awareness st) body) = Some ch ->
        In x (added ch ++ updated ch) ->
        In x (getStates (fst (applyAwarenessUpdate (awareness st) body))) ->
        ~ In x (recordedIds st S) ->
        In x (announcedBy S st (Frame S (messageAwareness :: body)))
        /\ In x (getStates
                   (awareness
                      (fst (closeSocket rs
                              (fst (fst (handleMessage rs S st
                                           (messageAwareness :: body))))
                              S)))))
  /\ conn (run initial raceRun) !! 2 = Some ("room:notes", 1)
  /\ (exists st,
        heap (run initial raceRun) !! 1 = Some st
        /\ destroyed st = true
        /\ clients st = [2]
        /\ forall rs body ch x,
             snd (applyAwarenessUpdate (awareness st) body) = Some ch ->
             In x (added ch ++ updated ch) ->
             In x (getStates (fst (applyAwarenessUpdate (awareness st) body))) ->
             conn (run initial
                     (raceRun ++ [(rs, Message 2 (messageAwareness :: body));
                                  (rs, Closed 2)]))
               !! 2 = None
             /\ exists st',
                  heap (run initial
                          (raceRun ++ [(rs, Message 2 (messageAwareness :: body));
                                       (rs, Closed 2)]))
                    !! 1 = Some st'
                  /\ In x (getStates (awareness st'))).
Proof.
  split.
  { intros S st es rs Hd Hall x Hx. apply closeSocket_removes.
    apply roomRun_tracks; assumption. }
  split; [intros rs st S; apply closeSocket_index|].
  split.
  { intros rs st S body ch x Hd Hch Hx Hin Hrec.
    destruct (destroyed_close_keeps rs st S body ch x Hd Hch Hx Hin Hrec)
      as (H1 & _ & _ & H2).
    split; assumption. }
  destruct raceRun_state as (Hc2 & st & Hst & Hd & Hcl & Hidx).
  split; [exact Hc2|].
  exists st. split; [exact Hst|]. split; [exact Hd|]. split; [exact Hcl|].
  intros rs body ch x Hch Hx Hin.
  assert (Hrec : ~ In x (recordedIds st 2)).
  { unfold recordedIds. rewrite Hidx, lookup_empty. intros []. }
  destruct (destroyed_close_keeps rs st 2 body ch x Hd Hch Hx Hin Hrec)
    as (_ & Hi & Ha & _).
  rewrite run_app.
  destruct (frame_then_close rs (run initial raceRun) 2 (messageAwareness :: body)
              _ _ _ Hc2 Hst)
    as (Hn & st' & Hst' & Hiff).
  split; [exact Hn|].
  exists st'. split; [exact Hst'|].
  apply Hiff. split.
  - rewrite Ha. exact Hin.
  - unfold recordedIds. rewrite Hi. exact Hrec.
Qed.

End AfterDestroy.

Lemma heap_stateAt {Y : YLib} (w : World) sid (st : RoomState) :
  heap w !! sid = Some st -> YjsTimers.stateAt w sid = st.
Proof.
  unfold YjsTimers.stateAt. intros ->. reflexivity.
Qed.

(** With the small library instance: socket 2 sends an update after
    [mutedRun]; the replica takes it, and nothing is sent although socket 4
    is connected and OPEN. *)
Lemma C6_update_reaches_nobody_after_destroy_witness :
  encodeStateAsUpdate
    (doc (YjsTimers.stateAt (run (Y := Toy.lib) initial YjsAfterDestroy.mutedRun) 1))
  = []
  /\ encodeStateAsUpdate
       (doc (YjsTimers.stateAt
               (fst (onMessage (Y := Toy.lib) allOpen
                       (run initial YjsAfterDestroy.mutedRun) 2
                       YjsAfterDestroy.updateFrame)) 1))
     = [42]%Z
  /\ allOpen 4 = OPEN
  /\ ~ In (Send 4 (SyncUpdate (writeUpdate (YLib := Toy.lib) [42]%Z)))
         (snd (onMessage (Y := Toy.lib) allOpen
                 (run initial YjsAfterDestroy.mutedRun) 2
                 YjsAfterDestroy.updateFrame)).
Proof.
  split; [vm_compute; reflexivity|].
  split; [vm_compute; reflexivity|].
  split; [reflexivity|].
  intros Hin.
  destruct (proj2 (proj2 (proj2 (proj2 (proj2 (proj2 (proj2
              (C6_update_reaches_nobody_after_destroy (Y := Toy.lib))))))))
              allOpen YjsAfterDestroy.updateFrame 4 _ Hin)
    as [[H _]|[_ H]]; discriminate.
Defined.

(** With the small library instance: after [raceRun] socket 2 announces
    the ids 7 and 9 and disconnects; both ids are still in the awareness
    state. *)
Lemma C9_ids_survive_close_after_destroy_witness :
  conn (run (Y := Toy.lib) initial YjsAfterDestroy.staleRun) !! 2 = None
  /\ getStates
       (awareness (YjsTimers.stateAt
                     (run (Y := Toy.lib) initial YjsAfterDestroy.staleRun) 1))
     = [7; 9]%Z
  /\ exists st',
       heap (run (Y := Toy.lib) initial YjsAfterDestroy.staleRun) !! 1 = Some st'
       /\ In 7%Z (getStates (awareness st')).
Proof.
  destruct (proj2 (proj2 (proj2 (proj2
              (C9_ids_survive_close_after_destroy (Y := Toy.lib)
                 (L := toy_awareness_laws)))))) as (st & Hst & _ & _ & H).
  apply heap_stateAt in Hst. subst st.
  destruct (H allOpen [7; 9]%Z (mkChange [7; 9]%Z [] []) 7%Z)
    as (Hc & st' & Hst' & Hin).
  - vm_compute. reflexivity.
  - simpl. auto.
  - vm_compute. auto.
  - split; [exact Hc|]. split; [vm_compute; reflexivity|].
    exists st'. split; [exact Hst'|exact Hin].
Defined.

End YjsProofs.

(** ** Properties of the persistence layer *)

Module PersistenceProofs.
Import Persistence.

Section RoundTrip.
Context {Y : YLib} {L : ReplicaLaws Y}.

Lemma docKey_inj a b : docKey a = docKey b -> a = b.
Proof.
  unfold docKey. intros H. cbv [String.append] in H. inversion H. reflexivity.
Qed.

(** C10.  [persistDoc] stores the replica encoded as a full-state update
    under the document's key; [loadDoc] under the same name into a freshly
    constructed replica yields a replica whose encoded state equals the
    stored one, also when other documents were persisted in between; and a
    missing key leaves the replica as it is and raises nothing. *)
Theorem C10_persist_load_round_trip (db : gmap string bytes) (name : string)
    (d : Doc) :
  persistDoc db name d !! docKey name = Some (encodeStateAsUpdate d)
  /\ (exists d', loadDoc (persistDoc db name d) name newDoc = Ok d'
                 /\ encodeStateAsUpdate d' = encodeStateAsUpdate d)
  /\ (forall other d2, other <> name ->
        exists d', loadDoc (persistDoc (persistDoc db name d) other d2) name newDoc
                   = Ok d'
                   /\ encodeStateAsUpdate d' = encodeStateAsUpdate d)
  /\ (forall d0, db !! docKey name = None -> loadDoc db name d0 = Ok d0).
Proof.
  unfold persistDoc, loadDoc.
  split; [apply lookup_insert_eq|]. split; [|split].
  - rewrite lookup_insert_eq.
    destruct (applyUpdate_encodeStateAsUpdate d) as (d' & Ha & He).
    exists d'. rewrite Ha. auto.
  - intros other d2 Hne.
    rewrite lookup_insert_ne by (intros H; apply Hne; apply docKey_inj; exact H).
    rewrite lookup_insert_eq.
    destruct (applyUpdate_encodeStateAsUpdate d) as (d' & Ha & He).
    exists d'. rewrite Ha. auto.
  - intros d0 H. rewrite H. reflexivity.
Qed.

End RoundTrip.

Lemma C10_persist_load_round_trip_witness :
  (exists d' : Toy.TDoc,
      loadDoc (Y := Toy.lib)
        (persistDoc (Y := Toy.lib) ∅ "room:notes" ({[ 3%Z; 5%Z ]} : Toy.TDoc))
        "room:notes" (∅ : Toy.TDoc) = Ok d'
      /\ Toy.t_encodeStateAsUpdate d'
         = Toy.t_encodeStateAsUpdate ({[ 3%Z; 5%Z ]} : Toy.TDoc))
  /\ loadDoc (Y := Toy.lib) ∅ "room:notes" (∅ : Toy.TDoc) = Ok (∅ : Toy.TDoc).
Proof.
  pose proof (C10_persist_load_round_trip (L := YjsProofs.toy_replica_laws)
                ∅ "room:notes" ({[ 3%Z; 5%Z ]} : Toy.TDoc)) as (_ & H2 & _ & H4).
  split; [exact H2|]. apply H4. reflexivity.
Defined.

End PersistenceProofs.

(** ** Properties of the upgrade gateway *)

Module GatewayProofs.
Import Gateway GatewayExamples.

Lemma safeTokenCompare_true a b : safeTokenCompare a b = Ok true -> a = b.
Proof.
  unfold safeTokenCompare, timingSafeEqual.
  destruct (negb (Nat.eqb (jsLength a) (jsLength b))); [discriminate|].
  destruct (Nat.eqb (String.length a) (String.length b)); [|discriminate].
  intros H. inversion H. apply String.eqb_eq. assumption.
Qed.

(** The comparison throws exactly on tokens of equal UTF-16 length and
    different byte length. *)
Lemma safeTokenCompare_throws a b :
  safeTokenCompare a b = Throws
  <-> jsLength a = jsLength b /\ String.length a <> String.length b.
Proof.
  unfold safeTokenCompare, timingSafeEqual.
  destruct (Nat.eqb (jsLength a) (jsLength b)) eqn:E1; simpl.
  - apply Nat.eqb_eq in E1.
    destruct (Nat.eqb (String.length a) (String.length b)) eqn:E2.
    + apply Nat.eqb_eq in E2. split; [discriminate|]. intros [_ H]. contradiction.
    + apply Nat.eqb_neq in E2. split; auto.
  - apply Nat.eqb_neq in E1. split; [discriminate|]. intros [H _]. contradiction.
Qed.

Section Upgrade.
Variable getRoom : string -> option Room.
Variable REQUIRE_GITHUB_AUTH : bool.
Variable verifyJWT : string -> bool.

Lemma checks_authorized url room :
  tokenCheck url room = Ok true ->
  jwtCheck REQUIRE_GITHUB_AUTH verifyJWT url = true ->
  authorized REQUIRE_GITHUB_AUTH verifyJWT url room.
Proof.
  unfold tokenCheck, jwtCheck, authorized. intros Ht Hj. split.
  - destruct (searchParamsGet (searchParams url) "token") as [token|]; [|discriminate].
    destruct (String.eqb token EmptyString); [discriminate|].
    apply safeTokenCompare_true in Ht. congruence.
  - intros ->.
    destruct (searchParamsGet (searchParams url) "jwt") as [jwt|]; [|discriminate].
    apply andb_true_iff in Hj. destruct Hj as [_ Hv]. eauto.
Qed.

(** A socket reaches an engine only for a matching path, an existing room,
    the room's token and, when identity auth is on, an accepted jwt. *)
Lemma upgrade_hands_only_authorized url :
  match upgrade getRoom REQUIRE_GITHUB_AUTH verifyJWT url with
  | YjsConnection fullRoomName =>
      matchAfter "/ws/" (pathname url) = Some fullRoomName
      /\ exists room, getRoom (beforeColon fullRoomName) = Some room
                      /\ authorized REQUIRE_GITHUB_AUTH verifyJWT url room
  | ControlConnection roomId =>
      matchAfter "/control/" (pathname url) = Some roomId
      /\ exists room, getRoom roomId = Some room /\ authorized REQUIRE_GITHUB_AUTH verifyJWT url room
  | Destroyed | Thrown => True
  end.
Proof.
  unfold upgrade.
  destruct (matchAfter "/ws/" (pathname url)) as [full|].
  - destruct (getRoom (beforeColon full)) as [room|] eqn:Hr; [|exact I].
    destruct (tokenCheck url room) as [[|]|] eqn:Ht; try exact I.
    destruct (jwtCheck REQUIRE_GITHUB_AUTH verifyJWT url) eqn:Hj; [|exact I].
    split; [reflexivity|]. exists room. split; [exact Hr|].
    apply checks_authorized; assumption.
  - destruct (matchAfter "/control/" (pathname url)) as [roomId|]; [|exact I].
    destruct (getRoom roomId) as [room|] eqn:Hr; [|exact I].
    destruct (tokenCheck url room) as [[|]|] eqn:Ht; try exact I.
    destruct (jwtCheck REQUIRE_GITHUB_AUTH verifyJWT url) eqn:Hj; [|exact I].
    split; [reflexivity|]. exists room. split; [exact Hr|].
    apply checks_authorized; assumption.
Qed.

End Upgrade.

(** C5: the code departs from the claim.  A request for an existing room
    whose token has as many UTF-16 code units as the room's token but
    another UTF-8 length is neither handed to an engine nor destroyed: the
    length guard of [safeTokenCompare] passes and [timingSafeEqual] throws
    inside the upgrade handler.  This holds on both routes; the well-formed
    request is handed over. *)
Theorem C5_upgrade_throws_on_odd_token :
  jsLength oddToken = jsLength roomToken
  /\ String.length oddToken = 25
  /\ String.length roomToken = 24
  /\ safeTokenCompare oddToken roomToken = Throws
  /\ upgrade registry false noJwt oddRequest = Thrown
  /\ upgrade registry false noJwt oddControlRequest = Thrown
  /\ upgrade registry false noJwt goodRequest = YjsConnection "room-1:notes.md".
Proof.
  repeat split.
Qed.

End GatewayProofs.

(** ** More on the control channel *)

Module ControlMore.
Import Control ControlExamples ControlSpec ControlProofs.

Lemma strictEq_true a o : strictEq a o = true <-> o = Some a.
Proof.
  destruct o as [s|]; simpl.
  - rewrite String.eqb_eq. split; [intros ->; reflexivity|intros H; inversion H; reflexivity].
  - split; discriminate.
Qed.

Lemma isOpen_true s : isOpen s = true <-> s = OPEN.
Proof. destruct s; simpl; split; congruence. Qed.

Lemma mapGet_In {A} (w : WebSocket) (m : list (WebSocket * A)) v :
  mapGet w m = Some v -> In (w, v) m.
Proof.
  induction m as [|[k x] m IH]; simpl; [discriminate|].
  destruct (Nat.eqb k w) eqn:E.
  - apply Nat.eqb_eq in E. subst k. intros H. inversion H. left. reflexivity.
  - intros H. right. auto.
Qed.

Lemma allowed_In t : allowed t = true -> In t ALLOWED_TYPES.
Proof.
  unfold allowed. rewrite existsb_exists. intros [x [Hin Heq]].
  apply String.eqb_eq in Heq. subst x. exact Hin.
Qed.

Lemma routeSummon_recipients rs room f msg e :
  In e (routeSummon rs room f msg)
  <-> exists w c, e = Send w (Raw (data f)) /\ In (w, c) (clients room)
                  /\ m_targetUserId msg = Some (userId c) /\ rs w = OPEN.
Proof.
  unfold routeSummon. rewrite in_map_iff. split.
  - intros [[w c] [<- Hin]]. apply filter_In in Hin. destruct Hin as [Hin Hb].
    simpl in Hb. apply andb_true_iff in Hb. destruct Hb as [Hs Ho].
    apply strictEq_true in Hs. apply isOpen_true in Ho.
    exists w, c. simpl. auto.
  - intros (w & c & -> & Hin & Ht & Ho). exists (w, c). split; [reflexivity|].
    apply filter_In. split; [exact Hin|]. simpl.
    apply andb_true_iff. split; [apply strictEq_true; exact Ht|apply isOpen_true; exact Ho].
Qed.

(** X5.  A frame is relayed verbatim only if its sender is approved and
    its type is on the allow-list and is not join-request; a host's
    join-response and kick are consumed and never relayed, and so is a
    file-op of a read-only sender.  Every recipient is OPEN. *)
Theorem relay_discipline rs sr room ws f w d :
  In (Send w (Raw d)) (snd (onMessage rs sr room ws f)) ->
  d = data f /\ rs w = OPEN
  /\ exists client msg,
       mapGet ws (clients room) = Some client /\ json f = Some msg
       /\ In (type msg) ALLOWED_TYPES
       /\ approved client = true
       /\ type msg <> "join-request"
       /\ (isHost client = true ->
           type msg <> "join-response" /\ type msg <> "kick")
       /\ (permission client = "read-only" -> type msg <> "file-op").
Proof.
  unfold onMessage.
  destruct (mapGet ws (clients room)) as [client|] eqn:Hget; [|simpl; tauto].
  destruct (json f) as [msg|] eqn:Hj; [|simpl; tauto].
  destruct (allowed (type msg)) eqn:Hal; [|simpl; tauto]. simpl negb. cbv iota.
  destruct (String.eqb (type msg) "join-request") eqn:Ejr.
  { intros H. exfalso. revert H. apply handleJoinRequest_no_relay. }
  destruct (String.eqb (type msg) "join-response" && isHost client) eqn:Ejs.
  { intros H. exfalso. revert H. apply handleJoinResponse_no_relay. }
  destruct (String.eqb (type msg) "kick" && isHost client) eqn:Ek.
  { simpl. intros H. apply handleKick_only in H.
    destruct H as [[x H]|[x H]]; discriminate. }
  destruct (String.eqb (type msg) "file-op"
            && String.eqb (permission client) "read-only") eqn:Efo; [simpl; tauto|].
  destruct (approved client) eqn:Happ; [|simpl; tauto]. simpl negb. cbv iota.
  assert (Hfacts :
    In (type msg) ALLOWED_TYPES /\ type msg <> "join-request"
    /\ (isHost client = true -> type msg <> "join-response" /\ type msg <> "kick")
    /\ (permission client = "read-only" -> type msg <> "file-op")).
  { split; [apply allowed_In; exact Hal|].
    split; [intros E; rewrite E in Ejr; discriminate|].
    split.
    - intros Hh. rewrite Hh, andb_true_r in Ejs, Ek.
      split; intros E; rewrite E in *; discriminate.
    - intros Hp E. rewrite Hp, E in Efo. discriminate. }
  destruct Hfacts as (F1 & F2 & F3 & F4).
  destruct (String.eqb (type msg) "summon"
            && negb (bool_decide (m_targetUserId msg = Some "__all__"))).
  { simpl. intros H. apply routeSummon_recipients in H.
    destruct H as (x & c & Heq & _ & _ & Ho). inversion Heq; subst.
    split; [reflexivity|]. split; [exact Ho|].
    exists client, msg. auto 10. }
  destruct (String.eqb (type msg) "presence-update"); simpl;
    intros H; apply broadcast_recipients in H;
    destruct H as (Heq & _ & Ho & _); inversion Heq; subst;
    (split; [reflexivity|]); (split; [exact Ho|]);
    exists client, msg; auto 10.
Qed.

Lemma relay_discipline_witness :
  Raw (stringify (presenceMsg "renamed")) = Raw (data (frameOf (presenceMsg "renamed")))
  /\ allOpen 2 = OPEN.
Proof.
  assert (H : In (Send 2 (Raw (stringify (presenceMsg "renamed"))))
                (snd (onMessage allOpen None demoRoom 1
                        (frameOf (presenceMsg "renamed"))))).
  { vm_compute. left. reflexivity. }
  destruct (relay_discipline _ _ _ _ _ _ _ H) as (H1 & H2 & _).
  split; [rewrite H1; reflexivity|exact H2].
Defined.

Lemma find_host_exists room w c :
  mapGet w (clients room) = Some c -> isHost c = true ->
  exists h, findHost room = Some h /\ In h (clients room) /\ isHost (snd h) = true.
Proof.
  intros Hget Hh. unfold findHost.
  destruct (List.find (fun e => isHost (snd e)) (clients room)) as [h|] eqn:E.
  - exists h. split; [reflexivity|]. apply find_some in E. exact E.
  - exfalso. apply mapGet_In in Hget.
    pose proof (find_none _ _ E _ Hget) as Hn. simpl in Hn. congruence.
Qed.

(** X6.  Approval round trip.  In a room that requires approval and has a
    host, a join-request puts the sender on hold (approved = false, one
    pending entry under its user-id) and is forwarded to a host socket and
    to nobody else; the host's join-response for that user-id then sets the
    sender's approved flag to the host's decision (false when the field is
    absent), sets its permission when the response carries one, removes the
    pending entry and answers the sender alone. *)
Theorem approval_round_trip rs1 rs2 sr room guest host gc hc req resp reqMsg respMsg uid :
  serverRequireApproval sr = true ->
  mapGet guest (clients room) = Some gc ->
  mapGet host (clients room) = Some hc ->
  isHost hc = true ->
  json req = Some reqMsg -> type reqMsg = "join-request" ->
  m_userId reqMsg = Some uid ->
  json resp = Some respMsg -> type respMsg = "join-response" ->
  m_userId respMsg = Some uid ->
  let r1 := onMessage rs1 sr room guest req in
  let r2 := onMessage rs2 sr (fst r1) host resp in
  mapGet guest (clients (fst r1))
    = Some (mkClient uid (requestedName reqMsg) (isHost gc) false (permission gc))
  /\ pendingApprovals (fst r1) = <[uid := guest]> (pendingApprovals room)
  /\ (exists h, In h (clients (fst r1)) /\ isHost (snd h) = true
        /\ snd r1 = sendTo rs1 (fst h)
                      (JoinRequest uid (requestedName reqMsg) (requestedAvatar reqMsg)))
  /\ mapGet guest (clients (fst r2))
     = Some (mkClient uid (requestedName reqMsg) (isHost gc) (decision respMsg)
               (grantedPermission respMsg (permission gc)))
  /\ pendingApprovals (fst r2) !! uid = None
  /\ snd r2 = sendTo rs2 guest
                (JoinResponse (decision respMsg)
                   (grantedPermission respMsg (permission gc))).
Proof.
  intros Hreq Hg Hh Hhost Hj1 Ht1 Hu1 Hj2 Ht2 Hu2 r1 r2.
  assert (Huid : requestedId reqMsg = uid).
  { unfold requestedId. rewrite Hu1. simpl.
    destruct (String.eqb uid "") eqn:E; simpl; [|reflexivity].
    apply String.eqb_eq in E. congruence. }
  set (c1 := mkClient uid (requestedName reqMsg) (isHost gc) false (permission gc)).
  set (room1 := {| clients := mapSet guest c1 (clients room);
                   pendingApprovals := <[uid := guest]> (pendingApprovals room) |}).
  assert (Hhost1 : exists hc1, mapGet host (clients room1) = Some hc1
                               /\ isHost hc1 = true).
  { unfold room1. simpl. rewrite mapGet_mapSet.
    destruct (Nat.eqb guest host) eqn:E.
    - apply Nat.eqb_eq in E. subst host. exists c1. split; [reflexivity|].
      simpl. congruence.
    - exists hc. auto. }
  assert (Hr1 : r1 = (room1,
                       match findHost room1 with
                       | Some h => sendTo rs1 (fst h)
                                     (JoinRequest uid (requestedName reqMsg)
                                        (requestedAvatar reqMsg))
                       | None => []
                       end)).
  { unfold r1, onMessage. rewrite Hg, Hj1, Ht1. cbn [allowed].
    change (allowed "join-request") with true. cbn [negb String.eqb].
    change (String.eqb "join-request" "join-request") with true. cbv iota.
    unfold handleJoinRequest. rewrite Hreq.
    fold (requestedId reqMsg) (requestedName reqMsg) (requestedAvatar reqMsg).
    rewrite Huid. reflexivity. }
  destruct Hhost1 as (hc1 & Hh1 & Hhost1).
  destruct (find_host_exists room1 host hc1 Hh1 Hhost1) as (h & Hf & Hin & Hhh).
  rewrite Hf in Hr1.
  assert (Hg1 : mapGet guest (clients room1) = Some c1).
  { unfold room1. simpl. rewrite mapGet_mapSet, Nat.eqb_refl. reflexivity. }
  assert (Hp1 : pendingApprovals room1 !! uid = Some guest).
  { unfold room1. simpl. apply lookup_insert_eq. }
  assert (Hr2 : r2 = ({| clients := mapSet guest
                            (mkClient uid (requestedName reqMsg) (isHost gc)
                               (decision respMsg)
                               (grantedPermission respMsg (permission gc)))
                            (clients room1);
                         pendingApprovals := delete uid (pendingApprovals room1) |},
                       sendTo rs2 guest
                         (JoinResponse (decision respMsg)
                            (grantedPermission respMsg (permission gc))))).
  { unfold r2. rewrite Hr1. cbn [fst]. unfold onMessage.
    rewrite Hh1, Hj2, Ht2, Hhost1.
    change (allowed "join-response") with true.
    change (String.eqb "join-response" "join-request") with false.
    change (String.eqb "join-response" "join-response") with true.
    cbn [negb andb]. cbv iota.
    unfold handleJoinResponse. rewrite Hu2, Hp1, Hg1. reflexivity. }
  rewrite Hr1, Hr2. cbn [fst snd clients pendingApprovals].
  split; [exact Hg1|]. split; [reflexivity|].
  split; [exists h; auto|].
  split; [rewrite mapGet_mapSet, Nat.eqb_refl; reflexivity|].
  split; [apply lookup_delete_eq|reflexivity].
Qed.

Lemma approval_round_trip_witness :
  mapGet 2 (clients
    (fst (onMessage allOpen (Some approvalRoom)
            (fst (onMessage allOpen (Some approvalRoom) demoRoom 2
                    (frameOf (joinRequestMsg (Some "guest-1")))))
            1 (frameOf (joinResponseMsg "guest-1" true (Some "read-only"))))))
  = Some (mkClient "guest-1" "" false true "read-only").
Proof.
  pose proof (approval_round_trip allOpen allOpen (Some approvalRoom) demoRoom
                2 1 guestC hostC
                (frameOf (joinRequestMsg (Some "guest-1")))
                (frameOf (joinResponseMsg "guest-1" true (Some "read-only")))
                _ _ "guest-1"
                eq_refl eq_refl eq_refl eq_refl eq_refl eq_refl eq_refl
                eq_refl eq_refl eq_refl) as (_ & _ & _ & H & _).
  exact H.
Defined.

Lemma handleKick_closes rs room msg w :
  In (Close w) (handleKick rs room msg)
  <-> exists c, In (w, c) (clients room) /\ m_userId msg = Some (userId c).
Proof.
  unfold handleKick. rewrite in_flat_map. split.
  - intros [[k c] [Hin H]]. simpl in H.
    destruct (strictEq (userId c) (m_userId msg)) eqn:E; [|contradiction].
    apply in_app_or in H. destruct H as [H|H].
    + apply sendTo_only in H. discriminate.
    + simpl in H. destruct H as [H|[]]. inversion H. subst k.
      exists c. split; [exact Hin|]. apply strictEq_true. exact E.
  - intros (c & Hin & Hu). exists (w, c). split; [exact Hin|]. simpl.
    rewrite (proj2 (strictEq_true _ _) Hu). apply in_or_app. right. left. reflexivity.
Qed.

Lemma handleKick_sends rs room msg w p :
  In (Send w p) (handleKick rs room msg)
  <-> p = Kicked /\ rs w = OPEN
      /\ exists c, In (w, c) (clients room) /\ m_userId msg = Some (userId c).
Proof.
  unfold handleKick. rewrite in_flat_map. split.
  - intros [[k c] [Hin H]]. simpl in H.
    destruct (strictEq (userId c) (m_userId msg)) eqn:E; [|contradiction].
    apply in_app_or in H. destruct H as [H|H].
    + unfold sendTo in H. destruct (isOpen (rs k)) eqn:Ho; [|contradiction].
      simpl in H. destruct H as [H|[]]. inversion H. subst.
      split; [reflexivity|]. split; [apply isOpen_true; exact Ho|].
      exists c. split; [exact Hin|]. apply strictEq_true. exact E.
    + simpl in H. destruct H as [H|[]]. discriminate.
  - intros (-> & Ho & c & Hin & Hu). exists (w, c). split; [exact Hin|]. simpl.
    rewrite (proj2 (strictEq_true _ _) Hu). apply in_or_app. left.
    unfold sendTo. rewrite (proj2 (isOpen_true _) Ho). left. reflexivity.
Qed.

(** X7.  A kick sent by a host closes exactly the sockets whose user-id is
    the one named in the message, every connection of that user and the
    host itself included, and sends the kicked notice to those of them that
    are OPEN; nothing else is sent, and the room (the kicked sockets'
    records too) stays as it is until their close events arrive. *)
Theorem host_kick rs sr room ws f msg client :
  mapGet ws (clients room) = Some client ->
  isHost client = true ->
  json f = Some msg ->
  type msg = "kick" ->
  fst (onMessage rs sr room ws f) = room
  /\ (forall w, In (Close w) (snd (onMessage rs sr room ws f))
                <-> exists c, In (w, c) (clients room)
                              /\ m_userId msg = Some (userId c))
  /\ (forall w p, In (Send w p) (snd (onMessage rs sr room ws f))
                  <-> p = Kicked /\ rs w = OPEN
                      /\ exists c, In (w, c) (clients room)
                                   /\ m_userId msg = Some (userId c)).
Proof.
  intros Hget Hh Hj Ht.
  assert (E : onMessage rs sr room ws f = (room, handleKick rs room msg)).
  { unfold onMessage. rewrite Hget, Hj, Ht, Hh. reflexivity. }
  rewrite E. cbn [fst snd]. split; [reflexivity|].
  split; [apply handleKick_closes|apply handleKick_sends].
Qed.

Lemma host_kick_witness :
  In (Close 2) (snd (onMessage allOpen None crowdedRoom 1 (frameOf (kickOf "guest-1"))))
  /\ In (Close 3) (snd (onMessage allOpen None crowdedRoom 1 (frameOf (kickOf "guest-1"))))
  /\ ~ In (Close 4) (snd (onMessage allOpen None crowdedRoom 1 (frameOf (kickOf "guest-1")))).
Proof.
  pose proof (host_kick allOpen None crowdedRoom 1 (frameOf (kickOf "guest-1"))
                (kickOf "guest-1") hostC eq_refl eq_refl eq_refl eq_refl)
    as (_ & Hc & _).
  split; [|split].
  - apply Hc. eexists. split; [right; left; reflexivity|reflexivity].
  - apply Hc. eexists. split; [right; right; left; reflexivity|reflexivity].
  - intros H. apply Hc in H. destruct H as (c & Hin & Hu).
    simpl in Hin.
    destruct Hin as [H|[H|[H|[H|[]]]]]; inversion H; subst c; discriminate.
Defined.

(** X8.  A summon with a target other than __all__, sent by an approved
    socket, leaves the room as it is and goes verbatim to every OPEN socket
    whose user-id is the target: whether that socket is approved or not,
    and the sender itself included.  With no target field nobody receives
    it. *)
Theorem summon_targeted rs sr room ws f msg client :
  mapGet ws (clients room) = Some client ->
  approved client = true ->
  json f = Some msg ->
  type msg = "summon" ->
  m_targetUserId msg <> Some "__all__" ->
  fst (onMessage rs sr room ws f) = room
  /\ (forall e, In e (snd (onMessage rs sr room ws f))
                <-> exists w c, e = Send w (Raw (data f))
                                /\ In (w, c) (clients room)
                                /\ m_targetUserId msg = Some (userId c)
                                /\ rs w = OPEN)
  /\ (m_targetUserId msg = None -> snd (onMessage rs sr room ws f) = []).
Proof.
  intros Hget Happ Hj Ht Hall.
  assert (E : onMessage rs sr room ws f = (room, routeSummon rs room f msg)).
  { unfold onMessage. rewrite Hget, Hj, Ht, Happ.
    rewrite bool_decide_eq_false_2 by exact Hall. reflexivity. }
  rewrite E. cbn [fst snd]. split; [reflexivity|].
  split; [intros e; apply routeSummon_recipients|].
  intros Hn. destruct (routeSummon rs room f msg) as [|e l] eqn:El; [reflexivity|].
  exfalso. assert (Hin : In e (routeSummon rs room f msg)) by (rewrite El; left; reflexivity).
  apply routeSummon_recipients in Hin. destruct Hin as (w & c & _ & _ & Hc & _).
  congruence.
Qed.

Lemma summon_targeted_witness :
  In (Send 3 (Raw (data (frameOf (summonMsg (Some "guest-1"))))))
     (snd (onMessage allOpen None crowdedRoom 2 (frameOf (summonMsg (Some "guest-1")))))
  /\ In (Send 2 (Raw (data (frameOf (summonMsg (Some "guest-1"))))))
        (snd (onMessage allOpen None crowdedRoom 2 (frameOf (summonMsg (Some "guest-1"))))).
Proof.
  assert (Hne : m_targetUserId (summonMsg (Some "guest-1")) <> Some "__all__")
    by discriminate.
  pose proof (summon_targeted allOpen None crowdedRoom 2
                (frameOf (summonMsg (Some "guest-1"))) (summonMsg (Some "guest-1"))
                guestC eq_refl eq_refl eq_refl eq_refl Hne) as (_ & H & _).
  split.
  - apply H. exists 3, (mkClient "guest-1" "Twin" false false "read-write").
    split; [reflexivity|]. split; [right; right; left; reflexivity|].
    split; reflexivity.
  - apply H. exists 2, guestC.
    split; [reflexivity|]. split; [right; left; reflexivity|].
    split; reflexivity.
Defined.

Lemma mapGet_mapDelete_ne {A} (ws w : WebSocket) (m : list (WebSocket * A)) :
  w <> ws -> mapGet w (mapDelete ws m) = mapGet w m.
Proof.
  intros Hne. rewrite mapGet_mapDelete.
  destruct (Nat.eqb ws w) eqn:E; [|reflexivity].
  apply Nat.eqb_eq in E. congruence.
Qed.

(** X9.  When a socket closes, its record leaves the room and every other
    record stays; the pending approval stored under its user-id is
    withdrawn; and a presence-leave naming that user-id goes to the other
    approved OPEN sockets, unless the socket never identified, in which
    case nothing is sent.  Whether the closing socket itself was approved
    plays no part. *)
Theorem close_effects rs room ws c :
  mapGet ws (clients room) = Some c ->
  mapGet ws (clients (fst (onClose rs room ws))) = None
  /\ (forall w, w <> ws ->
        mapGet w (clients (fst (onClose rs room ws))) = mapGet w (clients room))
  /\ pendingApprovals (fst (onClose rs room ws))
     = delete (userId c) (pendingApprovals room)
  /\ (forall e, In e (snd (onClose rs room ws))
                <-> userId c <> EmptyString
                    /\ exists w c', e = Send w (PresenceLeave (userId c))
                                    /\ w <> ws /\ rs w = OPEN
                                    /\ In (w, c') (clients room)
                                    /\ approved c' = true).
Proof.
  intros Hget. unfold onClose. rewrite Hget. cbn [fst snd clients pendingApprovals].
  split; [rewrite mapGet_mapDelete, Nat.eqb_refl; reflexivity|].
  split; [intros w Hne; apply mapGet_mapDelete_ne; exact Hne|].
  split; [reflexivity|].
  intros e. destruct (String.eqb (userId c) "") eqn:E; simpl.
  - apply String.eqb_eq in E. split; [tauto|]. intros [H _]. contradiction.
  - assert (Hne : userId c <> EmptyString).
    { intros H. rewrite H in E. discriminate. }
    split.
    + intros H. split; [exact Hne|].
      destruct (broadcast_only_sends _ _ _ _ _ H) as [w ->].
      apply broadcast_recipients in H. cbn [clients] in H.
      destruct H as (_ & Hx & Ho & c' & Hin & Ha).
      exists w, c'. repeat split; auto; congruence.
    + intros (_ & w & c' & -> & Hw & Ho & Hin & Ha).
      apply broadcast_recipients. cbn [clients].
      split; [reflexivity|]. split; [congruence|]. split; [exact Ho|].
      exists c'. auto.
Qed.

Lemma close_effects_witness :
  mapGet 3 (clients (fst (onClose allOpen waitingRoom 3))) = None
  /\ pendingApprovals (fst (onClose allOpen waitingRoom 3))
     = delete "guest-2" (pendingApprovals waitingRoom).
Proof.
  pose proof (close_effects allOpen waitingRoom 3 pendingC eq_refl)
    as (H1 & _ & H3 & _).
  split; assumption.
Defined.

(** X10.  The pending approval withdrawn by a close is the one stored under
    the closing socket's user-id, whichever socket it belongs to: when
    socket [ws] closes while another socket waits for approval under the
    same user-id, the later join-response of the host for that user-id
    changes nothing and is answered to nobody, so the waiting socket stays
    unapproved. *)
Theorem close_withdraws_foreign_request rs1 rs2 sr room ws c waiting wc host hc f msg :
  mapGet ws (clients room) = Some c ->
  pendingApprovals room !! userId c = Some waiting ->
  waiting <> ws ->
  mapGet waiting (clients room) = Some wc ->
  host <> ws ->
  mapGet host (clients room) = Some hc ->
  isHost hc = true ->
  json f = Some msg -> type msg = "join-response" ->
  m_userId msg = Some (userId c) ->
  let room1 := fst (onClose rs1 room ws) in
  onMessage rs2 sr room1 host f = (room1, [])
  /\ mapGet waiting (clients room1) = Some wc.
Proof.
  intros Hget Hp Hw Hwc Hhne Hh Hhost Hj Ht Hu room1.
  assert (E : room1 = {| clients := mapDelete ws (clients room);
                         pendingApprovals := delete (userId c) (pendingApprovals room) |}).
  { unfold room1, onClose. rewrite Hget. reflexivity. }
  assert (Hothers : forall w, w <> ws ->
            mapGet w (clients room1) = mapGet w (clients room)).
  { intros w Hne. rewrite E. cbn [clients]. apply mapGet_mapDelete_ne. exact Hne. }
  assert (Hpend : pendingApprovals room1
                  = delete (userId c) (pendingApprovals room))
    by (rewrite E; reflexivity).
  split; [|rewrite (Hothers waiting Hw); exact Hwc].
  unfold onMessage. rewrite (Hothers host Hhne), Hh, Hj, Ht, Hhost.
  change (allowed "join-response") with true.
  change (String.eqb "join-response" "join-request") with false.
  change (String.eqb "join-response" "join-response") with true.
  cbn [negb andb]. cbv iota.
  unfold handleJoinResponse. rewrite Hu, Hpend, lookup_delete_eq. reflexivity.
Qed.

Lemma close_withdraws_foreign_request_witness :
  let room := mkControlRoom
                [(1, hostC); (2, mkClient "guest-2" "Early" false true "read-write");
                 (3, pendingC)] {[ "guest-2" := 3 ]} in
  mapGet 3 (clients (fst (onClose allOpen room 2))) = Some pendingC
  /\ snd (onMessage allOpen (Some approvalRoom) (fst (onClose allOpen room 2)) 1
            (frameOf (joinResponseMsg "guest-2" true None))) = [].
Proof.
  intros room.
  assert (H23 : (3 : WebSocket) <> 2) by discriminate.
  assert (H12 : (1 : WebSocket) <> 2) by discriminate.
  pose proof (close_withdraws_foreign_request allOpen allOpen (Some approvalRoom)
                room 2 (mkClient "guest-2" "Early" false true "read-write")
                3 pendingC 1 hostC
                (frameOf (joinResponseMsg "guest-2" true None))
                (joinResponseMsg "guest-2" true None)
                eq_refl eq_refl H23 eq_refl H12 eq_refl eq_refl eq_refl eq_refl eq_refl)
    as [H1 H2].
  split; [exact H2|]. rewrite H1. reflexivity.
Defined.

(** *** At most one host without a pinned host user-id *)

Lemma hostCount_mapSet ws c m :
  hostCount (mapSet ws c m) + (match mapGet ws m with
                               | Some old => if isHost old then 1 else 0
                               | None => 0
                               end)
  = hostCount m + (if isHost c then 1 else 0).
Proof.
  unfold hostCount. induction m as [|[k x] m IH]; simpl.
  - destruct (isHost c); reflexivity.
  - destruct (Nat.eqb k ws) eqn:E; simpl.
    + destruct (isHost c), (isHost x); simpl; lia.
    + destruct (isHost x); simpl; lia.
Qed.

Lemma hostCount_mapDelete ws m : hostCount (mapDelete ws m) <= hostCount m.
Proof.
  unfold hostCount. induction m as [|[k x] m IH]; simpl; [lia|].
  destruct (Nat.eqb k ws); simpl; destruct (isHost x); simpl; lia.
Qed.

Lemma findHost_None room : findHost room = None -> hostCount (clients room) = 0.
Proof.
  unfold findHost, hostCount. intros H.
  induction (clients room) as [|[k x] m IH]; simpl in *; [reflexivity|].
  destruct (isHost x); [discriminate|]. auto.
Qed.

Lemma hostCount_keep ws c old m :
  mapGet ws m = Some old -> isHost c = isHost old ->
  hostCount (mapSet ws c m) = hostCount m.
Proof.
  intros Hget Hh. pose proof (hostCount_mapSet ws c m) as H.
  rewrite Hget, Hh in H. lia.
Qed.

Lemma onMessage_hostCount rs sr room ws f :
  truthy (serverHostUserId sr) = false ->
  hostCount (clients room) <= 1 ->
  hostCount (clients (fst (onMessage rs sr room ws f))) <= 1.
Proof.
  intros Hpin Hone. unfold onMessage.
  destruct (mapGet ws (clients room)) as [client|] eqn:Hget; [|exact Hone].
  destruct (json f) as [msg|]; [|exact Hone].
  destruct (negb (allowed (type msg))); [exact Hone|].
  destruct (String.eqb (type msg) "join-request").
  { unfold handleJoinRequest.
    destruct (serverRequireApproval sr); cbn [fst clients setClient];
      rewrite (hostCount_keep ws _ client) by (auto; reflexivity); exact Hone. }
  destruct (String.eqb (type msg) "join-response" && isHost client).
  { unfold handleJoinResponse.
    destruct (m_userId msg) as [t|]; [|exact Hone].
    destruct (pendingApprovals room !! t) as [tw|]; [|exact Hone].
    destruct (mapGet tw (clients room)) as [tc|] eqn:Htc; [|exact Hone].
    cbn [fst clients].
    rewrite (hostCount_keep tw _ tc) by (auto; reflexivity). exact Hone. }
  destruct (String.eqb (type msg) "kick" && isHost client); [exact Hone|].
  destruct (String.eqb (type msg) "file-op"
            && String.eqb (permission client) "read-only"); [exact Hone|].
  destruct (negb (approved client)); [exact Hone|].
  destruct (String.eqb (type msg) "summon"
            && negb (bool_decide (m_targetUserId msg = Some "__all__")));
    [exact Hone|].
  destruct (String.eqb (type msg) "presence-update"); [|exact Hone].
  cbn [fst clients setClient].
  pose proof (hostCount_mapSet ws (trackPresence sr room client msg) (clients room)) as H.
  rewrite Hget, trackPresence_isHost in H. unfold hostPolicy in H. rewrite Hpin in H.
  destruct (truthy (m_userId msg) && String.eqb (userId client) EmptyString).
  - destruct (findHost room) eqn:Hf.
    + destruct (isHost client); lia.
    + apply findHost_None in Hf. destruct (isHost client); lia.
  - destruct (isHost client); lia.
Qed.

Lemma step_hostCount sr room e :
  truthy (serverHostUserId sr) = false ->
  hostCount (clients room) <= 1 ->
  hostCount (clients (fst (step sr room e))) <= 1.
Proof.
  intros Hpin Hone. destruct e as [rs [ws|ws f|ws]]; unfold step; cbn [fst snd].
  - unfold onConnection. cbn [clients].
    pose proof (hostCount_mapSet ws (newClient sr) (clients room)) as H.
    cbn [newClient isHost] in H.
    destruct (mapGet ws (clients room)) as [old|]; [destruct (isHost old)|]; lia.
  - apply onMessage_hostCount; assumption.
  - rewrite onClose_clients.
    pose proof (hostCount_mapDelete ws (clients room)). lia.
Qed.

(** X11.  In a room without a pinned host user-id at most one socket is
    host at any time: whatever sockets connect, send and close, in any
    order, a room that starts with at most one host never has two. *)
Theorem single_host_without_pin sr room es :
  truthy (serverHostUserId sr) = false ->
  length (hosts room) <= 1 ->
  length (hosts (run sr room es)) <= 1.
Proof.
  intros Hpin. change (hostCount (clients room) <= 1 ->
                       hostCount (clients (run sr room es)) <= 1).
  revert room. induction es as [|e es IH]; intros room Hone; [exact Hone|].
  cbn [run]. apply IH. apply step_hostCount; assumption.
Qed.

Lemma single_host_without_pin_witness :
  length (hosts (run None emptyRoom fallbackTrace)) <= 1.
Proof.
  apply (single_host_without_pin None emptyRoom fallbackTrace).
  - reflexivity.
  - simpl. lia.
Defined.

(** X12.  The permission of a socket changes only through a join-response
    sent by a host socket for a user-id under which that socket waits for
    approval; and in a room that requires approval a socket on hold becomes
    approved only in that way.  No frame of the socket itself, unless it is
    host, changes either. *)
Theorem privileges_granted_by_host rs sr room ws f w c c' :
  mapGet w (clients room) = Some c ->
  mapGet w (clients (fst (onMessage rs sr room ws f))) = Some c' ->
  permission c' <> permission c
  \/ (serverRequireApproval sr = true /\ approved c = false /\ approved c' = true) ->
  exists sender msg uid,
    mapGet ws (clients room) = Some sender /\ isHost sender = true
    /\ json f = Some msg /\ type msg = "join-response"
    /\ m_userId msg = Some uid
    /\ pendingApprovals room !! uid = Some w
    /\ approved c' = decision msg
    /\ permission c' = grantedPermission msg (permission c).
Proof.
  intros Hc. unfold onMessage.
  destruct (mapGet ws (clients room)) as [client|] eqn:Hget;
    [|cbn [fst]; intros H [Hd|(_ & H1 & H2)]; exfalso; congruence].
  destruct (json f) as [msg|] eqn:Hj;
    [|cbn [fst]; intros H [Hd|(_ & H1 & H2)]; exfalso; congruence].
  destruct (negb (allowed (type msg)));
    [cbn [fst]; intros H [Hd|(_ & H1 & H2)]; exfalso; congruence|].
  destruct (String.eqb (type msg) "join-request") eqn:Ejr.
  { unfold handleJoinRequest.
    destruct (serverRequireApproval sr) eqn:Hreq; cbn [fst clients setClient];
      rewrite mapGet_mapSet; destruct (Nat.eqb ws w) eqn:E;
      intros H [Hd|(Hr & H1 & H2)]; exfalso;
      try (apply Nat.eqb_eq in E; subst w; rewrite Hget in Hc;
           inversion Hc; subst client; inversion H; subst c'; simpl in *);
      congruence. }
  destruct (String.eqb (type msg) "join-response" && isHost client) eqn:Ejs.
  { apply andb_true_iff in Ejs. destruct Ejs as [Et Eh].
    apply String.eqb_eq in Et.
    unfold handleJoinResponse.
    destruct (m_userId msg) as [t|] eqn:Hu;
      [|cbn [fst]; intros H [Hd|(_ & H1 & H2)]; exfalso; congruence].
    destruct (pendingApprovals room !! t) as [tw|] eqn:Hp;
      [|cbn [fst]; intros H [Hd|(_ & H1 & H2)]; exfalso; congruence].
    destruct (mapGet tw (clients room)) as [tc|] eqn:Htc;
      [|cbn [fst clients]; intros H [Hd|(_ & H1 & H2)]; exfalso; congruence].
    cbn [fst clients]. rewrite mapGet_mapSet.
    destruct (Nat.eqb tw w) eqn:E.
    - apply Nat.eqb_eq in E. subst tw. rewrite Hc in Htc. inversion Htc. subst tc.
      intros H _. inversion H. subst c'. cbn [approved permission].
      exists client, msg, t. repeat split; auto.
    - intros H [Hd|(_ & H1 & H2)]; exfalso; congruence. }
  destruct (String.eqb (type msg) "kick" && isHost client);
    [cbn [fst]; intros H [Hd|(_ & H1 & H2)]; exfalso; congruence|].
  destruct (String.eqb (type msg) "file-op"
            && String.eqb (permission client) "read-only");
    [cbn [fst]; intros H [Hd|(_ & H1 & H2)]; exfalso; congruence|].
  destruct (negb (approved client));
    [cbn [fst]; intros H [Hd|(_ & H1 & H2)]; exfalso; congruence|].
  destruct (String.eqb (type msg) "summon"
            && negb (bool_decide (m_targetUserId msg = Some "__all__")));
    [cbn [fst]; intros H [Hd|(_ & H1 & H2)]; exfalso; congruence|].
  destruct (String.eqb (type msg) "presence-update");
    [|cbn [fst]; intros H [Hd|(_ & H1 & H2)]; exfalso; congruence].
  cbn [fst clients setClient]. rewrite mapGet_mapSet.
  destruct (Nat.eqb ws w) eqn:E;
    [|intros H [Hd|(_ & H1 & H2)]; exfalso; congruence].
  apply Nat.eqb_eq in E. subst w. rewrite Hget in Hc. inversion Hc. subst client.
  intros H. inversion H. subst c'.
  assert (Hperm : permission (trackPresence sr room c msg) = permission c
                  /\ approved (trackPresence sr room c msg) = approved c).
  { unfold trackPresence.
    destruct (truthy (m_userId msg)), (truthy (m_displayName msg)); auto. }
  destruct Hperm as [Hp1 Hp2].
  intros [Hd|(_ & H1 & H2)]; exfalso; congruence.
Qed.

Lemma privileges_granted_by_host_witness :
  exists sender, mapGet 1 (clients waitingRoom) = Some sender /\ isHost sender = true.
Proof.
  assert (Hd : permission (mkClient "guest-2" "Late" false true "read-only")
               <> permission pendingC) by discriminate.
  destruct (privileges_granted_by_host allOpen (Some approvalRoom) waitingRoom 1
              (frameOf (joinResponseMsg "guest-2" true (Some "read-only"))) 3
              pendingC (mkClient "guest-2" "Late" false true "read-only")
              eq_refl eq_refl (or_introl Hd))
    as (sender & msg & uid & H1 & H2 & _).
  exists sender. split; assumption.
Defined.

End ControlMore.

(** ** More on the CRDT channel *)

Module YjsMore.
Import Persistence Yjs YjsSpec YjsExamples YjsProofs.

Section RoomLevel.
Context {Y : YLib}.

Lemma onAwarenessUpdate_fields rs (st : RoomState) ch o :
  cleanupTimer (fst (onAwarenessUpdate rs st ch o)) = cleanupTimer st
  /\ persistTimer (fst (onAwarenessUpdate rs st ch o)) = persistTimer st
  /\ forall w, Some w <> o ->
       clientAwarenessIds (fst (onAwarenessUpdate rs st ch o)) !! w
       = clientAwarenessIds st !! w.
Proof.
  unfold onAwarenessUpdate. destruct (destroyed st); cbn [fst]; [auto|].
  destruct o as [o|]; cbn; [|auto].
  split; [reflexivity|]. split; [reflexivity|].
  intros w Hw. apply lookup_insert_ne. congruence.
Qed.

Lemma onAwarenessUpdate_grows rs (st : RoomState) ch o S x :
  In x (recordedIds st S) ->
  In x (recordedIds (fst (onAwarenessUpdate rs st ch o)) S).
Proof.
  intros Hx. destruct (destroyed st) eqn:Hd.
  - unfold onAwarenessUpdate. rewrite Hd. exact Hx.
  - apply recordedIds_onAwarenessUpdate; [exact Hd|]. left. exact Hx.
Qed.

(** The fields [handleMessage] leaves alone.  The persist timer is among
    them only because the re-arming done by the replica's update observer
    is carried out by [onMessage], on the flag [handleMessage] returns. *)
Lemma handleMessage_fields rs ws (st : RoomState) data :
  clients (fst (fst (handleMessage rs ws st data))) = clients st
  /\ destroyed (fst (fst (handleMessage rs ws st data))) = destroyed st
  /\ cleanupTimer (fst (fst (handleMessage rs ws st data))) = cleanupTimer st
  /\ persistTimer (fst (fst (handleMessage rs ws st data))) = persistTimer st.
Proof.
  unfold handleMessage.
  destruct (readVarUint data) as [[msgType body]|]; [|cbn; auto].
  destruct (msgType =? messageSync)%Z; [cbn; auto|].
  destruct (msgType =? messageAwareness)%Z.
  { cbv zeta.
    destruct (snd (applyAwarenessUpdate (awareness st) body)) as [ch|];
      cbn [fst snd]; [|cbn; auto].
    set (st1 := setAwareness st (fst (applyAwarenessUpdate (awareness st) body))).
    destruct (onAwarenessUpdate_keeps rs st1 ch (Some ws)) as (_ & Hc & Hd & _).
    destruct (onAwarenessUpdate_fields rs st1 ch (Some ws)) as (Ht1 & Ht2 & _).
    rewrite Hc, Hd, Ht1, Ht2. auto. }
  destruct (msgType =? messageFileOp)%Z; cbn; auto.
Qed.

(** [handleMessage] leaves the awareness ids recorded for the other
    sockets as they are and only adds to those of the sender. *)
Lemma handleMessage_index rs ws (st : RoomState) data :
  (forall w, w <> ws ->
     clientAwarenessIds (fst (fst (handleMessage rs ws st data))) !! w
     = clientAwarenessIds st !! w)
  /\ (forall x, In x (recordedIds st ws) ->
        In x (recordedIds (fst (fst (handleMessage rs ws st data))) ws)).
Proof.
  unfold handleMessage.
  destruct (readVarUint data) as [[msgType body]|]; [|cbn; auto].
  destruct (msgType =? messageSync)%Z; [cbn; auto|].
  destruct (msgType =? messageAwareness)%Z.
  { cbv zeta.
    destruct (snd (applyAwarenessUpdate (awareness st) body)) as [ch|];
      cbn [fst snd]; [|cbn; auto].
    set (st1 := setAwareness st (fst (applyAwarenessUpdate (awareness st) body))).
    destruct (onAwarenessUpdate_fields rs st1 ch (Some ws)) as (_ & _ & Hidx).
    split.
    - intros w Hw. rewrite Hidx by congruence. reflexivity.
    - intros x Hx. apply onAwarenessUpdate_grows. exact Hx. }
  destruct (msgType =? messageFileOp)%Z; cbn; auto.
Qed.

Lemma setDelete_In ws (cs : list WebSocket) w :
  In w (setDelete Nat.eqb ws cs) <-> In w cs /\ w <> ws.
Proof.
  unfold setDelete. rewrite filter_In, negb_true_iff, Nat.eqb_neq.
  split; intros [H1 H2]; split; auto.
Qed.

Lemma setDelete_absent ws (cs : list WebSocket) :
  ~ In ws cs -> setDelete Nat.eqb ws cs = cs.
Proof.
  unfold setDelete. induction cs as [|c cs IH]; intros Hn; simpl; [reflexivity|].
  destruct (Nat.eqb ws c) eqn:E.
  - apply Nat.eqb_eq in E. subst c. exfalso. apply Hn. left. reflexivity.
  - simpl. f_equal. apply IH. intros H. apply Hn. right. exact H.
Qed.

Lemma setAdd_absent ws (cs : list WebSocket) :
  ~ In ws cs -> setAdd Nat.eqb ws cs = (cs ++ [ws])%list.
Proof.
  intros Hn. unfold setAdd.
  destruct (existsb (Nat.eqb ws) cs) eqn:E; [|reflexivity].
  apply existsb_exists in E. destruct E as [y [Hy Heq]].
  apply Nat.eqb_eq in Heq. subst y. contradiction.
Qed.

Lemma closeSocket_members rs (st : RoomState) ws w :
  In w (clients (fst (closeSocket rs st ws))) <-> In w (clients st) /\ w <> ws.
Proof.
  unfold closeSocket. cbn [clientAwarenessIds setClients].
  destruct (clientAwarenessIds st !! ws) as [[|i ids]|];
    cbn [fst snd clients doc awareness clientAwarenessIds setClientAwarenessIds
         setClients setAwareness].
  - apply setDelete_In.
  - destruct (snd (removeAwarenessStates (awareness st) (i :: ids)));
      cbn [fst snd clients doc awareness clientAwarenessIds
           setClientAwarenessIds setClients setAwareness].
    + apply setDelete_In.
    + match goal with
      | |- context [onAwarenessUpdate rs ?s ?c None] =>
          destruct (onAwarenessUpdate_keeps rs s c None) as (_ & Hc & _);
          rewrite Hc
      end.
      cbn [clients setAwareness setClients]. apply setDelete_In.
  - apply setDelete_In.
Qed.

(** X14.  When a socket leaves a room state, the attached sockets afterwards
    are the others; the replica and the ids recorded for the other sockets
    are untouched; the socket's own entry in the index is gone; whatever is
    sent is an awareness update to a remaining OPEN socket, never to the one
    that left; and if no awareness id was recorded for the socket, nothing
    is sent and the awareness object is not touched. *)
Theorem close_leaves_room rs (st : RoomState) ws :
  (forall w, In w (clients (fst (closeSocket rs st ws)))
             <-> In w (clients st) /\ w <> ws)
  /\ doc (fst (closeSocket rs st ws)) = doc st
  /\ clientAwarenessIds (fst (closeSocket rs st ws))
     = delete ws (clientAwarenessIds st)
  /\ (forall w p, In (Send w p) (snd (closeSocket rs st ws)) ->
        w <> ws /\ In w (clients st) /\ rs w = OPEN
        /\ exists u, p = AwarenessMsg u)
  /\ (recordedIds st ws = [] ->
      snd (closeSocket rs st ws) = []
      /\ awareness (fst (closeSocket rs st ws)) = awareness st).
Proof.
  unfold closeSocket, recordedIds. cbn [clientAwarenessIds setClients].
  destruct (clientAwarenessIds st !! ws) as [[|i ids]|] eqn:Hidx;
    cbn [fst snd clients doc awareness clientAwarenessIds setClientAwarenessIds
         setClients setAwareness].
  - split; [intros w; apply setDelete_In|]. split; [reflexivity|].
    split; [reflexivity|]. split; [intros w p H; simpl in H; contradiction|]. auto.
  - set (st1 := setClients st (setDelete Nat.eqb ws (clients st))).
    set (rm := removeAwarenessStates (awareness st) (i :: ids)).
    destruct (snd rm) as [|g gone] eqn:Hg;
      cbn [fst snd clients doc awareness clientAwarenessIds setClientAwarenessIds
           setClients setAwareness].
    + split; [intros w; apply setDelete_In|]. split; [reflexivity|].
      split; [reflexivity|]. split; [intros w p H; simpl in H; contradiction|]. discriminate.
    + match goal with
      | |- context [onAwarenessUpdate rs ?s ?c None] =>
          destruct (onAwarenessUpdate_keeps rs s c None) as (_ & Hc & _ & Hd);
          pose proof (onAwarenessUpdate_fields rs s c None) as (_ & _ & Hi);
          set (upd := onAwarenessUpdate rs s c None) in *
      end.
      cbn [clients doc setAwareness setClients] in Hc, Hd.
      split; [intros w; rewrite Hc; apply setDelete_In|].
      split; [exact Hd|].
      split.
      { apply map_eq. intros w. destruct (decide (w = ws)) as [->|Hne].
        - rewrite !lookup_delete_eq. reflexivity.
        - rewrite !lookup_delete_ne by congruence.
          rewrite Hi by discriminate. reflexivity. }
      split; [|discriminate].
      intros w p Hin. unfold upd, onAwarenessUpdate, st1 in Hin.
      cbn [destroyed setAwareness setClients clients awareness] in Hin.
      destruct (destroyed st); [simpl in Hin; contradiction|]. cbn [fst snd clients] in Hin.
      apply fanout_recipients in Hin.
      destruct Hin as (-> & Hin & _ & Ho). apply setDelete_In in Hin.
      destruct Hin as [Hin Hne]. repeat split; eauto.
  - split; [intros w; apply setDelete_In|]. split; [reflexivity|].
    split; [reflexivity|]. split; [intros w p H; simpl in H; contradiction|]. auto.
Qed.

(** X15.  A socket that attaches to a room state and leaves again without
    having had an awareness id recorded leaves no trace: the room state is
    what it was before the socket came, and its leaving sends nothing. *)
Theorem attach_close_round_trip rs (st : RoomState) ws :
  ~ In ws (clients st) ->
  clientAwarenessIds st !! ws = None ->
  closeSocket rs (fst (attach st ws)) ws = (st, []).
Proof.
  intros Hn Hidx. unfold closeSocket, attach.
  cbn [fst snd clients clientAwarenessIds setClients].
  rewrite Hidx. cbn [fst snd setClientAwarenessIds setClients clients doc
                     awareness clientAwarenessIds cleanupTimer persistTimer
                     destroyed].
  rewrite (setAdd_absent ws (clients st) Hn).
  rewrite delete_id by exact Hidx.
  assert (Hc : setDelete Nat.eqb ws (clients st ++ [ws]) = clients st).
  { unfold setDelete. rewrite List.filter_app. simpl. rewrite Nat.eqb_refl. simpl.
    rewrite app_nil_r. apply setDelete_absent. exact Hn. }
  rewrite Hc. destruct st; reflexivity.
Qed.

(** X30.  Once a room state is destroyed its replica and awareness object
    have no observers left: a frame sent to it never arms the persist
    timer, records no awareness id, and nothing is sent except the sync
    reply to the sender itself and the verbatim relay of a file-operation
    frame to the other sockets.  Updates and awareness changes reach
    nobody. *)
Theorem destroyed_room_is_mute rs ws (st : RoomState) data :
  destroyed st = true ->
  snd (handleMessage rs ws st data) = false
  /\ clientAwarenessIds (fst (fst (handleMessage rs ws st data)))
     = clientAwarenessIds st
  /\ forall w p,
       In (Send w p) (snd (fst (handleMessage rs ws st data))) ->
       (w = ws /\ exists r, p = SyncReply r)
       \/ (w <> ws /\ p = Raw data
           /\ exists body, readVarUint data = Some (messageFileOp, body)).
Proof.
  intros Hd. unfold handleMessage.
  destruct (readVarUint data) as [[msgType body]|];
    [|cbn; split; [reflexivity|split; [reflexivity|intros w p []]]].
  destruct (msgType =? messageSync)%Z.
  { cbv zeta. cbn [fst snd]. split; [|split; [reflexivity|]].
    - destruct (snd (readSyncMessage body (doc st))); [|reflexivity].
      rewrite Hd. reflexivity.
    - intros w p Hin. apply in_app_or in Hin. destruct Hin as [Hin|Hin].
      + destruct (snd (readSyncMessage body (doc st))); [|destruct Hin].
        unfold onDocUpdate in Hin. cbn [destroyed setDoc] in Hin.
        rewrite Hd in Hin. destruct Hin.
      + destruct (snd (fst (readSyncMessage body (doc st)))); [destruct Hin|].
        destruct Hin as [Hin|[]]. inversion Hin. left. eauto. }
  destruct (msgType =? messageAwareness)%Z.
  { cbv zeta.
    destruct (snd (applyAwarenessUpdate (awareness st) body)) as [ch|];
      cbn [fst snd];
      [|cbn; split; [reflexivity|split; [reflexivity|intros w p []]]].
    unfold onAwarenessUpdate. cbn [destroyed setAwareness]. rewrite Hd.
    cbn. split; [reflexivity|split; [reflexivity|intros w p []]]. }
  destruct (msgType =? messageFileOp)%Z eqn:E2; cbn [fst snd];
    [|cbn; split; [reflexivity|split; [reflexivity|intros w p []]]].
  apply Z.eqb_eq in E2. subst msgType.
  split; [reflexivity|]. split; [reflexivity|].
  intros w p Hin. apply fanout_recipients in Hin.
  destruct Hin as (-> & _ & Hne & _). right.
  split; [congruence|]. split; [reflexivity|]. eauto.
Qed.

End RoomLevel.

Lemma destroyed_room_is_mute_witness :
  snd (handleMessage (Y := Toy.lib) allOpen 11
         (setDestroyed twoClients) [0; 2; 42]%Z) = false.
Proof.
  exact (proj1 (destroyed_room_is_mute (Y := Toy.lib) allOpen 11
                  (setDestroyed twoClients) [0; 2; 42]%Z eq_refl)).
Defined.

Lemma attach_close_round_trip_witness :
  closeSocket allOpen (fst (attach (Y := Toy.lib) twoClients 13)) 13
  = (twoClients, []).
Proof.
  apply (attach_close_round_trip (Y := Toy.lib) allOpen twoClients 13).
  - simpl. intros [H|[H|[]]]; discriminate.
  - reflexivity.
Defined.

(** *** Timers and attached sockets along every run *)

Section Timers.
Context {Y : YLib}.
Import YjsTimers.

Ltac wsimpl :=
  cbn [heap conn timers next now setHeap setConn setTimers setNext setNow
       setTimeout clearTimeout fst snd].

Lemma Wf_initial : Wf initial.
Proof.
  split; simpl.
  - intros sid [x H]. rewrite lookup_empty in H. discriminate.
  - intros ws name sid H. rewrite lookup_empty in H. discriminate.
  - intros tid t H. rewrite lookup_empty in H. discriminate.
Qed.

(** Only the heap, the connections, the timers and the id counter matter. *)
Lemma Wf_frame w w' :
  Wf w ->
  heap w' = heap w -> conn w' = conn w -> timers w' = timers w ->
  next w <= next w' ->
  Wf w'.
Proof.
  intros [Hh Hc Ht] Eh Ec Et Hn. split; rewrite ?Eh, ?Ec, ?Et; auto.
  intros sid H. specialize (Hh sid H). lia.
Qed.

Lemma Wf_delete_timer w tid :
  Wf w -> Wf (setTimers w (delete tid (timers w))).
Proof.
  intros [Hh Hc Ht]. split; simpl; auto.
  intros tid' t H. apply lookup_delete_Some in H. destruct H as [_ H]. auto.
Qed.

Lemma Wf_clearTimeout w t : Wf w -> Wf (clearTimeout w t).
Proof.
  intros HW. destruct t as [tid|]; simpl; [apply Wf_delete_timer|]; exact HW.
Qed.

Lemma timerOk_update h sid (st st' : RoomState) tid t :
  h !! sid = Some st ->
  clients st' = clients st ->
  cleanupTimer st' = cleanupTimer st ->
  persistTimer st' = persistTimer st ->
  timerOk h tid t -> timerOk (<[sid := st']> h) tid t.
Proof.
  intros Hst Hc Hct Hpt. unfold timerOk.
  destruct (action t) as [name s|name s].
  - intros (x & Hx & H1 & H2). destruct (decide (sid = s)) as [->|Hne].
    + exists st'. rewrite lookup_insert_eq. rewrite Hst in Hx. inversion Hx. subst x.
      rewrite Hc, Hct. auto.
    + exists x. rewrite lookup_insert_ne by exact Hne. auto.
  - intros (x & Hx & H1). destruct (decide (sid = s)) as [->|Hne].
    + exists st'. rewrite lookup_insert_eq. rewrite Hst in Hx. inversion Hx. subst x.
      rewrite Hpt. auto.
    + exists x. rewrite lookup_insert_ne by exact Hne. auto.
Qed.

(** A room state is replaced by one with the same sockets and timers. *)
Lemma Wf_update w sid (st st' : RoomState) :
  Wf w -> heap w !! sid = Some st ->
  clients st' = clients st ->
  cleanupTimer st' = cleanupTimer st ->
  persistTimer st' = persistTimer st ->
  Wf (setHeap w (<[sid := st']> (heap w))).
Proof.
  intros [Hh Hc Ht] Hst E1 E2 E3. split; simpl.
  - intros s H. apply Hh. destruct (decide (sid = s)) as [->|Hne].
    + rewrite Hst. eauto.
    + rewrite lookup_insert_ne in H by exact Hne. exact H.
  - intros ws name s H. destruct (Hc ws name s H) as (x & Hx & Hin).
    destruct (decide (sid = s)) as [->|Hne].
    + exists st'. rewrite lookup_insert_eq. rewrite Hst in Hx. inversion Hx. subst x.
      rewrite E1. auto.
    + exists x. rewrite lookup_insert_ne by exact Hne. auto.
  - intros tid t H. eapply timerOk_update; eauto.
Qed.

Lemma noCleanup_of_member w sid (st : RoomState) ws :
  Wf w -> heap w !! sid = Some st -> In ws (clients st) -> noCleanup w sid.
Proof.
  intros [_ _ Ht] Hst Hin tid t H Hc E. specialize (Ht tid t H).
  unfold timerOk, isCleanup, timerState in *.
  destruct (action t) as [name s|name s]; [|discriminate].
  subst s. destruct Ht as (x & Hx & Hnil & _).
  rewrite Hst in Hx. inversion Hx. subst x. rewrite Hnil in Hin. destruct Hin.
Qed.

Lemma setAdd_member ws (cs : list WebSocket) w :
  In w (setAdd Nat.eqb ws cs) <-> In w cs \/ w = ws.
Proof.
  unfold setAdd. destruct (existsb (Nat.eqb ws) cs) eqn:E.
  - split; [auto|]. intros [H| ->]; [exact H|].
    apply existsb_exists in E. destruct E as [y [Hy Heq]].
    apply Nat.eqb_eq in Heq. subst. exact Hy.
  - rewrite in_app_iff. simpl. intuition.
Qed.

Lemma Wf_attachWs w ws name sid :
  Wf w -> noCleanup w sid ->
  Wf (fst (attachWs w ws name sid)) /\ noCleanup (fst (attachWs w ws name sid)) sid.
Proof.
  intros HW Hno. unfold attachWs.
  destruct (heap w !! sid) as [st|] eqn:Hst; [|auto].
  cbn [fst]. split; [|exact Hno].
  destruct HW as [Hh Hc Ht]. split; simpl.
  - intros s H. apply Hh. destruct (decide (sid = s)) as [->|Hne].
    + rewrite Hst. eauto.
    + rewrite lookup_insert_ne in H by exact Hne. exact H.
  - intros ws' name' s H. destruct (decide (ws = ws')) as [->|Hne].
    + rewrite lookup_insert_eq in H. inversion H. subst.
      eexists. rewrite lookup_insert_eq. split; [reflexivity|].
      simpl. apply setAdd_member. right. reflexivity.
    + rewrite lookup_insert_ne in H by exact Hne.
      destruct (Hc ws' name' s H) as (x & Hx & Hin).
      destruct (decide (sid = s)) as [->|Hs].
      * eexists. rewrite lookup_insert_eq. split; [reflexivity|].
        rewrite Hst in Hx. inversion Hx. subst x.
        simpl. apply setAdd_member. left. exact Hin.
      * exists x. rewrite lookup_insert_ne by exact Hs. auto.
  - intros tid t H. specialize (Ht tid t H). specialize (Hno tid t H).
    unfold timerOk, isCleanup, timerState in *.
    destruct (action t) as [nm s|nm s].
    + destruct Ht as (x & Hx & H1 & H2).
      assert (Hs : sid <> s) by (intros ->; apply Hno; reflexivity).
      exists x. rewrite lookup_insert_ne by exact Hs. auto.
    + destruct Ht as (x & Hx & H1). destruct (decide (sid = s)) as [->|Hs].
      * eexists. rewrite lookup_insert_eq. split; [reflexivity|].
        rewrite Hst in Hx. inversion Hx. subst x. exact H1.
      * exists x. rewrite lookup_insert_ne by exact Hs. auto.
Qed.

Lemma Wf_resume sid pid l : forall w,
  Wf w -> noCleanup w sid -> Wf (fst (resume w sid pid l)).
Proof.
  induction l as [|[[s name] p] l IH]; intros w HW Hno; simpl; [exact HW|].
  destruct (Nat.eqb p pid); [|apply IH; assumption].
  simpl. destruct (Wf_attachWs w s name sid HW Hno) as [HW' Hno'].
  apply IH; assumption.
Qed.

Lemma Wf_onConnection w ws name :
  Wf w -> Wf (fst (onConnection w ws name)).
Proof.
  intros HW. unfold onConnection, getOrCreateRoom.
  destruct (roomStates w !! name) as [sid|].
  - destruct (heap w !! sid) as [existing|] eqn:Hst.
    + destruct (cleanupTimer existing) as [t|] eqn:Hct; cbn [fst snd].
      * assert (HW1 : Wf (setHeap (clearTimeout w (Some t))
                            (<[sid := setCleanupTimer existing None]> (heap w)))
                      /\ noCleanup (setHeap (clearTimeout w (Some t))
                            (<[sid := setCleanupTimer existing None]> (heap w))) sid).
        { destruct HW as [Hh Hc Ht]. split; [split; simpl|].
          - intros s H. apply Hh. destruct (decide (sid = s)) as [->|Hne].
            + rewrite Hst. eauto.
            + rewrite lookup_insert_ne in H by exact Hne. exact H.
          - intros ws' name' s H. destruct (Hc ws' name' s H) as (x & Hx & Hin).
            destruct (decide (sid = s)) as [->|Hne].
            + eexists. rewrite lookup_insert_eq. split; [reflexivity|].
              rewrite Hst in Hx. inversion Hx. subst x. exact Hin.
            + exists x. rewrite lookup_insert_ne by exact Hne. auto.
          - intros tid tm H. apply lookup_delete_Some in H. destruct H as [Hne H].
            specialize (Ht tid tm H). unfold timerOk in *.
            destruct (action tm) as [nm s|nm s].
            + destruct Ht as (x & Hx & H1 & H2).
              destruct (decide (sid = s)) as [->|Hs].
              * rewrite Hst in Hx. inversion Hx. subst x. congruence.
              * exists x. rewrite lookup_insert_ne by exact Hs. auto.
            + destruct Ht as (x & Hx & H1).
              destruct (decide (sid = s)) as [->|Hs].
              * eexists. rewrite lookup_insert_eq. split; [reflexivity|].
                rewrite Hst in Hx. inversion Hx. subst x. exact H1.
              * exists x. rewrite lookup_insert_ne by exact Hs. auto.
          - intros tid tm H Hc' E. simpl in H.
            apply lookup_delete_Some in H. destruct H as [Hne H].
            specialize (Ht tid tm H). unfold timerOk, isCleanup, timerState in *.
            destruct (action tm) as [nm s|nm s]; [|discriminate].
            subst s. destruct Ht as (x & Hx & H1 & H2).
            rewrite Hst in Hx. inversion Hx. subst x. congruence. }
        destruct HW1 as [HW1 Hno1].
        apply (Wf_attachWs _ ws name sid HW1 Hno1).
      * assert (Hno : noCleanup w sid).
        { destruct HW as [_ _ Ht]. intros tid tm H Hc' E.
          specialize (Ht tid tm H). unfold timerOk, isCleanup, timerState in *.
          destruct (action tm) as [nm s|nm s]; [|discriminate].
          subst s. destruct Ht as (x & Hx & H1 & H2).
          rewrite Hst in Hx. inversion Hx. subst x. congruence. }
        apply (Wf_attachWs _ ws name sid HW Hno).
    + cbn [fst snd]. unfold attachWs. rewrite Hst. exact HW.
  - destruct (pendingRooms w !! name) as [pending|]; cbn [fst snd].
    + eapply Wf_frame; [exact HW|..]; simpl; auto.
    + eapply Wf_frame; [exact HW|..]; simpl; auto.
Qed.

Lemma Wf_rejectCreation w pid : Wf w -> Wf (rejectCreation w pid).
Proof.
  intros HW. unfold rejectCreation. destruct (creating w !! pid); [|exact HW].
  eapply Wf_frame; [exact HW|..]; simpl; auto.
Qed.

Lemma Wf_onLoadDone w pid : Wf w -> Wf (fst (onLoadDone w pid)).
Proof.
  intros HW. unfold onLoadDone.
  destruct (creating w !! pid) as [c|]; [|exact HW].
  destruct (loadDoc (db w) (c_roomId c) (c_doc c)) as [d|];
    [|apply Wf_rejectCreation; exact HW].
  cbv zeta. cbn [fst].
  match goal with
  | |- Wf (setWaiting (fst (resume ?w1 ?sid ?p ?l)) _) =>
      assert (H1 : Wf w1 /\ noCleanup w1 sid)
  end.
  { destruct HW as [Hh Hc Ht].
    assert (Hfresh : heap w !! next w = None).
    { destruct (heap w !! next w) eqn:E; [|reflexivity].
      assert (next w < next w) by (apply Hh; eauto). lia. }
    split; [split; simpl|].
    - intros s H. destruct (decide (next w = s)) as [<-|Hne]; [lia|].
      rewrite lookup_insert_ne in H by exact Hne. specialize (Hh s H). lia.
    - intros ws name s H. destruct (Hc ws name s H) as (x & Hx & Hin).
      exists x. rewrite lookup_insert_ne; [auto|]. intros <-. congruence.
    - intros tid t H. specialize (Ht tid t H). unfold timerOk in *.
      destruct (action t) as [nm s|nm s].
      + destruct Ht as (x & Hx & H1 & H2). exists x.
        rewrite lookup_insert_ne; [auto|]. intros <-. congruence.
      + destruct Ht as (x & Hx & H1). exists x.
        rewrite lookup_insert_ne; [auto|]. intros <-. congruence.
    - intros tid t H Hc' E. simpl in H. specialize (Ht tid t H).
      unfold timerOk, isCleanup, timerState in *.
      destruct (action t) as [nm s|nm s]; [|discriminate].
      subst s. destruct Ht as (x & Hx & _). congruence. }
  destruct H1 as [HW1 Hno1].
  eapply Wf_frame; [eapply Wf_resume; [exact HW1|exact Hno1]|..]; simpl; auto.
Qed.

Lemma closeSocket_fields rs (st : RoomState) ws :
  cleanupTimer (fst (closeSocket rs st ws)) = cleanupTimer st
  /\ persistTimer (fst (closeSocket rs st ws)) = persistTimer st.
Proof.
  unfold closeSocket. cbn [clientAwarenessIds setClients].
  destruct (clientAwarenessIds st !! ws) as [[|i ids]|]; cbn; auto.
  destruct (snd (removeAwarenessStates (awareness st) (i :: ids))); cbn; auto.
  match goal with
  | |- context [onAwarenessUpdate rs ?s ?c None] =>
      destruct (onAwarenessUpdate_fields rs s c None) as (H1 & H2 & _);
      rewrite H1, H2
  end.
  auto.
Qed.

Lemma Wf_onMessage rs w ws data : Wf w -> Wf (fst (onMessage rs w ws data)).
Proof.
  intros HW. unfold onMessage.
  destruct (conn w !! ws) as [[roomId sid]|]; [|exact HW].
  destruct (heap w !! sid) as [st|] eqn:Hst; [|exact HW].
  destruct (handleMessage_fields rs ws st data) as (Ec & _ & Ect & Ept).
  destruct (handleMessage rs ws st data) as [[st1 eff] [|]]; cbn [fst snd] in *.
  - destruct HW as [Hh Hc Ht].
    assert (Htm : forall tid t,
               timers (clearTimeout w (persistTimer st1)) !! tid = Some t ->
               timers w !! tid = Some t /\ persistTimer st <> Some tid).
    { intros tid t H. rewrite Ept in *. destruct (persistTimer st) as [pt|]; simpl in H.
      - apply lookup_delete_Some in H. destruct H as [Hne H]. split; [exact H|congruence].
      - split; [exact H|discriminate]. }
    assert (En : next (clearTimeout w (persistTimer st1)) = next w).
    { destruct (persistTimer st1); reflexivity. }
    assert (Eh : heap (clearTimeout w (persistTimer st1)) = heap w).
    { destruct (persistTimer st1); reflexivity. }
    assert (Econ : conn (clearTimeout w (persistTimer st1)) = conn w).
    { destruct (persistTimer st1); reflexivity. }
    split; simpl; rewrite ?En, ?Eh, ?Econ.
    + intros s H. destruct (decide (sid = s)) as [->|Hne].
      * assert (s < next w) by (apply Hh; rewrite Hst; eauto). lia.
      * rewrite lookup_insert_ne in H by exact Hne. specialize (Hh s H). lia.
    + intros ws' name s H. destruct (Hc ws' name s H) as (x & Hx & Hin).
      destruct (decide (sid = s)) as [->|Hne].
      * eexists. rewrite lookup_insert_eq. split; [reflexivity|].
        rewrite Hst in Hx. inversion Hx. subst x. simpl. rewrite Ec. exact Hin.
      * exists x. rewrite lookup_insert_ne by exact Hne. auto.
    + intros tid t H. destruct (decide (next w = tid)) as [<-|Hne].
      * rewrite lookup_insert_eq in H. inversion H. subst t. unfold timerOk. simpl.
        eexists. rewrite lookup_insert_eq. split; reflexivity.
      * rewrite lookup_insert_ne in H by exact Hne.
        destruct (Htm tid t H) as [H0 Hnp]. specialize (Ht tid t H0).
        unfold timerOk in *. destruct (action t) as [nm s|nm s].
        -- destruct Ht as (x & Hx & H1 & H2).
           destruct (decide (sid = s)) as [->|Hs].
           ++ eexists. rewrite lookup_insert_eq. split; [reflexivity|].
              rewrite Hst in Hx. inversion Hx. subst x. simpl.
              rewrite Ec, Ect. auto.
           ++ exists x. rewrite lookup_insert_ne by exact Hs. auto.
        -- destruct Ht as (x & Hx & H1).
           destruct (decide (sid = s)) as [->|Hs].
           ++ rewrite Hst in Hx. inversion Hx. subst x. congruence.
           ++ exists x. rewrite lookup_insert_ne by exact Hs. auto.
  - eapply Wf_update; eauto.
Qed.

Lemma Wf_onClose rs w ws : Wf w -> Wf (fst (onClose rs w ws)).
Proof.
  intros HW. unfold onClose.
  destruct (conn w !! ws) as [[roomId sid]|] eqn:Hconn; [|exact HW].
  destruct (heap w !! sid) as [st|] eqn:Hst; [|exact HW].
  destruct (closeSocket_fields rs st ws) as [Ect Ept].
  assert (Hws : In ws (clients st)).
  { destruct (wf_conn w HW ws roomId sid Hconn) as (x & Hx & Hin).
    rewrite Hst in Hx. inversion Hx. subst x. exact Hin. }
  assert (Hno : noCleanup w sid) by (eapply noCleanup_of_member; eauto).
  destruct HW as [Hh Hc Ht].
  assert (Hold : forall tid t, timers w !! tid = Some t ->
            forall st', persistTimer st' = persistTimer st ->
            timerState t <> sid \/ isCleanup t = false ->
            timerOk (<[sid := st']> (heap w)) tid t).
  { intros tid t H st' Ep Hd. specialize (Ht tid t H). specialize (Hno tid t H).
    unfold timerOk, isCleanup, timerState in *.
    destruct (action t) as [nm s|nm s].
    - destruct Ht as (x & Hx & H1 & H2).
      assert (Hs : sid <> s) by (intros ->; apply Hno; reflexivity).
      exists x. rewrite lookup_insert_ne by exact Hs. auto.
    - destruct Ht as (x & Hx & H1). destruct (decide (sid = s)) as [->|Hs].
      + eexists. rewrite lookup_insert_eq. split; [reflexivity|].
        rewrite Hst in Hx. inversion Hx. subst x. congruence.
      + exists x. rewrite lookup_insert_ne by exact Hs. auto. }
  assert (Hkind : forall tid t, timers w !! tid = Some t ->
            timerState t <> sid \/ isCleanup t = false).
  { intros tid t H. specialize (Hno tid t H).
    destruct (isCleanup t); [left; apply Hno; reflexivity|right; reflexivity]. }
  destruct (clients (fst (closeSocket rs st ws))) as [|c0 cs] eqn:Hcl; cbn [fst snd];
    pose proof (closeSocket_members rs st ws) as Hmem.
  - split; wsimpl.
    + intros s H. destruct (decide (sid = s)) as [->|Hne].
      * assert (s < next w) by (apply Hh; rewrite Hst; eauto). lia.
      * rewrite lookup_insert_ne in H by exact Hne. specialize (Hh s H). lia.
    + intros ws' name s H. apply lookup_delete_Some in H. destruct H as [Hne H].
      destruct (Hc ws' name s H) as (x & Hx & Hin).
      destruct (decide (sid = s)) as [->|Hs].
      * exfalso. rewrite Hst in Hx. inversion Hx. subst x.
        assert (Hin' : In ws' (clients (fst (closeSocket rs st ws)))).
        { apply Hmem. split; [exact Hin|congruence]. }
        rewrite Hcl in Hin'. destruct Hin'.
      * exists x. rewrite lookup_insert_ne by exact Hs. auto.
    + intros tid t H. destruct (decide (next w = tid)) as [<-|Hne].
      * rewrite lookup_insert_eq in H. inversion H. subst t.
        unfold timerOk. cbn [action].
        eexists. rewrite lookup_insert_eq. split; [reflexivity|].
        cbn [clients cleanupTimer setCleanupTimer]. rewrite Hcl. auto.
      * rewrite lookup_insert_ne in H by exact Hne.
        apply (Hold tid t H); [cbn [persistTimer setCleanupTimer]; exact Ept|apply (Hkind tid t H)].
  - split; wsimpl.
    + intros s H. destruct (decide (sid = s)) as [->|Hne].
      * apply Hh. rewrite Hst. eauto.
      * rewrite lookup_insert_ne in H by exact Hne. auto.
    + intros ws' name s H. apply lookup_delete_Some in H. destruct H as [Hne H].
      destruct (Hc ws' name s H) as (x & Hx & Hin).
      destruct (decide (sid = s)) as [->|Hs].
      * eexists. rewrite lookup_insert_eq. split; [reflexivity|].
        rewrite Hst in Hx. inversion Hx. subst x.
        apply Hmem. split; [exact Hin|congruence].
      * exists x. rewrite lookup_insert_ne by exact Hs. auto.
    + intros tid t H. apply (Hold tid t H); [exact Ept|apply (Hkind tid t H)].
Qed.

Lemma Wf_startPersist w roomId d k : Wf w -> Wf (startPersist w roomId d k).
Proof.
  intros HW. eapply Wf_frame; [exact HW|..]; simpl; auto.
Qed.

Lemma Wf_onTimer w tid : Wf w -> Wf (fst (onTimer w tid)).
Proof.
  intros HW. unfold onTimer.
  destruct (timers w !! tid) as [t|]; [|exact HW].
  destruct (N.leb (deadline t) (now w)); [|exact HW].
  pose proof (Wf_delete_timer w tid HW) as HW1.
  destruct (action t) as [roomId sid|roomId sid].
  - destruct (heap (setTimers w (delete tid (timers w))) !! sid) as [st|];
      [|exact HW1].
    destruct (clients st); [|exact HW1]. cbn [fst]. unfold cleanupRoom.
    apply Wf_startPersist, Wf_clearTimeout. exact HW1.
  - destruct (heap (setTimers w (delete tid (timers w))) !! sid) as [st|];
      [|exact HW1].
    cbn [fst]. apply Wf_startPersist. exact HW1.
Qed.

Lemma Wf_finishCleanup rs w roomId sid :
  Wf w -> Wf (fst (finishCleanup rs w roomId sid)).
Proof.
  intros HW. unfold finishCleanup.
  destruct (heap w !! sid) as [st|] eqn:Hst; [|exact HW].
  cbv zeta. cbn [fst].
  match goal with
  | |- Wf (setRoomStates (setHeap w (<[sid := ?st']> (heap w))) ?r) =>
      assert (H : Wf (setHeap w (<[sid := st']> (heap w))))
  end.
  { eapply Wf_update; [exact HW|exact Hst|..];
      destruct (snd (removeAwarenessStates (awareness st) (getStates (awareness st))));
      cbn [fst setDestroyed clients cleanupTimer persistTimer setAwareness];
      try reflexivity;
      match goal with
      | |- context [onAwarenessUpdate rs ?s ?c None] =>
          destruct (onAwarenessUpdate_keeps rs s c None) as (_ & Hc & _);
          destruct (onAwarenessUpdate_fields rs s c None) as (H1 & H2 & _);
          rewrite ?Hc, ?H1, ?H2
      end; reflexivity. }
  eapply Wf_frame; [exact H|..]; simpl; auto.
Qed.

Lemma Wf_onPutDone rs w op : Wf w -> Wf (fst (onPutDone rs w op)).
Proof.
  intros HW. unfold onPutDone.
  destruct (io w !! op) as [[key value k]|]; [|exact HW].
  assert (H : Wf (setIo (setDb w (<[key := value]> (db w))) (delete op (io w)))).
  { eapply Wf_frame; [exact HW|..]; simpl; auto. }
  destruct k as [[roomId sid]|]; [|exact H].
  apply Wf_finishCleanup. exact H.
Qed.

Lemma Wf_step w e : Wf w -> Wf (fst (step w e)).
Proof.
  intros HW. destruct e as [rs [ws name|pid|pid|ws data|ws|dt|tid|op]];
    unfold step; cbn [fst snd].
  - apply Wf_onConnection. exact HW.
  - apply Wf_onLoadDone. exact HW.
  - apply Wf_rejectCreation. exact HW.
  - apply Wf_onMessage. exact HW.
  - apply Wf_onClose. exact HW.
  - eapply Wf_frame; [exact HW|..]; simpl; auto.
  - apply Wf_onTimer. exact HW.
  - apply Wf_onPutDone. exact HW.
Qed.

Lemma Wf_run es : forall w, Wf w -> Wf (run w es).
Proof.
  induction es as [|e es IH]; intros w HW; [exact HW|].
  cbn [run]. apply IH, Wf_step. exact HW.
Qed.

(** X16.  Along every run of the server, every pending idle timer belongs
    to a room state that has no socket attached and no connected socket
    refers to, and is the timer recorded in that state's cleanupTimer
    field; every pending persist timer is the one recorded in its state's
    persistTimer field.  So a room state has at most one idle timer and at
    most one persist timer pending. *)
Theorem timers_follow_rooms es tid t :
  timers (run initial es) !! tid = Some t ->
  (exists st,
      heap (run initial es) !! timerState t = Some st
      /\ (if isCleanup t
          then clients st = [] /\ cleanupTimer st = Some tid
               /\ forall ws name, conn (run initial es) !! ws
                                  <> Some (name, timerState t)
          else persistTimer st = Some tid))
  /\ (forall tid' t',
        timers (run initial es) !! tid' = Some t' ->
        timerState t' = timerState t -> isCleanup t' = isCleanup t ->
        tid' = tid).
Proof.
  pose proof (Wf_run es initial Wf_initial) as HW.
  intros H. pose proof (wf_timer _ HW tid t H) as Ht.
  split.
  - unfold timerOk, timerState, isCleanup in *.
    destruct (action t) as [nm s|nm s].
    + destruct Ht as (st & Hst & H1 & H2). exists st. split; [exact Hst|].
      split; [exact H1|]. split; [exact H2|].
      intros ws name Hc. destruct (wf_conn _ HW ws name s Hc) as (x & Hx & Hin).
      rewrite Hst in Hx. inversion Hx. subst x. rewrite H1 in Hin. destruct Hin.
    + destruct Ht as (st & Hst & H1). exists st. auto.
  - intros tid' t' H' Es Ek. pose proof (wf_timer _ HW tid' t' H') as Ht'.
    unfold timerOk, timerState, isCleanup in *.
    destruct (action t) as [nm s|nm s], (action t') as [nm' s'|nm' s'];
      try discriminate; subst s'.
    + destruct Ht as (st & Hst & _ & H2), Ht' as (st' & Hst' & _ & H2').
      rewrite Hst in Hst'. inversion Hst'. subst st'. congruence.
    + destruct Ht as (st & Hst & H2), Ht' as (st' & Hst' & H2').
      rewrite Hst in Hst'. inversion Hst'. subst st'. congruence.
Qed.

(** X17.  Along every run of the server, a socket whose connection handler
    has attached it and whose close event has not arrived is in the client
    set of the room state its handlers hold. *)
Theorem connected_sockets_are_attached es ws name sid :
  conn (run initial es) !! ws = Some (name, sid) ->
  exists st, heap (run initial es) !! sid = Some st /\ In ws (clients st).
Proof.
  intros H. exact (wf_conn _ (Wf_run es initial Wf_initial) ws name sid H).
Qed.

End Timers.

(** *** Countdowns *)

Section Countdowns.
Context {Y : YLib}.
Import YjsTimers.

Lemma clearTimeout_fields (w : World) t :
  next (clearTimeout w t) = next w /\ now (clearTimeout w t) = now w
  /\ heap (clearTimeout w t) = heap w /\ conn (clearTimeout w t) = conn w.
Proof. destruct t; cbn; auto. Qed.

(** X13.  Whatever frame a socket sends on the CRDT channel, the message
    handler touches the room state of that socket only, and of it the set
    of attached sockets, the destroyed flag and the idle timer stay as they
    are; the persist timer stays as it is unless the replica's update
    observer ran, and is then the timer armed by this frame; the awareness
    ids recorded for every other socket stay as they are, and the ids
    recorded for the sender are only added to. *)
Theorem frame_keeps_membership rs (w : World) ws data name sid st :
  conn w !! ws = Some (name, sid) ->
  heap w !! sid = Some st ->
  conn (fst (onMessage rs w ws data)) = conn w
  /\ roomStates (fst (onMessage rs w ws data)) = roomStates w
  /\ (forall s, s <> sid -> heap (fst (onMessage rs w ws data)) !! s = heap w !! s)
  /\ exists st',
       heap (fst (onMessage rs w ws data)) !! sid = Some st'
       /\ clients st' = clients st
       /\ destroyed st' = destroyed st
       /\ cleanupTimer st' = cleanupTimer st
       /\ (snd (handleMessage rs ws st data) = false ->
           persistTimer st' = persistTimer st)
       /\ (persistTimer st' = persistTimer st \/ persistTimer st' = Some (next w))
       /\ (forall s, s <> ws ->
             clientAwarenessIds st' !! s = clientAwarenessIds st !! s)
       /\ (forall x, In x (recordedIds st ws) -> In x (recordedIds st' ws)).
Proof.
  intros Hc Hh.
  destruct (handleMessage_fields rs ws st data) as (H1 & H2 & H3 & H4).
  destruct (handleMessage_index rs ws st data) as (H5 & H6).
  unfold onMessage. rewrite Hc, Hh.
  destruct (handleMessage rs ws st data) as [[st1 eff] [|]]; cbn [fst snd] in *.
  - destruct (clearTimeout_fields w (persistTimer st1)) as (En & _ & Eh & Ec).
    split; [destruct (persistTimer st1); reflexivity|].
    split; [destruct (persistTimer st1); reflexivity|].
    split.
    { intros s Hs. cbn [heap setHeap setTimeout setNext setTimers fst].
      rewrite lookup_insert_ne by congruence. rewrite Eh. reflexivity. }
    cbn [heap setHeap]. rewrite lookup_insert_eq. eexists.
    split; [reflexivity|].
    cbn [clients destroyed cleanupTimer persistTimer clientAwarenessIds
         setPersistTimer setTimeout snd].
    rewrite En. unfold recordedIds in *. cbn [clientAwarenessIds setPersistTimer].
    split; [exact H1|]. split; [exact H2|]. split; [exact H3|].
    split; [discriminate|]. split; [right; reflexivity|]. split; [exact H5|exact H6].
  - split; [reflexivity|]. split; [reflexivity|].
    split.
    { intros s Hs. cbn [heap setHeap]. rewrite lookup_insert_ne by congruence.
      reflexivity. }
    cbn [heap setHeap]. rewrite lookup_insert_eq. eexists.
    split; [reflexivity|].
    split; [exact H1|]. split; [exact H2|]. split; [exact H3|].
    split; [intros _; exact H4|]. split; [left; exact H4|]. split; [exact H5|exact H6].
Qed.

(** X25.  Each frame that makes the replica emit an update restarts the
    persist countdown of its room: afterwards a persist timer for the room
    is pending that is due 5000 ms after the frame, and it is the only
    persist timer pending for that room state. *)
Theorem update_restarts_persist_countdown es rs ws data name sid st :
  conn (run initial es) !! ws = Some (name, sid) ->
  heap (run initial es) !! sid = Some st ->
  snd (handleMessage rs ws st data) = true ->
  timers (fst (onMessage rs (run initial es) ws data)) !! next (run initial es)
  = Some (mkTimer (now (run initial es) + 5000) (PersistTimer name sid))
  /\ forall tid t,
       timers (fst (onMessage rs (run initial es) ws data)) !! tid = Some t ->
       timerState t = sid -> isCleanup t = false ->
       tid = next (run initial es).
Proof.
  pose proof (Wf_run es initial Wf_initial) as HW.
  set (w := run initial es) in *. intros Hconn Hst Hflag.
  pose proof (Wf_onMessage rs w ws data HW) as HW'.
  assert (E : fst (onMessage rs w ws data)
              = setHeap
                  (fst (setTimeout
                          (clearTimeout w (persistTimer (fst (fst (handleMessage rs ws st data)))))
                          (PersistTimer name sid) 5000%N))
                  (<[sid := setPersistTimer (fst (fst (handleMessage rs ws st data)))
                              (Some (next w))]>
                     (heap w))).
  { unfold onMessage. rewrite Hconn, Hst.
    destruct (handleMessage rs ws st data) as [[st1 eff] b]. cbn [fst snd] in *.
    subst b. cbn [fst snd setTimeout].
    destruct (clearTimeout_fields w (persistTimer st1)) as (En & _ & Eh & _).
    cbn [heap setNext setTimers]. rewrite En, Eh. reflexivity. }
  rewrite E in *. clear E.
  destruct (clearTimeout_fields w (persistTimer (fst (fst (handleMessage rs ws st data)))))
    as (En & Enow & _ & _).
  split.
  - cbn [timers setHeap setTimeout setNext setTimers fst]. rewrite En, Enow.
    apply lookup_insert_eq.
  - intros tid t H Es Ek. pose proof (wf_timer _ HW' tid t H) as Ht.
    unfold timerOk, timerState, isCleanup in *.
    destruct (action t) as [nm s|nm s]; [discriminate|]. subst s.
    destruct Ht as (x & Hx & Hp). cbn [heap setHeap] in Hx.
    rewrite lookup_insert_eq in Hx. inversion Hx. subst x.
    cbn [persistTimer setPersistTimer] in Hp. congruence.
Qed.

Lemma nil_of_no_member {A} (l : list A) : (forall x, ~ In x l) -> l = [].
Proof.
  destruct l as [|a l]; [reflexivity|]. intros H. exfalso. apply (H a). left.
  reflexivity.
Qed.

(** X26.  When the only socket attached to a room state closes, the idle
    countdown starts: an idle timer for the room is pending that is due
    30000 ms after the close, it is the only idle timer pending for that
    room state, and the socket is no longer connected.  When another socket
    is still attached, the close arms no timer. *)
Theorem last_close_starts_idle_countdown es rs ws name sid st :
  conn (run initial es) !! ws = Some (name, sid) ->
  heap (run initial es) !! sid = Some st ->
  ((forall c, In c (clients st) -> c = ws) ->
   timers (fst (onClose rs (run initial es) ws)) !! next (run initial es)
   = Some (mkTimer (now (run initial es) + 30000) (CleanupTimer name sid))
   /\ conn (fst (onClose rs (run initial es) ws)) !! ws = None
   /\ forall tid t,
        timers (fst (onClose rs (run initial es) ws)) !! tid = Some t ->
        timerState t = sid -> isCleanup t = true ->
        tid = next (run initial es))
  /\ ((exists c, In c (clients st) /\ c <> ws) ->
      timers (fst (onClose rs (run initial es) ws)) = timers (run initial es)).
Proof.
  pose proof (Wf_run es initial Wf_initial) as HW.
  set (w := run initial es) in *. intros Hconn Hst.
  pose proof (Wf_onClose rs w ws HW) as HW'.
  pose proof (closeSocket_members rs st ws) as Hmem.
  split.
  - intros Honly.
    assert (Hnil : clients (fst (closeSocket rs st ws)) = []).
    { apply nil_of_no_member. intros x Hx. apply Hmem in Hx.
      destruct Hx as [Hin Hne]. apply Hne, Honly. exact Hin. }
    assert (E : fst (onClose rs w ws)
                = setHeap
                    (fst (setTimeout (setConn w (delete ws (conn w)))
                            (CleanupTimer name sid) 30000%N))
                    (<[sid := setCleanupTimer (fst (closeSocket rs st ws))
                                (Some (next w))]> (heap w))).
    { unfold onClose. rewrite Hconn, Hst, Hnil. reflexivity. }
    rewrite E in *. clear E.
    split; [cbn; apply lookup_insert_eq|].
    split; [cbn; apply lookup_delete_eq|].
    intros tid t H Es Ek. pose proof (wf_timer _ HW' tid t H) as Ht.
    unfold timerOk, timerState, isCleanup in *.
    destruct (action t) as [nm s|nm s]; [|discriminate]. subst s.
    destruct Ht as (x & Hx & _ & Hp). cbn [heap setHeap] in Hx.
    rewrite lookup_insert_eq in Hx. inversion Hx. subst x.
    cbn [cleanupTimer setCleanupTimer] in Hp. congruence.
  - intros (c & Hin & Hne). unfold onClose. rewrite Hconn, Hst.
    destruct (clients (fst (closeSocket rs st ws))) as [|c0 cs] eqn:Hcl.
    + exfalso. assert (Hc : In c (clients (fst (closeSocket rs st ws)))).
      { apply (closeSocket_members rs st ws). auto. }
      rewrite Hcl in Hc. destruct Hc.
    + reflexivity.
Qed.

End Countdowns.

(** *** From idle cleanup to the next connection *)

Section IdleCleanup.
Context {Y : YLib}.
Import YjsTimers.

Lemma attach_keeps (st : RoomState) ws :
  doc (fst (attach st ws)) = doc st
  /\ destroyed (fst (attach st ws)) = destroyed st
  /\ forall x, In x (clients (fst (attach st ws))) <-> In x (clients st) \/ x = ws.
Proof.
  unfold attach. cbn. split; [reflexivity|]. split; [reflexivity|].
  intros x. apply setAdd_member.
Qed.

Lemma resume_heap sid pid l : forall (w : World) st0,
  heap w !! sid = Some st0 ->
  roomStates (fst (resume w sid pid l)) = roomStates w
  /\ exists st1,
       heap (fst (resume w sid pid l)) !! sid = Some st1
       /\ doc st1 = doc st0 /\ destroyed st1 = destroyed st0
       /\ (forall x, In x (clients st0) -> In x (clients st1))
       /\ (forall s name, In (s, name, pid) l -> In s (clients st1)).
Proof.
  induction l as [|[[s name] p] l IH]; intros w st0 Hst; cbn [resume].
  - split; [reflexivity|]. exists st0. cbn. repeat split; auto.
    intros s name [].
  - destruct (Nat.eqb p pid) eqn:Ep.
    + apply Nat.eqb_eq in Ep. subst p. cbn [fst].
      rewrite (attachWs_fst w s name sid st0 Hst).
      destruct (attach_keeps st0 s) as (Hd & Hx & Hc).
      match goal with
      | |- context [resume ?w1 sid pid l] =>
          destruct (IH w1 (fst (attach st0 s))) as (Hr & st1 & H1 & H2 & H3 & H4 & H5);
          [cbn; apply lookup_insert_eq|]
      end.
      split; [rewrite Hr; reflexivity|].
      exists st1. split; [exact H1|]. split; [congruence|]. split; [congruence|].
      split.
      * intros x Hin. apply H4, Hc. left. exact Hin.
      * intros s' name' [Hin|Hin].
        -- inversion Hin. subst. apply H4, Hc. right. reflexivity.
        -- eapply H5. exact Hin.
    + destruct (IH w st0 Hst) as (Hr & st1 & H1 & H2 & H3 & H4 & H5).
      split; [exact Hr|]. exists st1. repeat split; auto.
      intros s' name' [Hin|Hin]; [|eapply H5; exact Hin].
      inversion Hin. subst. rewrite Nat.eqb_refl in Ep. discriminate.
Qed.

Context {L : ReplicaLaws Y}.

(** X27.  A document survives the idle cleanup of its room.  When the idle
    timer of a room state without sockets fires, the replica's full state
    is written to the store under the document's key; when the write lands
    the room state is destroyed and dropped from the room map.  The next
    connection to the same name (no creation being in flight) then builds a
    new room state, and once its load completes the new replica encodes the
    same state as the old one did when the timer fired, the room map points
    to the new room state, and the newcomer is attached to it. *)
Theorem document_survives_idle_cleanup es rs tid t name sid st ws :
  timers (run initial es) !! tid = Some t ->
  action t = CleanupTimer name sid ->
  (deadline t <= now (run initial es))%N ->
  heap (run initial es) !! sid = Some st ->
  clients st = [] ->
  pendingRooms (run initial es) !! name = None ->
  let w1 := fst (onTimer (run initial es) tid) in
  let w2 := fst (onPutDone rs w1 (next (run initial es))) in
  let w3 := fst (onConnection w2 ws name) in
  let w4 := fst (onLoadDone w3 (next w2)) in
  db w2 !! docKey name = Some (encodeStateAsUpdate (doc st))
  /\ roomStates w2 !! name = None
  /\ (exists old, heap w2 !! sid = Some old /\ destroyed old = true)
  /\ exists sid' st',
       roomStates w4 !! name = Some sid' /\ sid' <> sid
       /\ heap w4 !! sid' = Some st'
       /\ encodeStateAsUpdate (doc st') = encodeStateAsUpdate (doc st)
       /\ destroyed st' = false
       /\ In ws (clients st').
Proof.
  pose proof (Wf_run es initial Wf_initial) as HW.
  set (w := run initial es) in *.
  intros Ht Ha Hdue Hst Hnil Hpend w1 w2 w3 w4.
  assert (Hsid : sid < next w) by (apply (wf_heap _ HW); rewrite Hst; eauto).
  (* the timer fires *)
  assert (E1 : w1 = startPersist
                      (clearTimeout (setTimers w (delete tid (timers w)))
                         (persistTimer st))
                      name (doc st) (Some (name, sid))).
  { unfold w1, onTimer. rewrite Ht. apply N.leb_le in Hdue. rewrite Hdue, Ha.
    cbn [heap setTimers]. rewrite Hst, Hnil. reflexivity. }
  assert (F1 : io w1 !! next w
               = Some (PutDoc (docKey name) (encodeStateAsUpdate (doc st))
                         (Some (name, sid)))
               /\ heap w1 = heap w /\ db w1 = db w
               /\ pendingRooms w1 = pendingRooms w /\ next w1 = S (next w)).
  { rewrite E1. unfold startPersist.
    destruct (persistTimer st); cbn; rewrite lookup_insert_eq; auto. }
  destruct F1 as (Hio & Hh1 & Hdb1 & Hp1 & Hn1).
  (* the write lands *)
  assert (Hst1 : heap w1 !! sid = Some st) by (rewrite Hh1; exact Hst).
  destruct (onPutDone_cleanup rs w1 (next w) _ _ name sid st Hio Hst1)
    as (Hr2 & Hp2 & _ & _ & old & Hold & Hdes & _).
  fold w2 in Hr2, Hp2, Hold.
  assert (F2 : db w2 = <[docKey name := encodeStateAsUpdate (doc st)]> (db w)
               /\ next w2 = S (next w)
               /\ forall s, is_Some (heap w2 !! s) -> s < S (next w)).
  { unfold w2, onPutDone. rewrite Hio. unfold finishCleanup.
    cbn [heap setIo setDb]. rewrite Hst1. cbn. rewrite Hdb1, Hn1.
    split; [reflexivity|]. split; [reflexivity|].
    intros s Hs. destruct (decide (sid = s)) as [<-|Hne]; [lia|].
    rewrite lookup_insert_ne in Hs by exact Hne. rewrite Hh1 in Hs.
    pose proof (wf_heap _ HW s Hs). lia. }
  destruct F2 as (Hdb2 & Hn2 & Hfresh2).
  split; [rewrite Hdb2; apply lookup_insert_eq|].
  split; [rewrite Hr2; apply lookup_delete_eq|].
  split; [exists old; auto|].
  (* the next connection starts a creation *)
  assert (Hrs2 : roomStates w2 !! name = None) by (rewrite Hr2; apply lookup_delete_eq).
  assert (Hpe2 : pendingRooms w2 !! name = None) by (rewrite Hp2, Hp1; exact Hpend).
  assert (E3 : w3 = setWaiting
                      (setPendingRooms (fst (createRoom w2 name))
                         (<[name := next w2]> (pendingRooms (fst (createRoom w2 name)))))
                      (waiting w2 ++ [(ws, name, next w2)])).
  { unfold w3, onConnection, getOrCreateRoom. rewrite Hrs2, Hpe2. reflexivity. }
  assert (F3 : creating w3 !! next w2
               = Some (mkCreation name newDoc (newAwareness newDoc))
               /\ db w3 = db w2 /\ heap w3 = heap w2 /\ next w3 = S (next w2)
               /\ roomStates w3 = roomStates w2
               /\ waiting w3 = (waiting w2 ++ [(ws, name, next w2)])%list).
  { rewrite E3. cbn. rewrite lookup_insert_eq. auto 10. }
  destruct F3 as (Hc3 & Hdb3 & Hh3 & Hn3 & Hr3 & Hw3).
  (* the load completes *)
  destruct (applyUpdate_encodeStateAsUpdate (doc st)) as (d' & Happly & Henc).
  assert (Hload : loadDoc (db w3) name newDoc = Ok d').
  { unfold loadDoc. rewrite Hdb3, Hdb2, lookup_insert_eq, Happly. reflexivity. }
  unfold w4, onLoadDone. rewrite Hc3. cbn [c_roomId c_doc c_awareness].
  rewrite Hload. cbv zeta. cbn [fst roomStates heap setWaiting].
  match goal with
  | |- context [resume ?wa ?s ?p ?l] =>
      destruct (resume_heap s p l wa
                  (mkRoomState d' (newAwareness newDoc) [] ∅ None None false))
        as (Hrr & st' & H1 & H2 & H3 & _ & H5);
      [cbn; apply lookup_insert_eq|]
  end.
  exists (next w3), st'. rewrite Hrr. cbn [roomStates setNext setCreating
    setPendingRooms setRoomStates setHeap].
  split; [apply lookup_insert_eq|].
  split; [rewrite Hn3, Hn2; lia|].
  split; [exact H1|].
  split; [cbn [doc] in H2; congruence|].
  split; [exact H3|].
  apply (H5 ws name). cbn [waiting setNext setCreating setPendingRooms
    setRoomStates setHeap]. rewrite Hw3. apply in_or_app. right. left. reflexivity.
Qed.

End IdleCleanup.

(** *** The room map points to live room states *)

Section Owners.
Context {Y : YLib}.
Import YjsTimers.

Lemma Owned_weaken o (w w' : World) :
  Owned o w ->
  (forall sid st, heap w !! sid = Some st ->
     exists st', heap w' !! sid = Some st' /\ destroyed st' = destroyed st) ->
  (forall n sid, roomStates w' !! n = Some sid -> roomStates w !! n = Some sid) ->
  (forall op k v n sid,
     io w' !! op = Some (PutDoc k v (Some (n, sid))) ->
     io w !! op = Some (PutDoc k v (Some (n, sid)))
     \/ (o sid = n /\ is_Some (heap w !! sid))) ->
  (forall tid t n sid,
     timers w' !! tid = Some t -> action t = CleanupTimer n sid ->
     timers w !! tid = Some t \/ o sid = n) ->
  (forall ws n sid,
     conn w' !! ws = Some (n, sid) ->
     conn w !! ws = Some (n, sid) \/ o sid = n) ->
  Owned o w'.
Proof.
  intros [Hs Hi Ht Hc] Hheap Hrs Hio Htm Hcn. split.
  - intros n sid H. destruct (Hs n sid (Hrs n sid H)) as (Ho & st & Hst & Hd).
    split; [exact Ho|]. destruct (Hheap sid st Hst) as (st' & Hst' & Hd').
    exists st'. split; [exact Hst'|congruence].
  - intros op k v n sid H. destruct (Hio op k v n sid H) as [H0|[Ho [st Hst]]].
    + destruct (Hi op k v n sid H0) as (Ho & st & Hst). split; [exact Ho|].
      destruct (Hheap sid st Hst) as (st' & Hst' & _). eauto.
    + split; [exact Ho|]. destruct (Hheap sid st Hst) as (st' & Hst' & _). eauto.
  - intros tid t n sid H Ha. destruct (Htm tid t n sid H Ha) as [H0|Ho];
      [eapply Ht; eauto|exact Ho].
  - intros ws n sid H. destruct (Hcn ws n sid H) as [H0|Ho];
      [eapply Hc; eauto|exact Ho].
Qed.

Lemma Promised_frame (w w' : World) :
  Promised w ->
  pendingRooms w' = pendingRooms w -> creating w' = creating w ->
  waiting w' = waiting w -> next w <= next w' ->
  Promised w'.
Proof.
  intros [Hp Hw Hc] Ep Ec Ew Hn. split; rewrite ?Ep, ?Ec, ?Ew; auto.
  intros pid H. specialize (Hc pid H). lia.
Qed.

Lemma heap_update_keeps (h : gmap nat RoomState) sid (st0 st1 : RoomState) :
  h !! sid = Some st0 -> destroyed st1 = destroyed st0 ->
  forall s st, h !! s = Some st ->
    exists st', <[sid := st1]> h !! s = Some st' /\ destroyed st' = destroyed st.
Proof.
  intros H0 Hd s st H. destruct (decide (sid = s)) as [->|Hne].
  - exists st1. rewrite lookup_insert_eq. split; [reflexivity|]. congruence.
  - exists st. rewrite lookup_insert_ne by exact Hne. auto.
Qed.

Lemma Owned_attachWs o w ws name sid :
  Owned o w -> o sid = name -> Owned o (fst (attachWs w ws name sid)).
Proof.
  intros HO Ho. unfold attachWs.
  destruct (heap w !! sid) as [st|] eqn:Hst; [|exact HO]. cbn [fst].
  eapply Owned_weaken; [exact HO|..]; cbn.
  - apply (heap_update_keeps _ sid st); [exact Hst|reflexivity].
  - auto.
  - auto.
  - auto.
  - intros ws' n s H. destruct (decide (ws = ws')) as [->|Hne].
    + rewrite lookup_insert_eq in H. inversion H. subst. right. reflexivity.
    + rewrite lookup_insert_ne in H by exact Hne. left. exact H.
Qed.

Lemma Owned_resume o sid pid l : forall w,
  Owned o w ->
  (forall s n, In (s, n, pid) l -> o sid = n) ->
  Owned o (fst (resume w sid pid l)).
Proof.
  induction l as [|[[s n] p] l IH]; intros w HO Hl; cbn [resume]; [exact HO|].
  destruct (Nat.eqb p pid) eqn:Ep.
  - apply Nat.eqb_eq in Ep. subst p. cbn [fst]. apply IH.
    + apply Owned_attachWs; [exact HO|]. apply (Hl s n). left. reflexivity.
    + intros s' n' Hin. apply (Hl s' n'). right. exact Hin.
  - apply IH; [exact HO|]. intros s' n' Hin. apply (Hl s' n'). right. exact Hin.
Qed.

Lemma Owned_onConnection o w ws name :
  Owned o w -> Promised w ->
  Owned o (fst (onConnection w ws name)) /\ Promised (fst (onConnection w ws name)).
Proof.
  intros HO HP. unfold onConnection, getOrCreateRoom.
  destruct (roomStates w !! name) as [sid|] eqn:Hrs.
  - destruct (own_states o w HO name sid Hrs) as (Ho & st & Hst & Hd).
    rewrite Hst.
    destruct (cleanupTimer st) as [t|]; cbn [fst snd].
    + split.
      * apply Owned_attachWs; [|exact Ho].
        eapply Owned_weaken; [exact HO|..]; cbn.
        -- apply (heap_update_keeps _ sid st); [exact Hst|reflexivity].
        -- auto.
        -- auto.
        -- intros tid tm n s H Ha. apply lookup_delete_Some in H. left. tauto.
        -- auto.
      * unfold attachWs. cbn [heap setHeap clearTimeout setTimers].
        rewrite lookup_insert_eq. cbn [fst].
        eapply Promised_frame; [exact HP|..]; cbn; auto.
    + split; [apply Owned_attachWs; assumption|].
      unfold attachWs. rewrite Hst. cbn [fst].
      eapply Promised_frame; [exact HP|..]; cbn; auto.
  - destruct (pendingRooms w !! name) as [pending|] eqn:Hp; cbn [fst snd].
    + split.
      * eapply Owned_weaken; [exact HO|..]; cbn; eauto.
      * destruct HP as [Hpe Hwa Hcr]. split; cbn; auto.
        intros ws' n pid Hin. apply in_app_or in Hin.
        destruct Hin as [Hin|[Hin|[]]]; [eauto|].
        inversion Hin. subst. eauto.
    + split.
      * eapply Owned_weaken; [exact HO|..]; cbn; eauto.
      * destruct HP as [Hpe Hwa Hcr]. split; cbn.
        -- intros n pid H. destruct (decide (name = n)) as [->|Hne].
           ++ rewrite lookup_insert_eq in H. inversion H. subst pid.
              eexists. rewrite lookup_insert_eq. split; reflexivity.
           ++ rewrite lookup_insert_ne in H by exact Hne.
              destruct (Hpe n pid H) as (c & Hc & Hn). exists c.
              rewrite lookup_insert_ne; [auto|].
              assert (pid < next w) by (apply Hcr; rewrite Hc; eauto). lia.
        -- intros ws' n pid Hin. apply in_app_or in Hin.
           destruct Hin as [Hin|[Hin|[]]].
           ++ destruct (Hwa ws' n pid Hin) as (c & Hc & Hn). exists c.
              rewrite lookup_insert_ne; [auto|].
              assert (pid < next w) by (apply Hcr; rewrite Hc; eauto). lia.
           ++ inversion Hin. subst. eexists. rewrite lookup_insert_eq.
              split; reflexivity.
        -- intros pid H. destruct (decide (next w = pid)) as [<-|Hne]; [lia|].
           rewrite lookup_insert_ne in H by exact Hne. specialize (Hcr pid H). lia.
Qed.

Lemma Promised_settled (w : World) pid c pend' crea' wait' n' :
  Promised w -> creating w !! pid = Some c ->
  pend' = delete (c_roomId c) (pendingRooms w) ->
  crea' = delete pid (creating w) ->
  wait' = List.filter (notWaitingOn pid) (waiting w) ->
  next w <= n' ->
  forall w', pendingRooms w' = pend' -> creating w' = crea' ->
             waiting w' = wait' -> next w' = n' -> Promised w'.
Proof.
  intros [Hpe Hwa Hcr] Hc -> -> -> Hn w' Ep Ec Ew En.
  split; rewrite ?Ep, ?Ec, ?Ew, ?En.
  - intros n p H. apply lookup_delete_Some in H. destruct H as [Hne H].
    destruct (Hpe n p H) as (c' & Hc' & Hn'). exists c'. split; [|exact Hn'].
    rewrite lookup_delete_ne; [exact Hc'|]. intros <-. congruence.
  - intros ws n p Hin. apply filter_In in Hin. destruct Hin as [Hin Hb].
    unfold notWaitingOn in Hb. cbn [snd] in Hb.
    apply negb_true_iff, Nat.eqb_neq in Hb.
    destruct (Hwa ws n p Hin) as (c' & Hc' & Hn'). exists c'. split; [|exact Hn'].
    rewrite lookup_delete_ne; [exact Hc'|]. congruence.
  - intros p H. apply lookup_delete_is_Some in H. destruct H as [_ H].
    specialize (Hcr p H). lia.
Qed.

Lemma Owned_rejectCreation o w pid :
  Owned o w -> Promised w ->
  Owned o (rejectCreation w pid) /\ Promised (rejectCreation w pid).
Proof.
  intros HO HP. unfold rejectCreation.
  destruct (creating w !! pid) as [c|] eqn:Hc; [|auto]. split.
  - eapply Owned_weaken; [exact HO|..]; cbn; eauto.
  - eapply (Promised_settled w pid c); try reflexivity; eauto.
Qed.

Lemma Owned_onLoadDone o w pid :
  Wf w -> Owned o w -> Promised w ->
  exists o', Owned o' (fst (onLoadDone w pid))
             /\ Promised (fst (onLoadDone w pid)).
Proof.
  intros HW HO HP. unfold onLoadDone.
  destruct (creating w !! pid) as [c|] eqn:Hc; [|exists o; auto].
  destruct (loadDoc (db w) (c_roomId c) (c_doc c)) as [d|].
  2:{ exists o. cbn [fst]. exact (Owned_rejectCreation o w pid HO HP). }
  cbv zeta. cbn [fst].
  set (o' := fun s => if Nat.eqb s (next w) then c_roomId c else o s).
  assert (Hold : forall s, is_Some (heap w !! s) -> o' s = o s).
  { intros s Hs. unfold o'. pose proof (wf_heap w HW s Hs) as Hlt.
    destruct (Nat.eqb s (next w)) eqn:E; [|reflexivity].
    apply Nat.eqb_eq in E. lia. }
  assert (Hfresh : heap w !! next w = None).
  { destruct (heap w !! next w) eqn:E; [|reflexivity].
    assert (next w < next w) by (apply (wf_heap w HW); rewrite E; eauto). lia. }
  match goal with
  | |- context [resume ?wa ?s ?p ?l] => set (w1 := wa)
  end.
  set (l1 := waiting w1).
  assert (HO1 : Owned o' w1).
  { destruct HO as [Hs Hi Ht Hcn]. unfold w1. split; cbn.
    - intros n sid H. destruct (decide (c_roomId c = n)) as [<-|Hne].
      + rewrite lookup_insert_eq in H. inversion H. subst sid.
        split; [unfold o'; rewrite Nat.eqb_refl; reflexivity|].
        eexists. rewrite lookup_insert_eq. split; reflexivity.
      + rewrite lookup_insert_ne in H by exact Hne.
        destruct (Hs n sid H) as (Ho & st & Hst & Hd).
        split; [rewrite Hold by (rewrite Hst; eauto); exact Ho|].
        exists st. rewrite lookup_insert_ne; [auto|]. intros <-. congruence.
    - intros op k v n sid H. destruct (Hi op k v n sid H) as (Ho & Hsome).
      split; [rewrite Hold by exact Hsome; exact Ho|].
      apply is_Some_insert. exact Hsome.
    - intros tid t n sid H Ha. rewrite Hold; [eapply Ht; eauto|].
      pose proof (wf_timer w HW tid t H) as Hok. unfold timerOk in Hok.
      rewrite Ha in Hok. destruct Hok as (st & Hst & _). rewrite Hst. eauto.
    - intros ws n sid H. rewrite Hold; [eapply Hcn; eauto|].
      destruct (wf_conn w HW ws n sid H) as (st & Hst & _). rewrite Hst. eauto. }
  assert (Hl1 : forall s n, In (s, n, pid) l1 -> o' (next w) = n).
  { intros s n Hin. unfold l1 in Hin. cbn in Hin.
    destruct (pr_waiting w HP s n pid Hin) as (c' & Hc' & Hn).
    rewrite Hc in Hc'. inversion Hc'. subst c'.
    unfold o'. rewrite Nat.eqb_refl. exact Hn. }
  exists o'. split.
  - eapply Owned_weaken; [apply (Owned_resume o' (next w) pid l1 w1 HO1 Hl1)|..];
      cbn; eauto.
  - destruct (resume_spec (next w) pid l1 w1)
      as (_ & _ & _ & E4 & E5 & _ & E7 & E8 & _);
      [unfold w1; cbn; rewrite lookup_insert_eq; eauto|].
    apply (Promised_settled w pid c _ _ _ (S (next w)) HP Hc eq_refl eq_refl eq_refl).
    + lia.
    + cbn [pendingRooms setWaiting]. rewrite E4. reflexivity.
    + cbn [creating setWaiting]. rewrite E5. reflexivity.
    + cbn [waiting setWaiting]. rewrite E8. reflexivity.
    + cbn [next setWaiting]. rewrite E7. reflexivity.
Qed.

Lemma Owned_onMessage o rs w ws data :
  Owned o w -> Owned o (fst (onMessage rs w ws data)).
Proof.
  intros HO. unfold onMessage.
  destruct (conn w !! ws) as [[roomId sid]|]; [|exact HO].
  destruct (heap w !! sid) as [st|] eqn:Hst; [|exact HO].
  destruct (handleMessage_fields rs ws st data) as (_ & Ed & _).
  destruct (handleMessage rs ws st data) as [[st1 eff] [|]]; cbn [fst snd] in *.
  - destruct (clearTimeout_fields w (persistTimer st1)) as (En & _ & Eh & Ec).
    eapply Owned_weaken; [exact HO|..]; cbn [heap roomStates io timers conn
      setHeap setTimeout setNext setTimers fst snd].
    + rewrite Eh. apply (heap_update_keeps _ sid st); [exact Hst|exact Ed].
    + destruct (persistTimer st1); cbn; auto.
    + destruct (persistTimer st1); cbn; auto.
    + intros tid t n s H Ha. left.
      destruct (decide (next (clearTimeout w (persistTimer st1)) = tid)) as [<-|Hne].
      * rewrite lookup_insert_eq in H. inversion H. subst t. discriminate.
      * rewrite lookup_insert_ne in H by exact Hne.
        destruct (persistTimer st1); cbn in H; [|exact H].
        apply lookup_delete_Some in H. tauto.
    + rewrite Ec. auto.
  - eapply Owned_weaken; [exact HO|..]; cbn; eauto.
    apply (heap_update_keeps _ sid st); [exact Hst|exact Ed].
Qed.

Lemma Owned_onClose o rs w ws :
  Owned o w -> Owned o (fst (onClose rs w ws)).
Proof.
  intros HO. unfold onClose.
  destruct (conn w !! ws) as [[roomId sid]|] eqn:Hconn; [|exact HO].
  destruct (heap w !! sid) as [st|] eqn:Hst; [|exact HO].
  pose proof (closeSocket_destroyed rs st ws) as Ed.
  pose proof (own_conn o w HO ws roomId sid Hconn) as Ho.
  destruct (clients (fst (closeSocket rs st ws))); cbn [fst snd].
  - eapply Owned_weaken; [exact HO|..]; cbn [heap roomStates io timers conn
      setHeap setTimeout setNext setTimers setConn fst snd].
    + apply (heap_update_keeps _ sid st); [exact Hst|exact Ed].
    + auto.
    + auto.
    + intros tid t n s H Ha.
      destruct (decide (next w = tid)) as [<-|Hne].
      * rewrite lookup_insert_eq in H. inversion H. subst t.
        cbn in Ha. inversion Ha as [[E1 E2]]. right. rewrite <- E1, <- E2. exact Ho.
      * rewrite lookup_insert_ne in H by exact Hne. left. exact H.
    + intros ws' n s H. apply lookup_delete_Some in H. left. tauto.
  - eapply Owned_weaken; [exact HO|..]; cbn [heap roomStates io timers conn
      setHeap setConn fst snd].
    + apply (heap_update_keeps _ sid st); [exact Hst|exact Ed].
    + auto.
    + auto.
    + auto.
    + intros ws' n s H. apply lookup_delete_Some in H. left. tauto.
Qed.

Lemma Owned_onTimer o w tid :
  Owned o w -> Owned o (fst (onTimer w tid)).
Proof.
  intros HO. unfold onTimer.
  destruct (timers w !! tid) as [t|] eqn:Ht; [|exact HO].
  destruct (N.leb (deadline t) (now w)); [|exact HO].
  assert (HO1 : Owned o (setTimers w (delete tid (timers w)))).
  { eapply Owned_weaken; [exact HO|..]; cbn; eauto.
    intros tid' t' n s H Ha. apply lookup_delete_Some in H. left. tauto. }
  destruct (action t) as [roomId sid|roomId sid] eqn:Ha.
  - cbn [heap setTimers].
    destruct (heap w !! sid) as [st|] eqn:Hst; [|exact HO1].
    destruct (clients st); [|exact HO1]. cbn [fst].
    pose proof (own_timer o w HO tid t roomId sid Ht Ha) as Ho.
    unfold cleanupRoom, startPersist.
    eapply Owned_weaken; [exact HO|..].
    + intros s st0 H. exists st0. split; [|reflexivity].
      destruct (persistTimer st); cbn; exact H.
    + destruct (persistTimer st); cbn; auto.
    + intros op k v n s H.
      assert (H' : <[next w := PutDoc (docKey roomId) (encodeStateAsUpdate (doc st))
                                 (Some (roomId, sid))]> (io w) !! op
                   = Some (PutDoc k v (Some (n, s)))).
      { destruct (persistTimer st); cbn in H; exact H. }
      destruct (decide (next w = op)) as [<-|Hne].
      * rewrite lookup_insert_eq in H'. inversion H' as [[E1 E2 E3 E4]].
        right. rewrite <- E3, <- E4. split; [exact Ho|]. rewrite Hst. eauto.
      * rewrite lookup_insert_ne in H' by exact Hne. left. exact H'.
    + intros tid' t' n s H Ha'. left.
      assert (H' : delete tid (timers w) !! tid' = Some t'
                   \/ exists p, delete p (delete tid (timers w)) !! tid' = Some t').
      { destruct (persistTimer st) as [p|]; cbn in H; [right; eauto|left; exact H]. }
      destruct H' as [H'|[p H']].
      * apply lookup_delete_Some in H'. tauto.
      * apply lookup_delete_Some in H'. destruct H' as [_ H'].
        apply lookup_delete_Some in H'. tauto.
    + destruct (persistTimer st); cbn; auto.
  - cbn [heap setTimers].
    destruct (heap w !! sid) as [st|]; [|exact HO1]. cbn [fst].
    unfold startPersist.
    eapply Owned_weaken; [exact HO1|..]; cbn; eauto.
    intros op k v n s H. left.
    destruct (decide (next w = op)) as [<-|Hne].
    + rewrite lookup_insert_eq in H. inversion H.
    + rewrite lookup_insert_ne in H by exact Hne. exact H.
Qed.

Lemma Owned_onPutDone o rs w op :
  Owned o w -> Owned o (fst (onPutDone rs w op)).
Proof.
  intros HO. unfold onPutDone.
  destruct (io w !! op) as [[key value k]|] eqn:Hio; [|exact HO].
  destruct k as [[roomId sid]|].
  - destruct (own_io o w HO op key value roomId sid Hio) as (Ho & st & Hst).
    unfold finishCleanup. cbn [heap setIo setDb]. rewrite Hst. cbv zeta. cbn [fst].
    destruct HO as [Hs Hi Ht Hc]. split; cbn.
    + intros n s H. apply lookup_delete_Some in H. destruct H as [Hne H].
      destruct (Hs n s H) as (Hn & st0 & Hst0 & Hd). split; [exact Hn|].
      exists st0. rewrite lookup_insert_ne; [auto|]. intros <-. congruence.
    + intros op' k v n s H. apply lookup_delete_Some in H. destruct H as [_ H].
      destruct (Hi op' k v n s H) as (Hn & Hsome). split; [exact Hn|].
      apply is_Some_insert. exact Hsome.
    + intros tid t n s H Ha. eapply Ht; eauto.
    + intros ws n s H. eapply Hc; eauto.
  - cbn [fst]. eapply Owned_weaken; [exact HO|..]; cbn; eauto.
    intros op' k v n s H. apply lookup_delete_Some in H. left. tauto.
Qed.

Lemma Promised_heap_step rs (w : World) (ev : Event) :
  match ev with
  | Upgrade _ _ | LoadDone _ | LoadFail _ => False
  | _ => True
  end ->
  Promised w -> Promised (fst (step w (rs, ev))).
Proof.
  intros Hev HP. destruct ev as [ws n|pid|pid|ws data|ws|dt|tid|op];
    try contradiction; unfold step; cbn [fst snd].
  - unfold onMessage. destruct (conn w !! ws) as [[roomId sid]|]; [|exact HP].
    destruct (heap w !! sid) as [st|]; [|exact HP].
    destruct (handleMessage rs ws st data) as [[st1 eff] [|]]; cbn [fst].
    + eapply Promised_frame; [exact HP|..]; destruct (persistTimer st1); cbn; auto.
    + eapply Promised_frame; [exact HP|..]; cbn; auto.
  - unfold onClose. destruct (conn w !! ws) as [[roomId sid]|]; [|exact HP].
    destruct (heap w !! sid) as [st|]; [|exact HP].
    destruct (clients (fst (closeSocket rs st ws))); cbn [fst];
      eapply Promised_frame; try exact HP; cbn; auto.
  - eapply Promised_frame; [exact HP|..]; cbn; auto.
  - unfold onTimer. destruct (timers w !! tid) as [t|]; [|exact HP].
    destruct (N.leb (deadline t) (now w)); [|exact HP].
    destruct (action t) as [roomId sid|roomId sid]; cbn [heap setTimers];
      (destruct (heap w !! sid) as [st|];
       [|eapply Promised_frame; [exact HP|..]; cbn; auto]).
    + destruct (clients st); cbn [fst];
        [|eapply Promised_frame; [exact HP|..]; cbn; auto].
      unfold cleanupRoom, startPersist.
      eapply Promised_frame; [exact HP|..]; destruct (persistTimer st); cbn; auto.
    + cbn [fst]. eapply Promised_frame; [exact HP|..]; cbn; auto.
  - unfold onPutDone. destruct (io w !! op) as [[key value k]|]; [|exact HP].
    destruct k as [[roomId sid]|]; cbn [fst];
      [|eapply Promised_frame; [exact HP|..]; cbn; auto].
    unfold finishCleanup. cbn [heap setIo setDb].
    destruct (heap w !! sid); cbn [fst];
      eapply Promised_frame; try exact HP; cbn; auto.
Qed.

Lemma Owned_step w e :
  Wf w -> (exists o, Owned o w) -> Promised w ->
  (exists o, Owned o (fst (step w e))) /\ Promised (fst (step w e)).
Proof.
  intros HW [o HO] HP.
  destruct e as [rs ev].
  destruct ev as [ws n|pid|pid|ws data|ws|dt|tid|op] eqn:Eev.
  - unfold step; cbn [fst snd].
    destruct (Owned_onConnection o w ws n HO HP) as [H1 H2]. eauto.
  - unfold step; cbn [fst snd].
    destruct (Owned_onLoadDone o w pid HW HO HP) as (o' & H1 & H2). eauto.
  - unfold step; cbn [fst snd].
    destruct (Owned_rejectCreation o w pid HO HP) as [H1 H2]. eauto.
  - split; [exists o; apply Owned_onMessage; exact HO|].
    exact (Promised_heap_step rs w (Message ws data) I HP).
  - split; [exists o; apply Owned_onClose; exact HO|].
    exact (Promised_heap_step rs w (Closed ws) I HP).
  - split; [exists o; unfold step; cbn [fst snd];
            eapply Owned_weaken; [exact HO|..]; cbn; eauto|].
    exact (Promised_heap_step rs w (Tick dt) I HP).
  - split; [exists o; apply Owned_onTimer; exact HO|].
    exact (Promised_heap_step rs w (Fire tid) I HP).
  - split; [exists o; apply Owned_onPutDone; exact HO|].
    exact (Promised_heap_step rs w (PutDone op) I HP).
Qed.

Lemma Owned_run es : forall w,
  Wf w -> (exists o, Owned o w) -> Promised w ->
  (exists o, Owned o (run w es)) /\ Promised (run w es).
Proof.
  induction es as [|e es IH]; intros w HW HO HP; [auto|].
  cbn [run]. destruct (Owned_step w e HW HO HP) as [HO' HP'].
  apply IH; [apply Wf_step; exact HW|exact HO'|exact HP'].
Qed.

Lemma Owned_initial : Owned (fun _ => EmptyString) initial /\ Promised initial.
Proof.
  split; split; cbn.
  - intros n sid H. rewrite lookup_empty in H. discriminate.
  - intros op k v n sid H. rewrite lookup_empty in H. discriminate.
  - intros tid t n sid H. rewrite lookup_empty in H. discriminate.
  - intros ws n sid H. rewrite lookup_empty in H. discriminate.
  - intros n pid H. rewrite lookup_empty in H. discriminate.
  - intros ws n pid [].
  - intros pid [x H]. rewrite lookup_empty in H. discriminate.
Qed.

(** X29.  Along every run of the server the room map points to live room
    states only: a room state is destroyed by the cleanup that also removes
    the map entry of its name, and all references to a room state carry the
    name it was built for.  So a connection handler never gets a destroyed
    room state from the map. *)
Theorem room_map_points_to_live_states es name sid :
  roomStates (run initial es) !! name = Some sid ->
  (exists st, heap (run initial es) !! sid = Some st /\ destroyed st = false)
  /\ (forall ws name', conn (run initial es) !! ws = Some (name', sid) ->
                       name' = name).
Proof.
  destruct Owned_initial as [HO0 HP0].
  destruct (Owned_run es initial Wf_initial (ex_intro _ _ HO0) HP0) as [[o HO] _].
  intros H. destruct (own_states o _ HO name sid H) as (Ho & Hst). split; [exact Hst|].
  intros ws name' Hc. pose proof (own_conn o _ HO ws name' sid Hc). congruence.
Qed.

End Owners.

(** *** Failed loads *)

Section FailedLoad.
Context {Y : YLib}.
Import YjsTimers.

Lemma Awaited_frame (w w' : World) :
  Awaited w -> creating w' = creating w -> waiting w' = waiting w -> Awaited w'.
Proof.
  intros HA Ec Ew pid H. rewrite Ec in H. rewrite Ew. exact (HA pid H).
Qed.

Lemma attachWs_promises (w : World) ws name sid :
  creating (fst (attachWs w ws name sid)) = creating w
  /\ waiting (fst (attachWs w ws name sid)) = waiting w.
Proof.
  unfold attachWs. destruct (heap w !! sid); cbn; auto.
Qed.

Lemma resume_promises sid pid l : forall w : World,
  creating (fst (resume w sid pid l)) = creating w
  /\ waiting (fst (resume w sid pid l)) = waiting w.
Proof.
  induction l as [|[[s n] p] l IH]; intros w; cbn [resume]; [auto|].
  destruct (Nat.eqb p pid); cbn [fst]; [|apply IH].
  destruct (IH (fst (attachWs w s n sid))) as [E1 E2].
  destruct (attachWs_promises w s n sid) as [E3 E4].
  rewrite E1, E2, E3, E4. auto.
Qed.

Lemma Awaited_settled (w w' : World) pid :
  Awaited w ->
  creating w' = delete pid (creating w) ->
  waiting w' = List.filter (notWaitingOn pid) (waiting w) ->
  Awaited w'.
Proof.
  intros HA Ec Ew p H. rewrite Ec in H. rewrite Ew.
  apply lookup_delete_is_Some in H. destruct H as [Hne H].
  destruct (HA p H) as (ws & n & Hin). exists ws, n.
  apply filter_In. split; [exact Hin|].
  unfold notWaitingOn. cbn [snd]. apply negb_true_iff, Nat.eqb_neq. congruence.
Qed.

Lemma Awaited_rejectCreation w pid : Awaited w -> Awaited (rejectCreation w pid).
Proof.
  intros HA. unfold rejectCreation.
  destruct (creating w !! pid) as [c|]; [|exact HA].
  eapply Awaited_settled; [exact HA|reflexivity|reflexivity].
Qed.

Lemma Awaited_onLoadDone w pid : Awaited w -> Awaited (fst (onLoadDone w pid)).
Proof.
  intros HA. unfold onLoadDone.
  destruct (creating w !! pid) as [c|] eqn:Hc; [|exact HA].
  destruct (loadDoc (db w) (c_roomId c) (c_doc c)) as [d|].
  - cbv zeta. cbn [fst].
    match goal with
    | |- Awaited (setWaiting (fst (resume ?w1 ?sid ?p ?l)) _) =>
        destruct (resume_promises sid p l w1) as [E1 E2]
    end.
    eapply Awaited_settled; [exact HA| |].
    + cbn [creating setWaiting]. rewrite E1. reflexivity.
    + cbn [waiting setWaiting]. rewrite E2. reflexivity.
  - cbn [fst]. unfold rejectCreation. rewrite Hc.
    eapply Awaited_settled; [exact HA|reflexivity|reflexivity].
Qed.

Lemma Awaited_onConnection w ws name :
  Awaited w -> Awaited (fst (onConnection w ws name)).
Proof.
  intros HA. unfold onConnection, getOrCreateRoom.
  destruct (roomStates w !! name) as [sid|].
  - destruct (heap w !! sid) as [existing|] eqn:Hh.
    + destruct (cleanupTimer existing) as [t|]; cbn [fst snd].
      * match goal with
        | |- Awaited (fst (attachWs ?w1 _ _ _)) =>
            destruct (attachWs_promises w1 ws name sid) as [E1 E2]
        end.
        eapply Awaited_frame; [exact HA|rewrite E1; reflexivity|rewrite E2; reflexivity].
      * destruct (attachWs_promises w ws name sid) as [E1 E2].
        eapply Awaited_frame; [exact HA|exact E1|exact E2].
    + cbn [fst snd]. destruct (attachWs_promises w ws name sid) as [E1 E2].
      eapply Awaited_frame; [exact HA|exact E1|exact E2].
  - destruct (pendingRooms w !! name) as [pending|]; cbn [fst snd].
    + intros p H. cbn [creating setWaiting] in H.
      destruct (HA p H) as (s & n & Hin). exists s, n.
      cbn [waiting setWaiting]. apply in_or_app. left. exact Hin.
    + intros p H. cbn in H. cbn [waiting setWaiting].
      destruct (decide (p = next w)) as [->|Hne].
      * exists ws, name. apply in_or_app. right. left. reflexivity.
      * rewrite lookup_insert_ne in H by congruence.
        destruct (HA p H) as (s & n & Hin). exists s, n.
        apply in_or_app. left. exact Hin.
Qed.

Lemma Awaited_step w e : Awaited w -> Awaited (fst (step w e)).
Proof.
  intros HA. destruct e as [rs ev].
  destruct ev as [ws n|pid|pid|ws data|ws|dt|tid|op]; unfold step; cbn [fst snd].
  - apply Awaited_onConnection. exact HA.
  - apply Awaited_onLoadDone. exact HA.
  - apply Awaited_rejectCreation. exact HA.
  - unfold onMessage. destruct (conn w !! ws) as [[roomId sid]|]; [|exact HA].
    destruct (heap w !! sid) as [st|]; [|exact HA].
    destruct (handleMessage rs ws st data) as [[st1 eff] [|]]; cbn [fst].
    + eapply Awaited_frame; [exact HA|..]; destruct (persistTimer st1); reflexivity.
    + eapply Awaited_frame; [exact HA|..]; reflexivity.
  - unfold onClose. destruct (conn w !! ws) as [[roomId sid]|]; [|exact HA].
    destruct (heap w !! sid) as [st|]; [|exact HA].
    destruct (clients (fst (closeSocket rs st ws))); cbn [fst];
      eapply Awaited_frame; try exact HA; reflexivity.
  - eapply Awaited_frame; [exact HA|..]; reflexivity.
  - unfold onTimer. destruct (timers w !! tid) as [t|]; [|exact HA].
    destruct (N.leb (deadline t) (now w)); [|exact HA].
    destruct (action t) as [roomId sid|roomId sid]; cbn [heap setTimers];
      (destruct (heap w !! sid) as [st|];
       [|eapply Awaited_frame; [exact HA|..]; reflexivity]).
    + destruct (clients st); cbn [fst];
        [|eapply Awaited_frame; [exact HA|..]; reflexivity].
      unfold cleanupRoom, startPersist.
      eapply Awaited_frame; [exact HA|..]; destruct (persistTimer st); reflexivity.
    + cbn [fst]. eapply Awaited_frame; [exact HA|..]; reflexivity.
  - unfold onPutDone. destruct (io w !! op) as [[key value k]|]; [|exact HA].
    destruct k as [[roomId sid]|]; cbn [fst];
      [|eapply Awaited_frame; [exact HA|..]; reflexivity].
    unfold finishCleanup. cbn [heap setIo setDb].
    destruct (heap w !! sid); cbn [fst];
      eapply Awaited_frame; try exact HA; reflexivity.
Qed.

Lemma Awaited_run es : forall w, Awaited w -> Awaited (run w es).
Proof.
  induction es as [|e es IH]; intros w HA; [exact HA|].
  cbn [run]. apply IH. apply Awaited_step. exact HA.
Qed.

Lemma Awaited_initial : Awaited initial.
Proof.
  intros pid [c H]. cbn in H. rewrite lookup_empty in H. discriminate.
Qed.

Lemma awaiting_In (w : World) pid ws :
  In ws (awaiting w pid) <-> exists n, In (ws, n, pid) (waiting w).
Proof.
  unfold awaiting. rewrite in_map_iff. split.
  - intros [[[s n] p] [E Hin]]. cbn in E. subst s.
    apply filter_In in Hin. destruct Hin as [Hin Hb]. cbn in Hb.
    apply Nat.eqb_eq in Hb. subst p. eauto.
  - intros [n Hin]. exists (ws, n, pid). split; [reflexivity|].
    apply filter_In. split; [exact Hin|]. cbn. apply Nat.eqb_refl.
Qed.

(** X28.  A failed load is rethrown into the connection handlers.  Along
    every run of the server a creation in flight has at least one
    connection handler suspended on it, and every handler suspended on it
    asked for its document.  When the load fails, the catch
    of getOrCreateRoom removes the pending entry of the name and the
    creation is gone; no room state is built or mapped and none of the
    suspended handlers is attached: the rejection comes out of the await
    of each of them, where nothing catches it. *)
Theorem failed_load_rejects_waiting_handlers es pid c :
  creating (run initial es) !! pid = Some c ->
  awaiting (run initial es) pid <> []
  /\ (forall ws, In ws (awaiting (run initial es) pid)
                 <-> In (ws, c_roomId c, pid) (waiting (run initial es)))
  /\ (loadDoc (db (run initial es)) (c_roomId c) (c_doc c) = Throws ->
      onLoadDone (run initial es) pid = (rejectCreation (run initial es) pid, []))
  /\ pendingRooms (rejectCreation (run initial es) pid) !! c_roomId c = None
  /\ creating (rejectCreation (run initial es) pid) !! pid = None
  /\ awaiting (rejectCreation (run initial es) pid) pid = []
  /\ conn (rejectCreation (run initial es) pid) = conn (run initial es)
  /\ heap (rejectCreation (run initial es) pid) = heap (run initial es)
  /\ roomStates (rejectCreation (run initial es) pid) = roomStates (run initial es).
Proof.
  pose proof (Awaited_run es initial Awaited_initial) as HA.
  destruct Owned_initial as [HO0 HP0].
  destruct (Owned_run es initial Wf_initial (ex_intro _ _ HO0) HP0) as [_ HP].
  set (w := run initial es) in *. intros Hc.
  assert (E : rejectCreation w pid
              = setWaiting
                  (setCreating
                     (setPendingRooms w (delete (c_roomId c) (pendingRooms w)))
                     (delete pid (creating w)))
                  (List.filter (notWaitingOn pid) (waiting w))).
  { unfold rejectCreation. rewrite Hc. reflexivity. }
  split.
  { destruct (HA pid (ex_intro _ c Hc)) as (ws & n & Hin).
    assert (Hi : In ws (awaiting w pid)) by (apply awaiting_In; eauto).
    intros Hnil. rewrite Hnil in Hi. destruct Hi. }
  split.
  { intros ws. rewrite awaiting_In. split.
    - intros [n Hin]. destruct (pr_waiting _ HP ws n pid Hin) as (c' & Hc' & Hn).
      rewrite Hc in Hc'. inversion Hc'. subst c'. rewrite Hn. exact Hin.
    - intros Hin. eauto. }
  split; [intros Hl; unfold onLoadDone; rewrite Hc, Hl; reflexivity|].
  rewrite E. cbn [pendingRooms creating conn heap roomStates
                  setWaiting setCreating setPendingRooms].
  split; [apply lookup_delete_eq|]. split; [apply lookup_delete_eq|].
  split; [|auto].
  unfold awaiting. cbn [waiting setWaiting].
  match goal with
  | |- map _ ?l = [] => assert (El : l = []); [|rewrite El; reflexivity]
  end.
  apply nil_of_no_member. intros [[s n] p] Hin.
  apply filter_In in Hin. destruct Hin as [Hin Hb]. cbn [snd] in Hb.
  apply Nat.eqb_eq in Hb. subst p.
  apply filter_In in Hin. destruct Hin as [_ Hb].
  unfold notWaitingOn in Hb. cbn [snd] in Hb. rewrite Nat.eqb_refl in Hb.
  discriminate.
Qed.

End FailedLoad.

Lemma timers_follow_rooms_witness :
  exists st,
    heap (run (Y := Toy.lib) initial YjsTimers.busyRun) !! 1 = Some st
    /\ persistTimer st = Some 3.
Proof.
  destruct (timers_follow_rooms (Y := Toy.lib) YjsTimers.busyRun 3
              (mkTimer 6000%N (PersistTimer "room:notes" 1)))
    as [(st & Hst & Hp) _].
  - vm_compute. reflexivity.
  - exists st. split; [exact Hst|exact Hp].
Defined.

Lemma connected_sockets_are_attached_witness :
  exists st,
    heap (run (Y := Toy.lib) initial YjsTimers.busyRun) !! 1 = Some st
    /\ In 3 (clients st).
Proof.
  apply (connected_sockets_are_attached (Y := Toy.lib) YjsTimers.busyRun 3
           "room:notes" 1).
  vm_compute. reflexivity.
Defined.

Lemma stateAt_Some {Y : YLib} (w : World) sid :
  YjsTimers.hasState w sid = true ->
  heap w !! sid = Some (YjsTimers.stateAt w sid).
Proof.
  unfold YjsTimers.stateAt, YjsTimers.hasState.
  destruct (heap w !! sid); [reflexivity|discriminate].
Qed.

Lemma update_restarts_persist_countdown_witness :
  timers (fst (onMessage (Y := Toy.lib) allOpen (run initial YjsTimers.joinRun) 1
                 [0; 2; 42]%Z))
    !! next (run (Y := Toy.lib) initial YjsTimers.joinRun)
  = Some (mkTimer (now (run (Y := Toy.lib) initial YjsTimers.joinRun) + 5000)
            (PersistTimer "room:notes" 1)).
Proof.
  assert (H1 : conn (run (Y := Toy.lib) initial YjsTimers.joinRun) !! 1
               = Some ("room:notes", 1)) by (vm_compute; reflexivity).
  assert (H2 : YjsTimers.hasState
                 (run (Y := Toy.lib) initial YjsTimers.joinRun) 1 = true)
    by (vm_compute; reflexivity).
  assert (H3 : snd (handleMessage (Y := Toy.lib) allOpen 1
                      (YjsTimers.stateAt (run initial YjsTimers.joinRun) 1)
                      [0; 2; 42]%Z) = true) by (vm_compute; reflexivity).
  exact (proj1 (update_restarts_persist_countdown (Y := Toy.lib)
                  YjsTimers.joinRun allOpen 1 [0; 2; 42]%Z "room:notes" 1
                  (YjsTimers.stateAt (run initial YjsTimers.joinRun) 1)
                  H1 (stateAt_Some _ 1 H2) H3)).
Defined.

Lemma last_close_starts_idle_countdown_witness :
  conn (fst (onClose (Y := Toy.lib) allOpen
               (run initial (firstn 3 YjsTimers.idleRun)) 1)) !! 1 = None.
Proof.
  assert (H1 : conn (run (Y := Toy.lib) initial (firstn 3 YjsTimers.idleRun)) !! 1
               = Some ("room:notes", 1)) by (vm_compute; reflexivity).
  assert (H2 : YjsTimers.hasState
                 (run (Y := Toy.lib) initial (firstn 3 YjsTimers.idleRun)) 1 = true)
    by (vm_compute; reflexivity).
  assert (H3 : clients (YjsTimers.stateAt
                          (run (Y := Toy.lib) initial (firstn 3 YjsTimers.idleRun)) 1)
               = [1]) by (vm_compute; reflexivity).
  assert (H4 : forall c,
             In c (clients (YjsTimers.stateAt
                              (run (Y := Toy.lib) initial (firstn 3 YjsTimers.idleRun)) 1)) ->
             c = 1).
  { rewrite H3. intros c [<-|[]]. reflexivity. }
  exact (proj1 (proj2 (proj1
           (last_close_starts_idle_countdown (Y := Toy.lib)
              (firstn 3 YjsTimers.idleRun) allOpen 1 "room:notes" 1
              (YjsTimers.stateAt (run initial (firstn 3 YjsTimers.idleRun)) 1)
              H1 (stateAt_Some _ 1 H2)) H4))).
Defined.

Lemma document_survives_idle_cleanup_witness :
  db (fst (onPutDone (Y := Toy.lib) allOpen
             (fst (onTimer (run initial YjsTimers.idleRun) 3))
             (next (run (Y := Toy.lib) initial YjsTimers.idleRun))))
    !! docKey "room:notes"
  = Some (encodeStateAsUpdate
            (doc (YjsTimers.stateAt (run (Y := Toy.lib) initial YjsTimers.idleRun) 1))).
Proof.
  assert (H1 : timers (run (Y := Toy.lib) initial YjsTimers.idleRun) !! 3
               = Some (mkTimer 30000%N (CleanupTimer "room:notes" 1)))
    by (vm_compute; reflexivity).
  assert (H2 : (30000 <= now (run (Y := Toy.lib) initial YjsTimers.idleRun))%N)
    by (vm_compute; discriminate).
  assert (H3 : YjsTimers.hasState
                 (run (Y := Toy.lib) initial YjsTimers.idleRun) 1 = true)
    by (vm_compute; reflexivity).
  assert (H4 : clients (YjsTimers.stateAt
                          (run (Y := Toy.lib) initial YjsTimers.idleRun) 1) = [])
    by (vm_compute; reflexivity).
  assert (H5 : pendingRooms (run (Y := Toy.lib) initial YjsTimers.idleRun)
                 !! "room:notes" = None) by (vm_compute; reflexivity).
  exact (proj1 (document_survives_idle_cleanup (Y := Toy.lib)
                  (L := toy_replica_laws) YjsTimers.idleRun allOpen 3
                  (mkTimer 30000%N (CleanupTimer "room:notes" 1)) "room:notes" 1
                  (YjsTimers.stateAt (run initial YjsTimers.idleRun) 1) 2
                  H1 eq_refl H2 (stateAt_Some _ 1 H3) H4 H5)).
Defined.

Lemma frame_keeps_membership_witness :
  conn (fst (onMessage (Y := Toy.lib) allOpen (run initial YjsTimers.joinRun) 1
               [0; 2; 42]%Z))
  = conn (run (Y := Toy.lib) initial YjsTimers.joinRun).
Proof.
  assert (H1 : conn (run (Y := Toy.lib) initial YjsTimers.joinRun) !! 1
               = Some ("room:notes", 1)) by (vm_compute; reflexivity).
  assert (H2 : YjsTimers.hasState
                 (run (Y := Toy.lib) initial YjsTimers.joinRun) 1 = true)
    by (vm_compute; reflexivity).
  exact (proj1 (frame_keeps_membership (Y := Toy.lib) allOpen
                  (run initial YjsTimers.joinRun) 1 [0; 2; 42]%Z "room:notes" 1
                  (YjsTimers.stateAt (run initial YjsTimers.joinRun) 1)
                  H1 (stateAt_Some _ 1 H2))).
Defined.

Lemma failed_load_rejects_waiting_handlers_witness :
  YjsTimers.awaiting (run (Y := Toy.lib) initial (firstn 2 YjsTimers.joinRun)) 0
  <> [].
Proof.
  assert (H1 : creating (run (Y := Toy.lib) initial (firstn 2 YjsTimers.joinRun)) !! 0
               = Some (mkCreation "room:notes" newDoc (newAwareness newDoc)))
    by reflexivity.
  exact (proj1 (failed_load_rejects_waiting_handlers (Y := Toy.lib)
                  (firstn 2 YjsTimers.joinRun) 0
                  (mkCreation "room:notes" newDoc (newAwareness newDoc)) H1)).
Defined.

Lemma room_map_points_to_live_states_witness :
  exists st,
    heap (run (Y := Toy.lib) initial YjsTimers.busyRun) !! 1 = Some st
    /\ destroyed st = false.
Proof.
  assert (H : roomStates (run (Y := Toy.lib) initial YjsTimers.busyRun)
                !! "room:notes" = Some 1) by (vm_compute; reflexivity).
  exact (proj1 (room_map_points_to_live_states (Y := Toy.lib) YjsTimers.busyRun
                  "room:notes" 1 H)).
Defined.

End YjsMore.

(** ** More on the upgrade gateway *)

Module GatewayMore.
Import Gateway GatewaySpec GatewayExamples GatewayProofs.

Lemma isAscii_jsLength s : isAscii s = true -> jsLength s = String.length s.
Proof.
  induction s as [|c s IH]; simpl; [reflexivity|].
  intros H. apply andb_true_iff in H. destruct H as [Hc Hs].
  unfold utf16Units. rewrite Hc, IH by exact Hs. reflexivity.
Qed.

Lemma eqb_length a b : String.eqb a b = true -> String.length a = String.length b.
Proof.
  intros H. apply String.eqb_eq in H. subst. reflexivity.
Qed.

(** X1.  On tokens made of ASCII characters only, as the generated room
    tokens are, [safeTokenCompare] never throws and is string equality. *)
Theorem safeTokenCompare_ascii a b :
  isAscii a = true -> isAscii b = true ->
  safeTokenCompare a b = Ok (String.eqb a b).
Proof.
  intros Ha Hb. unfold safeTokenCompare, timingSafeEqual.
  rewrite (isAscii_jsLength a Ha), (isAscii_jsLength b Hb).
  destruct (Nat.eqb (String.length a) (String.length b)) eqn:E; simpl.
  - reflexivity.
  - f_equal. destruct (String.eqb a b) eqn:Eab; [|reflexivity].
    apply eqb_length in Eab. apply Nat.eqb_neq in E. contradiction.
Qed.

Lemma safeTokenCompare_ascii_witness :
  safeTokenCompare "wrong" roomToken = Ok false
  /\ safeTokenCompare roomToken roomToken = Ok true.
Proof.
  split.
  - exact (safeTokenCompare_ascii "wrong" roomToken eq_refl eq_refl).
  - exact (safeTokenCompare_ascii roomToken roomToken eq_refl eq_refl).
Defined.

Lemma safeTokenCompare_refl a : safeTokenCompare a a = Ok true.
Proof.
  unfold safeTokenCompare, timingSafeEqual.
  rewrite !Nat.eqb_refl. simpl. rewrite String.eqb_refl. reflexivity.
Qed.

Lemma safeTokenCompare_Ok_true a b : safeTokenCompare a b = Ok true <-> a = b.
Proof.
  split; [apply safeTokenCompare_true|intros ->; apply safeTokenCompare_refl].
Qed.

Lemma stripPrefix_control_not_ws s :
  stripPrefix "/control/" s <> None -> stripPrefix "/ws/" s = None.
Proof.
  destruct s as [|c0 [|c1 s]]; cbn [stripPrefix].
  - reflexivity.
  - destruct (Ascii.eqb "/" c0); reflexivity.
  - destruct (Ascii.eqb "/" c0); [|reflexivity].
    destruct (Ascii.eqb "c" c1) eqn:E; [|intros H; exfalso; apply H; reflexivity].
    apply Ascii.eqb_eq in E. subst c1. reflexivity.
Qed.

Lemma matchAfter_control_not_ws s r :
  matchAfter "/control/" s = Some r -> matchAfter "/ws/" s = None.
Proof.
  unfold matchAfter. intros H.
  rewrite stripPrefix_control_not_ws; [reflexivity|].
  destruct (stripPrefix "/control/" s); congruence.
Qed.

Section Upgrade.
Variable getRoom : string -> option Room.
Variable REQUIRE_GITHUB_AUTH : bool.
Variable verifyJWT : string -> bool.

Lemma tokenCheck_Ok_true url room :
  tokenCheck url room = Ok true
  <-> searchParamsGet (searchParams url) "token" = Some (room_token room)
      /\ room_token room <> EmptyString.
Proof.
  unfold tokenCheck.
  destruct (searchParamsGet (searchParams url) "token") as [token|].
  - destruct (String.eqb token EmptyString) eqn:E.
    + apply String.eqb_eq in E. subst token. split; [discriminate|].
      intros [H Hne]. inversion H. congruence.
    + rewrite safeTokenCompare_Ok_true. split.
      * intros ->. split; [reflexivity|]. intros H. rewrite H in E. discriminate.
      * intros [H _]. congruence.
  - split; [discriminate|]. intros [H _]. discriminate.
Qed.

Lemma tokenCheck_Throws url room :
  tokenCheck url room = Throws
  <-> exists token,
        searchParamsGet (searchParams url) "token" = Some token
        /\ token <> EmptyString
        /\ jsLength token = jsLength (room_token room)
        /\ String.length token <> String.length (room_token room).
Proof.
  unfold tokenCheck.
  destruct (searchParamsGet (searchParams url) "token") as [token|].
  - destruct (String.eqb token EmptyString) eqn:E.
    + apply String.eqb_eq in E. subst token. split; [discriminate|].
      intros (t & H & Hne & _). inversion H. congruence.
    + rewrite safeTokenCompare_throws. split.
      * intros [H1 H2]. exists token. repeat split; auto.
        intros H. rewrite H in E. discriminate.
      * intros (t & H & _ & H1 & H2). inversion H. subst. auto.
  - split; [discriminate|]. intros (t & H & _). discriminate.
Qed.

(** X2.  The upgrade handler hands a socket to the CRDT engine exactly when
    the path is /ws/<name>, the part of <name> before the first colon is a
    registered room, the token parameter is that room's non-empty token and
    the jwt check passes; and to the control engine exactly when the path is
    /control/<id> with the same conditions on room <id>. *)
Theorem upgrade_handed_iff url :
  (forall full,
      upgrade getRoom REQUIRE_GITHUB_AUTH verifyJWT url = YjsConnection full
      <-> matchAfter "/ws/" (pathname url) = Some full
          /\ exists room,
               getRoom (beforeColon full) = Some room
               /\ searchParamsGet (searchParams url) "token" = Some (room_token room)
               /\ room_token room <> EmptyString
               /\ jwtCheck REQUIRE_GITHUB_AUTH verifyJWT url = true)
  /\ (forall roomId,
        upgrade getRoom REQUIRE_GITHUB_AUTH verifyJWT url = ControlConnection roomId
        <-> matchAfter "/control/" (pathname url) = Some roomId
            /\ exists room,
                 getRoom roomId = Some room
                 /\ searchParamsGet (searchParams url) "token" = Some (room_token room)
                 /\ room_token room <> EmptyString
                 /\ jwtCheck REQUIRE_GITHUB_AUTH verifyJWT url = true).
Proof.
  split.
  - intros full. unfold upgrade. split.
    + destruct (matchAfter "/ws/" (pathname url)) as [f|] eqn:Hm.
      * destruct (getRoom (beforeColon f)) as [room|] eqn:Hr; [|discriminate].
        destruct (tokenCheck url room) as [[|]|] eqn:Ht; try discriminate.
        destruct (jwtCheck REQUIRE_GITHUB_AUTH verifyJWT url) eqn:Hj; [|discriminate].
        intros H. inversion H. subst f. split; [reflexivity|].
        apply tokenCheck_Ok_true in Ht. destruct Ht as [Ht1 Ht2].
        exists room. auto.
      * destruct (matchAfter "/control/" (pathname url)); [|discriminate].
        destruct (getRoom s) as [room|]; [|discriminate].
        destruct (tokenCheck url room) as [[|]|]; try discriminate.
        destruct (jwtCheck REQUIRE_GITHUB_AUTH verifyJWT url); discriminate.
    + intros (Hm & room & Hr & Ht & Hne & Hj).
      rewrite Hm, Hr, (proj2 (tokenCheck_Ok_true url room) (conj Ht Hne)), Hj.
      reflexivity.
  - intros roomId. unfold upgrade. split.
    + destruct (matchAfter "/ws/" (pathname url)) as [f|] eqn:Hm.
      * destruct (getRoom (beforeColon f)) as [room|]; [|discriminate].
        destruct (tokenCheck url room) as [[|]|]; try discriminate.
        destruct (jwtCheck REQUIRE_GITHUB_AUTH verifyJWT url); discriminate.
      * destruct (matchAfter "/control/" (pathname url)) as [r|]; [|discriminate].
        destruct (getRoom r) as [room|] eqn:Hr; [|discriminate].
        destruct (tokenCheck url room) as [[|]|] eqn:Ht; try discriminate.
        destruct (jwtCheck REQUIRE_GITHUB_AUTH verifyJWT url) eqn:Hj; [|discriminate].
        intros H. inversion H. subst r. split; [reflexivity|].
        apply tokenCheck_Ok_true in Ht. destruct Ht as [Ht1 Ht2].
        exists room. auto.
    + intros (Hm & room & Hr & Ht & Hne & Hj).
      rewrite (matchAfter_control_not_ws _ _ Hm), Hm, Hr,
        (proj2 (tokenCheck_Ok_true url room) (conj Ht Hne)), Hj.
      reflexivity.
Qed.

(** Once the request is parsed, the handler throws exactly when the request
    names a registered room and carries a non-empty token with as many
    UTF-16 code units as the room's token but another number of UTF-8
    bytes. *)
Lemma upgrade_parsed_thrown_iff url :
  upgrade getRoom REQUIRE_GITHUB_AUTH verifyJWT url = Thrown
  <-> exists room token,
        routed getRoom url room
        /\ searchParamsGet (searchParams url) "token" = Some token
        /\ token <> EmptyString
        /\ jsLength token = jsLength (room_token room)
        /\ String.length token <> String.length (room_token room).
Proof.
  unfold upgrade, routed. split.
  - destruct (matchAfter "/ws/" (pathname url)) as [f|] eqn:Hm.
    + destruct (getRoom (beforeColon f)) as [room|] eqn:Hr; [|discriminate].
      destruct (tokenCheck url room) as [[|]|] eqn:Ht; try discriminate.
      * destruct (jwtCheck REQUIRE_GITHUB_AUTH verifyJWT url); discriminate.
      * intros _. apply tokenCheck_Throws in Ht.
        destruct Ht as (token & H1 & H2 & H3 & H4).
        exists room, token. split; [left; eauto|]. auto.
    + destruct (matchAfter "/control/" (pathname url)) as [r|] eqn:Hc; [|discriminate].
      destruct (getRoom r) as [room|] eqn:Hr; [|discriminate].
      destruct (tokenCheck url room) as [[|]|] eqn:Ht; try discriminate.
      * destruct (jwtCheck REQUIRE_GITHUB_AUTH verifyJWT url); discriminate.
      * intros _. apply tokenCheck_Throws in Ht.
        destruct Ht as (token & H1 & H2 & H3 & H4).
        exists room, token. split; [right; eauto|]. auto.
  - intros (room & token & Hroute & H1 & H2 & H3 & H4).
    assert (Ht : tokenCheck url room = Throws).
    { apply tokenCheck_Throws. exists token. auto. }
    destruct Hroute as [(full & Hm & Hr)|(Hm & r & Hc & Hr)].
    + rewrite Hm, Hr, Ht. reflexivity.
    + rewrite Hm, Hc, Hr, Ht. reflexivity.
Qed.

(** [new URL(input, base)] of the platform; [None] when it throws *)
Variable newURL : string -> string -> option URL.

(** X3.  The upgrade handler throws exactly when the platform's URL parser
    rejects the request target, or the request names a registered room and
    carries a non-empty token with as many UTF-16 code units as the room's
    token but another number of UTF-8 bytes. *)
Theorem upgrade_thrown_iff reqUrl host :
  onUpgrade newURL getRoom REQUIRE_GITHUB_AUTH verifyJWT reqUrl host = Thrown
  <-> newURL (orEmpty reqUrl) (requestBase host) = None
      \/ exists url room token,
           newURL (orEmpty reqUrl) (requestBase host) = Some url
           /\ routed getRoom url room
           /\ searchParamsGet (searchParams url) "token" = Some token
           /\ token <> EmptyString
           /\ jsLength token = jsLength (room_token room)
           /\ String.length token <> String.length (room_token room).
Proof.
  unfold onUpgrade.
  destruct (newURL (orEmpty reqUrl) (requestBase host)) as [url|].
  - rewrite upgrade_parsed_thrown_iff. split.
    + intros (room & token & H). right. exists url, room, token.
      split; [reflexivity|exact H].
    + intros [H|(url' & room & token & E & H)]; [discriminate|].
      inversion E. subst url'. exists room, token. exact H.
  - split; [intros _; left; reflexivity|reflexivity].
Qed.

End Upgrade.

Lemma beforeColon_no_colon s : hasColon s = false -> beforeColon s = s.
Proof.
  induction s as [|c s IH]; cbn [hasColon beforeColon]; [reflexivity|].
  intros H. apply orb_false_iff in H. destruct H as [Hc Hs].
  rewrite Hc, IH by exact Hs. reflexivity.
Qed.

Lemma beforeColon_append id rest :
  hasColon id = false -> beforeColon (id ++ String ":"%char rest) = id.
Proof.
  induction id as [|c id IH]; intros H.
  - reflexivity.
  - cbn [hasColon] in H. apply orb_false_iff in H. destruct H as [Hc Hs].
    change (beforeColon (String c (id ++ String ":"%char rest)) = String c id).
    cbn [beforeColon]. rewrite Hc. f_equal. apply IH. exact Hs.
Qed.

(** X4.  The room a CRDT connection is checked against is the document name
    up to its first colon: for a room id without a colon, the names <id> and
    <id>:<docKey> both resolve to <id>, whatever the document key; and the
    result never contains a colon, so a room whose id contains one cannot be
    reached on the CRDT route. *)
Theorem beforeColon_room_of_document id docKey :
  hasColon id = false ->
  beforeColon id = id
  /\ beforeColon (id ++ String ":"%char docKey) = id
  /\ forall s, hasColon (beforeColon s) = false.
Proof.
  intros H. split; [apply beforeColon_no_colon; exact H|].
  split; [apply beforeColon_append; exact H|].
  induction s as [|c s IH]; cbn [hasColon beforeColon]; [reflexivity|].
  destruct (Ascii.eqb c ":") eqn:E; cbn [hasColon]; [reflexivity|].
  rewrite E, IH. reflexivity.
Qed.

Lemma beforeColon_room_of_document_witness :
  beforeColon "room-1" = "room-1"
  /\ beforeColon ("room-1" ++ String ":"%char "notes/a:b.md") = "room-1".
Proof.
  pose proof (beforeColon_room_of_document "room-1" "notes/a:b.md" eq_refl)
    as (H1 & H2 & _).
  split; assumption.
Defined.

End GatewayMore.

(** ** The room registry and its records in the store *)

Module RoomsProofs.
Import Gateway GatewaySpec Persistence Registry PersistenceRooms Rooms RoomsSpec.
Import GatewayExamples GatewayProofs GatewayMore.

(** *** Keys *)

Lemma roomKey_prefix id : startsWith "room:" (roomKey id) = true.
Proof. reflexivity. Qed.

Lemma docKey_prefix name : startsWith "room:" (docKey name) = false.
Proof. reflexivity. Qed.

Lemma roomKey_inj a b : roomKey a = roomKey b -> a = b.
Proof.
  unfold roomKey. intros H. cbv [String.append] in H. inversion H. reflexivity.
Qed.

Lemma docKey_not_roomKey name id : docKey name <> roomKey id.
Proof.
  intros H. pose proof (roomKey_prefix id) as Hp. rewrite <- H in Hp.
  rewrite docKey_prefix in Hp. discriminate.
Qed.

(** *** The iterator *)

Lemma iterator_In (db : gmap string bytes) k v :
  In (k, v) (iterator db) <-> db !! k = Some v.
Proof.
  unfold iterator. rewrite <- list_elem_of_In.
  rewrite (merge_sort_Permutation keyLe (map_to_list db)).
  apply elem_of_map_to_list.
Qed.

Lemma ascii_compare_N a b :
  Ascii.compare a b = N.compare (Ascii.N_of_ascii a) (Ascii.N_of_ascii b).
Proof. reflexivity. Qed.

Lemma string_leb_trans a : forall b c,
  String.leb a b = true -> String.leb b c = true -> String.leb a c = true.
Proof.
  unfold String.leb.
  induction a as [|x a IH]; intros [|y b] [|z c]; cbn [String.compare];
    try congruence.
  rewrite !ascii_compare_N.
  destruct (N.compare_spec (Ascii.N_of_ascii x) (Ascii.N_of_ascii y)) as [E1|E1|E1];
    destruct (N.compare_spec (Ascii.N_of_ascii y) (Ascii.N_of_ascii z)) as [E2|E2|E2];
    destruct (N.compare_spec (Ascii.N_of_ascii x) (Ascii.N_of_ascii z)) as [E3|E3|E3];
    try congruence; try lia; try (intros; apply (IH b c); assumption).
Qed.

#[local] Instance keyLe_trans : Transitive keyLe.
Proof. intros a b c. unfold keyLe. apply string_leb_trans. Qed.

#[local] Instance keyLe_total : Total keyLe.
Proof. intros a b. unfold keyLe. apply String.leb_total. Qed.

Lemma iterator_sorted (db : gmap string bytes) : StronglySorted keyLe (iterator db).
Proof. apply StronglySorted_merge_sort; apply _. Qed.

Lemma StronglySorted_filter {A} (R : relation A) (P : A -> Prop)
    `{forall x, Decision (P x)} l :
  StronglySorted R l -> StronglySorted R (filter P l).
Proof.
  induction 1 as [|x l Hs IH Hall]; [constructor|].
  rewrite filter_cons. destruct (decide (P x)); [|exact IH].
  constructor; [exact IH|]. apply List.Forall_forall. intros y Hy.
  apply list_elem_of_In, list_elem_of_filter in Hy. destruct Hy as [_ Hy].
  rewrite List.Forall_forall in Hall. apply Hall, list_elem_of_In. exact Hy.
Qed.

(** The room entries of the store, in iteration order, are left as they are
    by a write or a removal under a key that is not a room key. *)
Lemma room_entries_frame (db db' : gmap string bytes) :
  (forall k, startsWith "room:" k = true -> db' !! k = db !! k) ->
  filter isRoomEntry (iterator db') = filter isRoomEntry (iterator db).
Proof.
  intros Hsame.
  apply (StronglySorted_unique_strong keyLe).
  - intros [k1 v1] [k2 v2] H1 H2 L1 L2. unfold keyLe in L1, L2. simpl in *.
    assert (k1 = k2) by (apply String.leb_antisym; assumption). subst k2.
    apply list_elem_of_filter in H1, H2. destruct H1 as [P1 H1], H2 as [P2 H2].
    rewrite list_elem_of_In, iterator_In in H1, H2.
    unfold isRoomEntry in P1. simpl in P1. rewrite (Hsame k1 P1) in H1. congruence.
  - apply StronglySorted_filter, iterator_sorted.
  - apply StronglySorted_filter, iterator_sorted.
  - apply list.NoDup_Permutation.
    + apply list.NoDup_filter. unfold iterator.
      rewrite (merge_sort_Permutation keyLe (map_to_list db')).
      apply NoDup_map_to_list.
    + apply list.NoDup_filter. unfold iterator.
      rewrite (merge_sort_Permutation keyLe (map_to_list db)).
      apply NoDup_map_to_list.
    + intros [k v]. rewrite !list_elem_of_filter, !list_elem_of_In, !iterator_In.
      unfold isRoomEntry. simpl. split; intros [P H]; (split; [exact P|]).
      * rewrite <- (Hsame k P). exact H.
      * rewrite (Hsame k P). exact H.
Qed.

Section Store.
Context {J : JsonLib}.

Lemma collect_filter it : forall acc,
  collect it acc = collect (filter isRoomEntry it) acc.
Proof.
  induction it as [|[k v] it IH]; intros acc; [reflexivity|].
  rewrite filter_cons. unfold isRoomEntry at 1. cbn [fst collect].
  destruct (decide (startsWith "room:" k = true)) as [E|E].
  - rewrite E. cbn [collect]. rewrite E.
    destruct (parse v); [apply IH|reflexivity].
  - apply not_true_is_false in E. rewrite E. apply IH.
Qed.

Lemma collect_stops pre k v post : forall acc,
  startsWith "room:" k = true -> parse v = None ->
  collect (pre ++ (k, v) :: post) acc = collect pre acc.
Proof.
  induction pre as [|[k0 v0] pre IH]; intros acc Hk Hv.
  - cbn [app collect]. rewrite Hk, Hv. reflexivity.
  - cbn [app collect]. destruct (startsWith "room:" k0); [|apply IH; assumption].
    destruct (parse v0); [apply IH; assumption|reflexivity].
Qed.

Lemma collect_In it : forall acc,
  (forall k v, In (k, v) it -> startsWith "room:" k = true ->
               is_Some (parse v)) ->
  forall r,
    In r (collect it acc)
    <-> In r acc
        \/ exists k v, In (k, v) it /\ startsWith "room:" k = true
                       /\ parse v = Some r.
Proof.
  induction it as [|[k v] it IH]; intros acc Hall r; cbn [collect].
  - split; [auto|]. intros [H|(k & v & [] & _)]. exact H.
  - assert (Hall' : forall k0 v0, In (k0, v0) it ->
                      startsWith "room:" k0 = true -> is_Some (parse v0)).
    { intros k0 v0 Hin. apply Hall. right. exact Hin. }
    destruct (startsWith "room:" k) eqn:Hk.
    + destruct (Hall k v (or_introl eq_refl) Hk) as [room Hroom]. rewrite Hroom.
      rewrite (IH _ Hall' r), in_app_iff. cbn [In]. split.
      * intros [[H|[H|[]]]|(k0 & v0 & Hin & Hp & Hv)].
        -- left. exact H.
        -- right. exists k, v. subst room. auto.
        -- right. exists k0, v0. auto.
      * intros [H|(k0 & v0 & [Hin|Hin] & Hp & Hv)].
        -- left. left. exact H.
        -- inversion Hin. subst k0 v0. left. right. left. congruence.
        -- right. exists k0, v0. auto.
    + rewrite (IH _ Hall' r). cbn [In]. split.
      * intros [H|(k0 & v0 & Hin & Hp & Hv)]; [left; exact H|].
        right. exists k0, v0. auto.
      * intros [H|(k0 & v0 & [Hin|Hin] & Hp & Hv)]; [left; exact H| |].
        -- inversion Hin. subst k0 v0. congruence.
        -- right. exists k0, v0. auto.
Qed.

Lemma loadRooms_reads_room_entries_aux (db : gmap string bytes) :
  (forall k v, db !! k = Some v -> startsWith "room:" k = true ->
               is_Some (parse v)) ->
  forall r, In r (loadRooms db)
            <-> exists k v, db !! k = Some v
                            /\ startsWith "room:" k = true
                            /\ parse v = Some r.
Proof.
  intros Hall r. unfold loadRooms. rewrite collect_In.
  - split.
    + intros [[]|(k & v & Hin & Hp & Hv)]. exists k, v.
      rewrite iterator_In in Hin. auto.
    + intros (k & v & Hdb & Hp & Hv). right. exists k, v.
      rewrite iterator_In. auto.
  - intros k v Hin. apply Hall. apply iterator_In. exact Hin.
Qed.

(** X18.  [loadRooms] reads the entries of the store in key order and
    returns the parsed values of those under a room key.  If every such
    value parses, the result lists exactly these rooms.  If one does not
    parse, reading stops there: the result is what the entries before it
    gave, and neither that entry nor any room after it in key order is
    returned. *)
Theorem loadRooms_reads_room_entries (db : gmap string bytes) :
  ((forall k v, db !! k = Some v -> startsWith "room:" k = true ->
                is_Some (parse v)) ->
   forall r, In r (loadRooms db)
             <-> exists k v, db !! k = Some v
                             /\ startsWith "room:" k = true
                             /\ parse v = Some r)
  /\ (forall pre k v post,
        iterator db = (pre ++ (k, v) :: post)%list ->
        startsWith "room:" k = true -> parse v = None ->
        loadRooms db = collect pre []
        /\ forall k' v', In (k', v') pre -> String.leb k' k = true).
Proof.
  split; [apply loadRooms_reads_room_entries_aux|].
  - intros pre k v post Hit Hk Hv. unfold loadRooms. rewrite Hit. split.
    + apply collect_stops; assumption.
    + intros k' v' Hin. pose proof (iterator_sorted db) as Hs. rewrite Hit in Hs.
      apply StronglySorted_app_1_elem_of with (x1 := (k', v')) (x2 := (k, v)) in Hs.
      * exact Hs.
      * apply list_elem_of_In. exact Hin.
      * left.
Qed.

(** X19.  Rooms and documents share one store without touching each
    other: a document key is never a room key, so saving or deleting a room
    leaves every [loadDoc] as it was, and persisting a document leaves
    [loadRooms] as it was. *)
Theorem rooms_and_documents_apart {Y : YLib} (db : gmap string bytes)
    (name : string) (d d0 : Doc) (room : StoredRoom) (id : string) :
  docKey name <> roomKey id
  /\ loadDoc (saveRoom db room) name d0 = loadDoc db name d0
  /\ loadDoc (deleteRoom db id) name d0 = loadDoc db name d0
  /\ loadRooms (persistDoc db name d) = loadRooms db.
Proof.
  split; [apply docKey_not_roomKey|]. split; [|split].
  - unfold loadDoc, saveRoom.
    rewrite lookup_insert_ne; [reflexivity|].
    intros H. symmetry in H. revert H. apply docKey_not_roomKey.
  - unfold loadDoc, deleteRoom.
    rewrite lookup_delete_ne; [reflexivity|].
    intros H. symmetry in H. revert H. apply docKey_not_roomKey.
  - unfold loadRooms. rewrite collect_filter, (collect_filter (iterator db)).
    f_equal. apply room_entries_frame. intros k Hk. unfold persistDoc.
    apply lookup_insert_ne. intros H. subst k. rewrite docKey_prefix in Hk.
    discriminate.
Qed.

End Store.

#[export] Instance toyJson_laws : JsonLaws toyJson.
Proof.
  constructor. intros [[id token host req perm] name at_].
  cbn [stringify parse toyJson toyParse toTuple meta room_id room_token
       hostUserId requireApproval defaultPermission room_name room_createdAt].
  rewrite decode_encode. reflexivity.
Qed.

(** *** The REST handlers *)

Lemma stripPrefix_app p : forall s, stripPrefix p (p ++ s) = Some s.
Proof.
  induction p as [|c p IH]; intros s; [reflexivity|].
  change (String c p ++ s) with (String c (p ++ s)). cbn [stripPrefix].
  rewrite Ascii.eqb_refl. apply IH.
Qed.

Lemma stripPrefix_Some p : forall s rest,
  stripPrefix p s = Some rest -> s = p ++ rest.
Proof.
  induction p as [|c p IH]; intros s rest; cbn [stripPrefix].
  - intros H. inversion H. reflexivity.
  - destruct s as [|x s]; [discriminate|].
    destruct (Ascii.eqb c x) eqn:E; [|discriminate].
    apply Ascii.eqb_eq in E. subst x. intros H. apply IH in H. subst s.
    reflexivity.
Qed.

Lemma matchAfter_app p id :
  id <> EmptyString -> hasLineTerminator id = false ->
  matchAfter p (p ++ id) = Some id.
Proof.
  intros Hne Hlt. unfold matchAfter. rewrite stripPrefix_app, Hlt.
  destruct (String.eqb id "") eqn:E; [|reflexivity].
  apply String.eqb_eq in E. contradiction.
Qed.

Lemma ws_not_control s : stripPrefix "/ws/" ("/control/" ++ s) = None.
Proof. reflexivity. Qed.

Section Router.
Context {J : JsonLib}.
Variable safeTokenCompare : string -> string -> Result bool.

Lemma postRoom_cases s body id token now :
  (validName body /\ validHost body
   /\ exists name, b_name body = Some name
        /\ postRoom s body id token now
           = (mkState
                (<[id := mkStoredRoom (mkRoom id token (b_hostUserId body) None None)
                           name now]> (rooms s))
                (saveRoom (store s)
                   (mkStoredRoom (mkRoom id token (b_hostUserId body) None None)
                      name now)),
              Created id token name))
  \/ (~ (validName body /\ validHost body)
      /\ exists error, postRoom s body id token now = (s, BadRequest error)).
Proof.
  unfold postRoom, validName, validHost.
  destruct (b_name body) as [name|] eqn:Hn.
  2:{ right. split; [intros [(n & H & _) _]; discriminate|eauto]. }
  destruct (String.eqb name "") eqn:He.
  { apply String.eqb_eq in He. subst name. right.
    split; [intros [(n & H & Hne & _) _]; inversion H; subst; contradiction|eauto]. }
  assert (Hne : name <> EmptyString) by (intros ->; discriminate).
  destruct (Nat.ltb 100 (jsLength name)) eqn:Hlen; cbn [orb].
  { apply Nat.ltb_lt in Hlen. right.
    split; [intros [(n & H & _ & Hle & _) _]; inversion H; subst; lia|eauto]. }
  apply Nat.ltb_ge in Hlen.
  destruct (CONTROL_CHARS name) eqn:Hcc.
  { right. split; [intros [(n & H & _ & _ & Hc) _]; inversion H; subst; congruence|eauto]. }
  destruct (b_hostUserId body) as [h|] eqn:Hh; cbn [truthy orEmpty negb andb].
  - destruct (String.eqb h "") eqn:Hhe; cbn [negb andb].
    + apply String.eqb_eq in Hhe. left.
      split; [exists name; auto|]. split; [left; exact Hhe|]. eauto.
    + destruct (Nat.ltb 128 (jsLength h)) eqn:Hhl; cbn [orb].
      * apply Nat.ltb_lt in Hhl. right. split; [|eauto].
        intros [_ [E|[Hle _]]]; [subst h; discriminate|lia].
      * apply Nat.ltb_ge in Hhl. destruct (CONTROL_CHARS h) eqn:Hhc.
        -- right. split; [|eauto].
           intros [_ [E|[_ Hc]]]; [subst h; discriminate|congruence].
        -- left. split; [exists name; auto|]. split; [right; auto|]. eauto.
  - left. split; [exists name; auto|]. split; [exact I|]. eauto.
Qed.

(** X20.  POST / creates a room exactly when the name is a non-empty
    string of at most 100 UTF-16 code units without control characters and
    the host user-id is absent, empty, or at most 128 code units without
    control characters.  Then the answer is 201 with the new id, token and
    name, the registry maps the id to the room and the store holds its JSON
    under the room key.  Otherwise the answer is 400 and neither the
    registry nor the store changes. *)
Theorem post_room_validates s body id token now :
  ((exists name, snd (postRoom s body id token now) = Created id token name)
   <-> validName body /\ validHost body)
  /\ (validName body /\ validHost body ->
      exists name,
        b_name body = Some name
        /\ getRoom (rooms (fst (postRoom s body id token now))) id
           = Some (mkRoom id token (b_hostUserId body) None None)
        /\ store (fst (postRoom s body id token now)) !! roomKey id
           = Some (stringify
                     (mkStoredRoom (mkRoom id token (b_hostUserId body) None None)
                        name now)))
  /\ (~ (validName body /\ validHost body) ->
      fst (postRoom s body id token now) = s
      /\ exists error, snd (postRoom s body id token now) = BadRequest error).
Proof.
  destruct (postRoom_cases s body id token now)
    as [(Hv & Hh & name & Hn & E)|(Hbad & error & E)]; rewrite E; cbn [fst snd].
  - split; [split; [auto|eauto]|]. split; [|intros H; exfalso; apply H; auto].
    intros _. exists name. split; [exact Hn|].
    unfold getRoom, saveRoom. cbn [rooms store meta room_id].
    rewrite !lookup_insert_eq. auto.
  - split; [split; [intros [name H]; discriminate|intros H; contradiction]|].
    split; [intros H; contradiction|]. intros _. eauto.
Qed.

(** X21.  A room made by POST / never requires approval and has no default
    permission of its own: on its control channel every connection starts
    with read-write, the host is pinned exactly when a non-empty host
    user-id was given, and every join-request is approved at once and
    answered to the sender with its permission. *)
Theorem created_room_policy s body id token now s' name :
  postRoom s body id token now = (s', Created id token name) ->
  Control.serverRequireApproval (getRoom (rooms s') id) = false
  /\ Control.initialPermission (getRoom (rooms s') id) = "read-write"
  /\ Control.serverHostUserId (getRoom (rooms s') id) = b_hostUserId body
  /\ forall rs croom ws client f msg,
       Control.mapGet ws (Control.clients croom) = Some client ->
       Control.json f = Some msg ->
       Control.type msg = "join-request" ->
       snd (Control.onMessage rs (getRoom (rooms s') id) croom ws f)
       = Control.sendTo rs ws
           (Control.JoinResponse true (Control.permission client))
       /\ exists c, Control.mapGet ws
                      (Control.clients
                         (fst (Control.onMessage rs (getRoom (rooms s') id)
                                 croom ws f))) = Some c
                    /\ Control.approved c = true.
Proof.
  intros E.
  destruct (postRoom_cases s body id token now)
    as [(Hv & Hh & name' & Hn & E')|(Hbad & error & E')];
    rewrite E' in E; inversion E; subst.
  assert (Hg : getRoom
                 (<[id := mkStoredRoom (mkRoom id token (b_hostUserId body) None None)
                            name now]> (rooms s)) id
               = Some (mkRoom id token (b_hostUserId body) None None)).
  { unfold getRoom. rewrite lookup_insert_eq. reflexivity. }
  cbn [rooms]. rewrite Hg.
  split; [reflexivity|]. split; [reflexivity|]. split; [reflexivity|].
  intros rs croom ws client f msg Hget Hj Ht.
  unfold Control.onMessage. rewrite Hget, Hj, Ht.
  change (Control.allowed "join-request") with true.
  change (String.eqb "join-request" "join-request") with true.
  cbn [negb]. cbv iota. unfold Control.handleJoinRequest.
  change (Control.serverRequireApproval
            (Some (mkRoom id token (b_hostUserId body) None None))) with false.
  cbv iota. cbn [fst snd Control.setClient Control.clients].
  split; [reflexivity|].
  rewrite ControlProofs.mapGet_mapSet, Nat.eqb_refl. eexists. split; reflexivity.
Qed.

(** X22.  A room made by POST / can be entered with what the answer
    carries, provided the token comparison of the REST module accepts a
    token compared with itself and the generated id is non-empty and has no
    colon and no line terminator: POST /:id/join with the token answers 200
    with the socket path /ws/<id>, and the upgrade handler (identity auth
    off) hands a socket to the CRDT engine for /ws/<id> and for
    /ws/<id>:<docKey>, and to the control engine for /control/<id>, when
    the token is passed as the query parameter. *)
Theorem created_room_is_joinable s body id token now s' name verifyJWT :
  postRoom s body id token now = (s', Created id token name) ->
  safeTokenCompare token token = Ok true ->
  token <> EmptyString ->
  id <> EmptyString -> hasColon id = false -> hasLineTerminator id = false ->
  postJoin safeTokenCompare s' id (Some token)
  = (s', Joined id name ("/ws/" ++ id))
  /\ upgrade (getRoom (rooms s')) false verifyJWT
       (mkURL ("/ws/" ++ id) [("token", token)]) = YjsConnection id
  /\ (forall docKey,
        hasLineTerminator (id ++ String ":"%char docKey) = false ->
        upgrade (getRoom (rooms s')) false verifyJWT
          (mkURL ("/ws/" ++ id ++ String ":"%char docKey) [("token", token)])
        = YjsConnection (id ++ String ":"%char docKey))
  /\ upgrade (getRoom (rooms s')) false verifyJWT
       (mkURL ("/control/" ++ id) [("token", token)]) = ControlConnection id.
Proof.
  intros E Hcmp Htok Hid Hcolon Hlt.
  destruct (postRoom_cases s body id token now)
    as [(Hv & Hh & name' & Hn & E')|(Hbad & error & E')];
    rewrite E' in E; inversion E; subst.
  assert (Hl : <[id := mkStoredRoom (mkRoom id token (b_hostUserId body) None None)
                         name now]> (rooms s) !! id
               = Some (mkStoredRoom (mkRoom id token (b_hostUserId body) None None)
                         name now)) by apply lookup_insert_eq.
  assert (Hg : getRoom
                 (<[id := mkStoredRoom (mkRoom id token (b_hostUserId body) None None)
                            name now]> (rooms s)) id
               = Some (mkRoom id token (b_hostUserId body) None None)).
  { unfold getRoom. rewrite Hl. reflexivity. }
  assert (Htc : forall p, tokenCheck (mkURL p [("token", token)])
                            (mkRoom id token (b_hostUserId body) None None)
                          = Ok true).
  { intros p. apply tokenCheck_Ok_true. cbn. auto. }
  assert (Htr : truthy (Some token) = true).
  { cbn. destruct (String.eqb token "") eqn:E0; [|reflexivity].
    apply String.eqb_eq in E0. contradiction. }
  split; [|split; [|split]].
  - unfold postJoin. cbn [rooms]. rewrite Hl, Htr. cbn [negb orEmpty meta room_token].
    rewrite Hcmp. reflexivity.
  - unfold upgrade. cbn [pathname rooms].
    rewrite (matchAfter_app "/ws/" id Hid Hlt).
    rewrite (beforeColon_no_colon id Hcolon), Hg, Htc. reflexivity.
  - intros docKey Hd. unfold upgrade. cbn [pathname rooms].
    rewrite matchAfter_app; [|destruct id; [contradiction|discriminate]|exact Hd].
    rewrite (beforeColon_append id docKey Hcolon), Hg, Htc. reflexivity.
  - unfold upgrade. cbn [pathname rooms].
    assert (Hw : matchAfter "/ws/" ("/control/" ++ id) = None).
    { unfold matchAfter. rewrite ws_not_control. reflexivity. }
    rewrite Hw, (matchAfter_app "/control/" id Hid Hlt), Hg, Htc. reflexivity.
Qed.

(** X23.  DELETE /:id of an existing room succeeds exactly when the
    Authorization header is Bearer followed by the room's token (the token
    comparison being equality).  Then the room is gone from the registry
    and from the store, every other room is untouched, and a later join
    answers 404.  In every other case nothing changes. *)
Theorem delete_needs_the_token s id room auth :
  (forall a b, safeTokenCompare a b = Ok true <-> a = b) ->
  rooms s !! id = Some room ->
  (snd (deleteRoomById safeTokenCompare s id auth) = Deleted
   <-> auth = Some ("Bearer " ++ room_token (meta room)))
  /\ (snd (deleteRoomById safeTokenCompare s id auth) = Deleted ->
      getRoom (rooms (fst (deleteRoomById safeTokenCompare s id auth))) id = None
      /\ store (fst (deleteRoomById safeTokenCompare s id auth)) !! roomKey id = None
      /\ (forall id', id' <> id ->
            rooms (fst (deleteRoomById safeTokenCompare s id auth)) !! id'
            = rooms s !! id')
      /\ forall token,
           snd (postJoin safeTokenCompare
                  (fst (deleteRoomById safeTokenCompare s id auth)) id token)
           = NotFound)
  /\ (snd (deleteRoomById safeTokenCompare s id auth) <> Deleted ->
      fst (deleteRoomById safeTokenCompare s id auth) = s).
Proof.
  intros Hcmp Hroom. unfold deleteRoomById.
  destruct auth as [header|].
  2:{ cbn [fst snd]. split; [split; discriminate|]. split; [discriminate|auto]. }
  destruct (stripPrefix "Bearer " header) as [token|] eqn:Hs.
  2:{ cbn [fst snd]. split; [split; [discriminate|]|split; [discriminate|auto]].
      intros H. inversion H. subst header. rewrite stripPrefix_app in Hs.
      discriminate. }
  apply stripPrefix_Some in Hs. subst header. rewrite Hroom.
  destruct (safeTokenCompare token (room_token (meta room))) as [[|]|] eqn:Hc;
    cbn [fst snd].
  - apply Hcmp in Hc. subst token. split; [split; auto|]. split; [|intros H; contradiction].
    intros _. unfold getRoom, deleteRoom, postJoin. cbn [rooms store].
    rewrite !lookup_delete_eq. split; [reflexivity|]. split; [reflexivity|].
    split; [|reflexivity]. intros id' Hne. apply lookup_delete_ne. congruence.
  - split; [split; [discriminate|]|split; [discriminate|auto]].
    intros H. inversion H as [H1]. cbv [String.append] in H1. inversion H1.
    subst token. rewrite (proj2 (Hcmp _ _) eq_refl) in Hc. discriminate.
  - split; [split; [discriminate|]|split; [discriminate|auto]].
    intros H. inversion H as [H1]. cbv [String.append] in H1. inversion H1.
    subst token. rewrite (proj2 (Hcmp _ _) eq_refl) in Hc. discriminate.
Qed.

(** *** The registry and the store agree *)

Lemma Consistent_empty (db : gmap string bytes) :
  noRoomKeys db -> Consistent (mkState ∅ db).
Proof.
  intros Hno. split; cbn [rooms store].
  - intros id room H. rewrite lookup_empty in H. discriminate.
  - intros k v H Hp. rewrite (Hno k v H) in Hp. discriminate.
Qed.

Lemma Consistent_handle s r :
  Consistent s -> Consistent (fst (handle safeTokenCompare s r)).
Proof.
  intros HC. destruct r as [body id token now|id token|id|id auth]; cbn [handle].
  - destruct (postRoom_cases s body id token now)
      as [(_ & _ & name & _ & E)|(_ & error & E)]; rewrite E; cbn [fst];
      [|exact HC].
    destruct HC as [Hs Hm]. split; cbn [rooms store]; unfold saveRoom;
      cbn [meta room_id].
    + intros id' room H. destruct (decide (id = id')) as [->|Hne].
      * rewrite lookup_insert_eq in H. inversion H. subst room.
        rewrite lookup_insert_eq. auto.
      * rewrite lookup_insert_ne in H by exact Hne.
        destruct (Hs id' room H) as [H1 H2]. split; [exact H1|].
        rewrite lookup_insert_ne; [exact H2|].
        intros E'. apply roomKey_inj in E'. contradiction.
    + intros k v H Hp. destruct (decide (roomKey id = k)) as [<-|Hne].
      * rewrite lookup_insert_eq in H. inversion H. subst v.
        eexists id, _. rewrite lookup_insert_eq. auto.
      * rewrite lookup_insert_ne in H by exact Hne.
        destruct (Hm k v H Hp) as (id' & room & -> & H1 & H2).
        exists id', room. rewrite lookup_insert_ne; [auto|]. congruence.
  - unfold postJoin. destruct (rooms s !! id); [|exact HC].
    destruct (negb (truthy token)); [exact HC|].
    destruct (safeTokenCompare _ _) as [[|]|]; exact HC.
  - unfold getInfo. destruct (rooms s !! id); exact HC.
  - unfold deleteRoomById. destruct auth as [header|]; [|exact HC].
    destruct (stripPrefix "Bearer " header); [|exact HC].
    destruct (rooms s !! id); [|exact HC].
    destruct (safeTokenCompare _ _) as [[|]|]; [|exact HC|exact HC].
    cbn [fst]. destruct HC as [Hs Hm]. split; cbn [rooms store]; unfold deleteRoom.
    + intros id' room H. apply lookup_delete_Some in H. destruct H as [Hne H].
      destruct (Hs id' room H) as [H1 H2]. split; [exact H1|].
      rewrite lookup_delete_ne; [exact H2|].
      intros E'. apply roomKey_inj in E'. contradiction.
    + intros k v H Hp. apply lookup_delete_Some in H. destruct H as [Hne H].
      destruct (Hm k v H Hp) as (id' & room & -> & H1 & H2).
      exists id', room. rewrite lookup_delete_ne; [auto|]. congruence.
Qed.

Lemma Consistent_run rs : forall s,
  Consistent s -> Consistent (run safeTokenCompare s rs).
Proof.
  induction rs as [|r rs IH]; intros s HC; [exact HC|].
  cbn [run]. apply IH, Consistent_handle. exact HC.
Qed.

Lemma initRooms_lookup (l : list StoredRoom) : forall m id r,
  (forall a b, In a l -> In b l -> room_id (meta a) = room_id (meta b) -> a = b) ->
  initRooms l m !! id = Some r
  <-> (In r l /\ room_id (meta r) = id)
      \/ (m !! id = Some r /\ forall a, In a l -> room_id (meta a) <> id).
Proof.
  induction l as [|x l IH]; intros m id r Hf; cbn [initRooms fold_left].
  - cbn [In]. split; [auto|]. intros [[[] _]|[H _]]. exact H.
  - change (fold_left _ l ?m0) with (initRooms l m0).
    rewrite IH by (intros a b Ha Hb; apply Hf; right; assumption).
    split.
    + intros [[Hin Hid]|[Hl Hno]].
      * left. split; [right; exact Hin|exact Hid].
      * destruct (decide (room_id (meta x) = id)) as [E|E].
        -- rewrite <- E, lookup_insert_eq in Hl. inversion Hl. subst r.
           left. split; [left; reflexivity|exact E].
        -- rewrite lookup_insert_ne in Hl by exact E. right. split; [exact Hl|].
           intros a [->|Ha]; [exact E|apply Hno; exact Ha].
    + intros [[[->|Hin] Hid]|[Hl Hno]].
      * destruct (existsb (fun a => String.eqb (room_id (meta a)) id) l) eqn:Ex.
        -- apply existsb_exists in Ex. destruct Ex as (a & Ha & Ea).
           apply String.eqb_eq in Ea. left.
           assert (a = r).
           { apply Hf; [right; exact Ha|left; reflexivity|congruence]. }
           subst a. auto.
        -- right. rewrite <- Hid, lookup_insert_eq. split; [reflexivity|].
           intros a Ha Ea. rewrite Hid in Ea.
           assert (Hc : existsb (fun a => String.eqb (room_id (meta a)) id) l = true).
           { apply existsb_exists. exists a. split; [exact Ha|].
             apply String.eqb_eq. exact Ea. }
           congruence.
      * left. auto.
      * right. assert (E : room_id (meta x) <> id) by (apply Hno; left; reflexivity).
        rewrite lookup_insert_ne by exact E. split; [exact Hl|].
        intros a Ha. apply Hno. right. exact Ha.
Qed.

Context {L : JsonLaws J}.

Lemma boot_recovers s : Consistent s -> rooms (boot (store s)) = rooms s.
Proof.
  intros [Hs Hm]. unfold boot. cbn [rooms].
  assert (Hmem : forall r,
            In r (loadRooms (store s))
            <-> rooms s !! room_id (meta r) = Some r).
  { intros r.
    assert (Hparse : forall k v, store s !! k = Some v ->
                       startsWith "room:" k = true -> is_Some (parse v)).
    { intros k v H Hp. destruct (Hm k v H Hp) as (id & room & _ & _ & ->).
      rewrite parse_stringify. eauto. }
    rewrite (loadRooms_reads_room_entries_aux (store s) Hparse r). split.
    - intros (k & v & H & Hp & Hv).
      destruct (Hm k v H Hp) as (id & room & -> & Hr & ->).
      rewrite parse_stringify in Hv. inversion Hv. subst room.
      destruct (Hs id r Hr) as [E _]. rewrite E. exact Hr.
    - intros Hr. destruct (Hs _ r Hr) as [_ Hst].
      exists (roomKey (room_id (meta r))), (stringify r).
      split; [exact Hst|]. split; [apply roomKey_prefix|apply parse_stringify]. }
  apply map_eq. intros id. apply option_eq. intros r.
  rewrite initRooms_lookup.
  - rewrite lookup_empty, Hmem. split.
    + intros [[H E]|[H _]]; [|discriminate]. rewrite E in H. exact H.
    + intros H. left. destruct (Hs id r H) as [E _]. rewrite E. auto.
  - intros a b Ha Hb E. apply Hmem in Ha, Hb. rewrite E in Ha. congruence.
Qed.

(** X24.  Rooms survive a restart.  Start with an empty registry over a
    store without room keys and serve any sequence of REST requests; then a
    fresh process that runs [initRooms] over the store as it is (every
    write having landed) builds exactly the registry the old process had:
    the same ids, with the same tokens, names, creation times and host
    user-ids, and nothing that was deleted. *)
Theorem rooms_survive_restart (db : gmap string bytes) (rs : list Request) :
  noRoomKeys db ->
  rooms (boot (store (run safeTokenCompare (mkState ∅ db) rs)))
  = rooms (run safeTokenCompare (mkState ∅ db) rs).
Proof.
  intros Hno. apply boot_recovers, Consistent_run, Consistent_empty. exact Hno.
Qed.

End Router.

Lemma loadRooms_reads_room_entries_witness :
  loadRooms corruptStore = [roomA].
Proof.
  destruct (loadRooms_reads_room_entries corruptStore) as [_ H].
  destruct (H [("doc:a:x.md", [1; 2]%Z); ("room:a", stringify roomA)]
              "room:b" [0%Z] [("room:c", stringify roomC)]) as [E _].
  - vm_compute. reflexivity.
  - reflexivity.
  - reflexivity.
  - rewrite E. vm_compute. reflexivity.
Defined.

Lemma created_room_policy_witness :
  Control.serverRequireApproval
    (getRoom
       (rooms (fst (postRoom (mkState ∅ ∅) notesBody "V1StGXR8_Z5j"
                      "0123456789abcdefghijklmn" 1700000000000%Z)))
       "V1StGXR8_Z5j") = false.
Proof.
  exact (proj1 (created_room_policy (mkState ∅ ∅) notesBody "V1StGXR8_Z5j"
                  "0123456789abcdefghijklmn" 1700000000000%Z _ "Notes" eq_refl)).
Defined.

Lemma created_room_is_joinable_witness :
  upgrade
    (getRoom
       (rooms (fst (postRoom (mkState ∅ ∅) notesBody "V1StGXR8_Z5j"
                      "0123456789abcdefghijklmn" 1700000000000%Z))))
    false noJwt
    (mkURL "/control/V1StGXR8_Z5j" [("token", "0123456789abcdefghijklmn")])
  = ControlConnection "V1StGXR8_Z5j".
Proof.
  assert (Ht : "0123456789abcdefghijklmn" <> EmptyString) by discriminate.
  assert (Hi : "V1StGXR8_Z5j" <> EmptyString) by discriminate.
  exact (proj2 (proj2 (proj2
           (created_room_is_joinable Gateway.safeTokenCompare (mkState ∅ ∅)
              notesBody "V1StGXR8_Z5j" "0123456789abcdefghijklmn"
              1700000000000%Z _ "Notes" noJwt
              eq_refl eq_refl Ht Hi eq_refl eq_refl)))).
Defined.

Lemma delete_needs_the_token_witness :
  snd (deleteRoomById Gateway.safeTokenCompare
         (mkState (<["abc" := mkStoredRoom room1 "Notes" 0%Z]> ∅) ∅) "abc"
         (bearer roomToken)) = Deleted
  /\ fst (deleteRoomById Gateway.safeTokenCompare
            (mkState (<["abc" := mkStoredRoom room1 "Notes" 0%Z]> ∅) ∅) "abc"
            (bearer "guess"))
     = mkState (<["abc" := mkStoredRoom room1 "Notes" 0%Z]> ∅) ∅.
Proof.
  split.
  - destruct (delete_needs_the_token Gateway.safeTokenCompare
                (mkState (<["abc" := mkStoredRoom room1 "Notes" 0%Z]> ∅) ∅)
                "abc" (mkStoredRoom room1 "Notes" 0%Z) (bearer roomToken)
                safeTokenCompare_Ok_true (lookup_insert_eq _ _ _))
      as ([_ H] & _).
    apply H. reflexivity.
  - destruct (delete_needs_the_token Gateway.safeTokenCompare
                (mkState (<["abc" := mkStoredRoom room1 "Notes" 0%Z]> ∅) ∅)
                "abc" (mkStoredRoom room1 "Notes" 0%Z) (bearer "guess")
                safeTokenCompare_Ok_true (lookup_insert_eq _ _ _))
      as ([H0 _] & _ & H).
    apply H. intros Hd. apply H0 in Hd. discriminate.
Defined.

Lemma rooms_survive_restart_witness :
  rooms (boot (store (run Gateway.safeTokenCompare (mkState ∅ ∅) restRun)))
  = rooms (run Gateway.safeTokenCompare (mkState ∅ ∅) restRun).
Proof.
  apply (rooms_survive_restart (L := toyJson_laws) Gateway.safeTokenCompare ∅ restRun).
  intros k v H. rewrite lookup_empty in H. discriminate.
Defined.

End RoomsProofs.
